(** * Judgarr: punishment decision engine and size aggregation

  A shallow embedding of the parts of Judgarr that decide punishments
  (judgarr/core/punishments), persist them (judgarr/database/manager.py),
  aggregate request sizes (judgarr/core/tracking/calculator.py), page
  through the broker (judgarr/api/overseerr/client.py) and report a
  user's standing (judgarr/core/user_management.py).

  Conventions.
  - Python [int] is [Z]; a configured [float] threshold is a rational
    [Q] (a finite float is a dyadic rational, scaling by 2^30 is exact,
    and Python compares an int with a float exactly).  Infinite and NaN
    thresholds are outside the model.
  - [datetime] values are instants on one time line, as [Z], in
    microseconds from [datetime.min]; the clock reading [datetime.now()]
    is an explicit argument.
  - A coroutine is a state transformer that either returns a value or
    raises; the state survives a raise (the SQLite connection runs in
    autocommit mode, every statement is durable once executed). *)

From Stdlib Require Import ZArith QArith List Lia Bool.
From Stdlib Require Import String DecimalString DecimalZ DecimalPos.
From stdpp Require Import base option list sorting gmap strings.

Local Close Scope Q_scope.
Local Open Scope Z_scope.

(** ** Exceptions and the result of a call *)

Inductive Exception : Type :=
| ValueError (msg : string)
| KeyError (msg : string)
| APIError (msg : string)
| RateLimitError (msg : string)
| AuthenticationError (msg : string)
| IntegrityError (msg : string)
| OperationalError (msg : string)
| OverflowError (msg : string).

(** [isinstance(e, APIError)]: the two subclasses of judgarr/api/base.py
  are API errors too. *)
Definition is_APIError (e : Exception) : bool :=
match e with
| APIError _ | RateLimitError _ | AuthenticationError _ => true
| _ => false
end.

(** [str(e)] *)
Definition str_exn (e : Exception) : string :=
match e with
| ValueError m | KeyError m | APIError m | RateLimitError m
| AuthenticationError m | IntegrityError m | OperationalError m
| OverflowError m => m
end.

Inductive Result (A : Type) : Type :=
| Ok (a : A)
| Raise (e : Exception).
Arguments Ok {A} a.
Arguments Raise {A} e.

(** ** Coroutines: state and exceptions *)

Definition M (S A : Type) : Type := S -> Result A * S.

Definition ret {S A} (a : A) : M S A := fun s => (Ok a, s).

Definition bind {S A B} (m : M S A) (k : A -> M S B) : M S B :=
  fun s =>
    match m s with
    | (Ok a, s') => k a s'
    | (Raise e, s') => (Raise e, s')
    end.

Definition raise {S A} (e : Exception) : M S A := fun s => (Raise e, s).

(** [try: body  except <class> as e: handler(e)] *)
Definition try_except {S A} (body : M S A) (catches : Exception -> bool)
    (handler : Exception -> M S A) : M S A :=
  fun s =>
    match body s with
    | (Ok a, s') => (Ok a, s')
    | (Raise e, s') => if catches e then handler e s' else (Raise e, s')
    end.

(** [except Exception] catches every exception of the model. *)
Definition any_Exception (e : Exception) : bool := true.

Definition get_state {S} : M S S := fun s => (Ok s, s).
Definition put_state {S} (s : S) : M S unit := fun _ => (Ok tt, s).

Declare Scope coro_scope.
Delimit Scope coro_scope with coro.
Notation "'let*' x ':=' m 'in' k" := (bind m (fun x => k))
  (at level 10, x pattern, m at level 100, k at level 200) : coro_scope.
Notation "m ';;;' k" := (bind m (fun _ => k))
  (at level 100, k at level 200, right associativity) : coro_scope.
Local Open Scope coro_scope.

(** ** Text of numbers *)

(** [str(n)] for an [int]. *)
Definition str_Z (z : Z) : string := NilZero.string_of_int (Z.to_int z).

(** [int(s)] on an optionally signed decimal numeral, which is what
    [str] of an [int] produces; anything else raises [ValueError].  (Python
    also accepts surrounding blanks, a plus sign and underscores; no
    caller in this model builds such text.) *)
Definition int_of_str (s : string) : Result Z :=
  match NilZero.int_of_string s with
  | Some d => Ok (Z.of_int d)
  | None => Raise (ValueError ("invalid literal for int() with base 10: " ++ s))
  end.

(** [f"{x:.1f}"] for a finite float [x], given by its exact rational
    value: the nearest multiple of 1/10, a tie going to the even one. *)
Definition round_tenths (x : Q) : Z :=
  let n := 10 * Qnum x in
  let d := Z.pos (Qden x) in
  let q := n / d in
  let r := n mod d in
  if 2 * r <? d then q
  else if d <? 2 * r then q + 1
  else if Z.even q then q else q + 1.

Definition format_1f (x : Q) : string :=
  let t := round_tenths x in
  let a := Z.abs t in
  let sign := if Qnum x <? 0 then "-"%string else ""%string in
  (sign ++ str_Z (a / 10) ++ "." ++ str_Z (a mod 10))%string.

(** ** judgarr/core/punishments/levels.py *)

Module Levels.

Inductive PunishmentLevel : Type := NONE | WARNING | MILD | SEVERE | MAXIMUM.

#[global] Instance PunishmentLevel_eq_dec : EqDecision PunishmentLevel.
Proof. solve_decision. Defined.

(** The integer each member carries ([class PunishmentLevel(int, Enum)]). *)
Definition value (l : PunishmentLevel) : Z :=
  match l with
  | NONE => 0 | WARNING => 1 | MILD => 2 | SEVERE => 3 | MAXIMUM => 4
  end.

(** [PunishmentLevel(n)]: lookup by value, [ValueError] when no member
    has it. *)
Definition of_value (n : Z) : Result PunishmentLevel :=
  match n with
  | 0 => Ok NONE | 1 => Ok WARNING | 2 => Ok MILD | 3 => Ok SEVERE
  | 4 => Ok MAXIMUM
  | _ => Raise (ValueError (str_Z n ++ " is not a valid PunishmentLevel"))
  end.

(** Truth value of a member: it is an [int], so only [NONE] is falsy. *)
Definition truthy (l : PunishmentLevel) : bool := negb (value l =? 0).

End Levels.
Import Levels.

(** ** judgarr/database/models/__init__.py

    The package shadows the sibling module [database/models.py]; these are
    the classes the rest of the code imports.  Instants are microseconds
    on the time line. *)

Definition UserId : Type := string.

Module UserRequest.
Record t : Type := mk {
  id : Z;
  user_id : UserId;
  media_id : string;
  media_type : string;
  request_date : Z;
  size_bytes : Z;
  status : string }.
End UserRequest.

Module UserPunishment.
Record t : Type := mk {
  id : Z;
  user_id : UserId;
  level : Z;
  start_date : Z;
  end_date : Z;
  cooldown_days : Z;
  request_reduction : Z;
  reason : option string;
  data_usage : Z;
  is_active : bool }.
End UserPunishment.

Module UserStats.
Record t : Type := mk {
  user_id : UserId;
  username : string;
  total_data_usage : Z;
  punishment_level : Z;
  cooldown_days : Z;
  request_limit : Z;
  total_requests : Z;
  current_punishment_id : option Z;
  last_request_date : option Z }.
End UserStats.

Module UserData.
Record t : Type := mk {
  user_id : UserId;
  total_requests : Z;
  request_frequency : Q;
  movie_requests : Z;
  tv_requests : Z;
  last_processed : Z }.
End UserData.

(** [timedelta(days=n)] *)
Definition timedelta_days (n : Z) : Z := n * 86400000000.

(** *** Arithmetic on dates that can overflow

    [datetime] covers the years 1 to 9999; counted from [datetime.min],
    the last instant is [datetime.max] below.  A [timedelta] holds at most
    999999999 days, and its constructor converts the days to a C [int]
    first. *)
Definition datetime_max : Z := 3652059 * 86400000000 - 1.

Definition timedelta (days : Z) : Result Z :=
  if (days <? -2147483648) || (2147483647 <? days)
  then Raise (OverflowError "Python int too large to convert to C int")
  else if 999999999 <? Z.abs days
  then Raise (OverflowError ("days=" ++ str_Z days
                             ++ "; must have magnitude <= 999999999"))
  else Ok (timedelta_days days).

(** [d + delta] on a [datetime] *)
Definition datetime_add (d delta : Z) : Result Z :=
  if (d + delta <? 0) || (datetime_max <? d + delta)
  then Raise (OverflowError "date value out of range")
  else Ok (d + delta).

(** ** judgarr/config/models/punishment.py *)

Module Config.

Record ThresholdsConfig : Type := {
  t_warning : Q; t_mild : Q; t_severe : Q; t_maximum : Q }.

Record CooldownConfig : Type := {
  c_warning : Z; c_mild : Z; c_severe : Z; c_maximum : Z }.

Record RequestLimitConfig : Type := {
  r_warning : Z; r_mild : Z; r_severe : Z; r_maximum : Z }.

Record PunishmentConfig : Type := {
  tracking_period_days : Z;
  thresholds : ThresholdsConfig;
  cooldowns : CooldownConfig;
  request_limits : RequestLimitConfig }.

(** The field validators: each returns whether the value is accepted. *)
Definition validate_threshold (v : Q) : bool := negb (Qle_bool v 0).
Definition validate_cooldown (v : Z) : bool := negb (v <=? 0).
Definition validate_limit (v : Z) : bool := negb (v >? 0) && negb (v <? -100).
Definition validate_tracking_period (v : Z) : bool := negb (v <=? 0).

Definition default_thresholds : ThresholdsConfig :=
  {| t_warning := 500; t_mild := 750; t_severe := 1000; t_maximum := 1500 |}.
Definition default_cooldowns : CooldownConfig :=
  {| c_warning := 3; c_mild := 5; c_severe := 7; c_maximum := 14 |}.
Definition default_request_limits : RequestLimitConfig :=
  {| r_warning := 0; r_mild := -5; r_severe := -10; r_maximum := -15 |}.
Definition default_config : PunishmentConfig :=
  {| tracking_period_days := 30;
     thresholds := default_thresholds;
     cooldowns := default_cooldowns;
     request_limits := default_request_limits |}.

End Config.

(** ** judgarr/core/punishments/calculator.py *)

Module Calculator.
Import Config.

Definition bytes_per_gb : Z := 1024 * 1024 * 1024.

(** The three dictionaries built by [__init__], in insertion order. *)
Record PunishmentCalculator : Type := {
  config : PunishmentConfig;
  thresholds : list (PunishmentLevel * Q);
  cooldowns : list (PunishmentLevel * Z);
  reductions : list (PunishmentLevel * Z);
  tracking_period_days : Z }.

Definition gb_to_bytes (gb : Q) : Q := Qmult gb (inject_Z bytes_per_gb).

Definition init (cfg : PunishmentConfig) : PunishmentCalculator :=
  {| config := cfg;
     thresholds :=
       [ (WARNING, gb_to_bytes (t_warning (Config.thresholds cfg)));
         (MILD, gb_to_bytes (t_mild (Config.thresholds cfg)));
         (SEVERE, gb_to_bytes (t_severe (Config.thresholds cfg)));
         (MAXIMUM, gb_to_bytes (t_maximum (Config.thresholds cfg))) ];
     cooldowns :=
       [ (WARNING, c_warning (Config.cooldowns cfg));
         (MILD, c_mild (Config.cooldowns cfg));
         (SEVERE, c_severe (Config.cooldowns cfg));
         (MAXIMUM, c_maximum (Config.cooldowns cfg)) ];
     reductions :=
       [ (WARNING, r_warning (request_limits cfg));
         (MILD, r_mild (request_limits cfg));
         (SEVERE, r_severe (request_limits cfg));
         (MAXIMUM, r_maximum (request_limits cfg)) ];
     tracking_period_days := Config.tracking_period_days cfg |}.

(** [total_data_bytes >= threshold] *)
Definition exceeds (total_data_bytes : Z) (threshold : Q) : bool :=
  Qle_bool threshold (inject_Z total_data_bytes).

(** The loop over [self.thresholds.items()]: every level whose threshold
    is met overwrites [new_level]. *)
Definition scan_thresholds (items : list (PunishmentLevel * Q))
    (total_data_bytes : Z) (new_level : PunishmentLevel) : PunishmentLevel :=
  fold_left
    (fun acc item => if exceeds total_data_bytes (snd item) then fst item else acc)
    items new_level.

Definition determine_punishment_level (self : PunishmentCalculator)
    (total_data_bytes : Z) (current_level : option PunishmentLevel)
    : PunishmentLevel :=
  if decide (current_level = Some MAXIMUM) then MAXIMUM
  else
    let new_level := scan_thresholds (thresholds self) total_data_bytes NONE in
    match current_level with
    | Some cur =>
        if truthy cur && (value cur >? value new_level) then cur else new_level
    | None => new_level
    end.

(** [d[key]] on one of the dictionaries. *)
Definition getitem {V} (d : list (PunishmentLevel * V)) (key : PunishmentLevel)
    : Result V :=
  match List.find (fun item => bool_decide (fst item = key)) d with
  | Some item => Ok (snd item)
  | None => Raise (KeyError (str_Z (value key)))
  end.

Definition threshold_reason (new_level : PunishmentLevel) (threshold_gb : Q)
    : string :=
  ("Exceeded " ++ str_Z (value new_level) ++ " data usage threshold "
   ++ "(threshold: " ++ format_1f threshold_gb ++ "GB)")%string.

(** [calculate_punishment]; [now_start] and [now_end] are the two readings
    of the clock, counted from [datetime.min]; [None] is the Python [None]
    result.  The end date is computed while the arguments of the record
    are evaluated, after the start date and before the reason. *)
Definition calculate_punishment (self : PunishmentCalculator)
    (now_start now_end : Z)
    (user_data : UserData.t) (total_data_bytes : Z)
    (current_punishment : option UserPunishment.t)
    : Result (option UserPunishment.t) :=
  let current_level :=
    match current_punishment with
    | Some p =>
        if UserPunishment.is_active p
        then match of_value (UserPunishment.level p) with
             | Ok l => Ok (Some l)
             | Raise e => Raise e
             end
        else Ok None
    | None => Ok None
    end in
  match current_level with
  | Raise e => Raise e
  | Ok current_level =>
      let new_level :=
        determine_punishment_level self total_data_bytes current_level in
      if decide (new_level = NONE) then Ok None
      else
        match getitem (cooldowns self) new_level with
        | Raise e => Raise e
        | Ok cooldown_days =>
        match getitem (reductions self) new_level with
        | Raise e => Raise e
        | Ok request_reduction =>
        match getitem (thresholds self) new_level with
        | Raise e => Raise e
        | Ok threshold =>
            let threshold_gb := Qdiv threshold (inject_Z bytes_per_gb) in
            match timedelta cooldown_days with
            | Raise e => Raise e
            | Ok delta =>
            match datetime_add now_end delta with
            | Raise e => Raise e
            | Ok end_date =>
                Ok (Some
                  {| UserPunishment.id := 0;
                     UserPunishment.user_id := UserData.user_id user_data;
                     UserPunishment.level := value new_level;
                     UserPunishment.start_date := now_start;
                     UserPunishment.end_date := end_date;
                     UserPunishment.cooldown_days := cooldown_days;
                     UserPunishment.request_reduction := request_reduction;
                     UserPunishment.reason :=
                       Some (threshold_reason new_level threshold_gb);
                     UserPunishment.data_usage := total_data_bytes;
                     UserPunishment.is_active := true |})
            end end
        end end end
  end.

End Calculator.


(** ** judgarr/database/manager.py

    The operations of [DatabaseManager] that the punishment and user
    managers call.  The managers are written against this interface (the
    repository's tests replace it by mocks); [Sqlite] below is the
    implementation over the tables of judgarr/database/schema.py. *)

Class DatabaseManager (S : Type) : Type := {
  add_request : UserRequest.t -> M S Z;
  add_punishment : UserPunishment.t -> M S Z;
  get_active_punishment : UserId -> M S (option UserPunishment.t);
  get_user_stats : UserId -> M S (option UserStats.t);
  create_punishment :
    UserId -> Z -> Z -> Z -> Z -> Z -> Z -> bool -> option string ->
    M S UserPunishment.t;
  deactivate_punishment : UserId -> option string -> M S unit;
  save_user_stats : UserStats.t -> M S unit;
  get_user_requests :
    UserId -> option Z -> option Z -> M S (list UserRequest.t);
  create_user_stats : UserStats.t -> M S unit }.

Module Sqlite.

(** A row of [user_stats] without its primary key [user_id], which is the
    key of the map below. *)
Record StatsRow : Type := {
  username : string;
  total_data_usage : Z;
  total_requests : Z;
  punishment_level : Z;
  cooldown_days : Z;
  request_limit : Z;
  last_request_date : option Z;
  current_punishment_id : option Z }.

(** The tables.  [punishments] has an AUTOINCREMENT key, whose last used
    value SQLite keeps in [sqlite_sequence]; [user_stats] is keyed by
    [user_id].  The [created_at] and [updated_at] columns, which only the
    timestamp triggers write, are left out. *)
Record Store : Type := {
  requests : list UserRequest.t;
  punishments : list UserPunishment.t;
  punishments_seq : Z;
  user_stats : gmap string StatsRow }.

Definition empty : Store :=
  {| requests := []; punishments := []; punishments_seq := 0; user_stats := ∅ |}.

Definition set_requests (rs : list UserRequest.t) (s : Store) : Store :=
  {| requests := rs; punishments := punishments s;
     punishments_seq := punishments_seq s; user_stats := user_stats s |}.

Definition set_punishments (ps : list UserPunishment.t) (seq : Z) (s : Store)
    : Store :=
  {| requests := requests s; punishments := ps;
     punishments_seq := seq; user_stats := user_stats s |}.

Definition set_user_stats (us : gmap string StatsRow) (s : Store) : Store :=
  {| requests := requests s; punishments := punishments s;
     punishments_seq := punishments_seq s; user_stats := us |}.

(** The rowid a plain INTEGER PRIMARY KEY gets: one more than the largest
    in the table. *)
Definition next_rowid (ids : list Z) : Z := 1 + fold_right Z.max 0 ids.

(** The rowid an AUTOINCREMENT key gets: one more than the largest ever
    used. *)
Definition next_autoincrement (seq : Z) (ids : list Z) : Z :=
  1 + fold_right Z.max seq ids.

(** [CHECK (media_type IN ('movie', 'tv'))] *)
Definition check_media_type (media_type : string) : bool :=
  bool_decide (media_type = "movie"%string) || bool_decide (media_type = "tv"%string).

(** [WHERE user_id = ? AND is_active = 1] *)
Definition active_for (user_id : UserId) (p : UserPunishment.t) : bool :=
  bool_decide (UserPunishment.user_id p = user_id) && UserPunishment.is_active p.

Definition set_is_active (b : bool) (p : UserPunishment.t) : UserPunishment.t :=
  {| UserPunishment.id := UserPunishment.id p;
     UserPunishment.user_id := UserPunishment.user_id p;
     UserPunishment.level := UserPunishment.level p;
     UserPunishment.start_date := UserPunishment.start_date p;
     UserPunishment.end_date := UserPunishment.end_date p;
     UserPunishment.cooldown_days := UserPunishment.cooldown_days p;
     UserPunishment.request_reduction := UserPunishment.request_reduction p;
     UserPunishment.reason := UserPunishment.reason p;
     UserPunishment.data_usage := UserPunishment.data_usage p;
     UserPunishment.is_active := b |}.

Definition set_reason (r : option string) (p : UserPunishment.t) : UserPunishment.t :=
  {| UserPunishment.id := UserPunishment.id p;
     UserPunishment.user_id := UserPunishment.user_id p;
     UserPunishment.level := UserPunishment.level p;
     UserPunishment.start_date := UserPunishment.start_date p;
     UserPunishment.end_date := UserPunishment.end_date p;
     UserPunishment.cooldown_days := UserPunishment.cooldown_days p;
     UserPunishment.request_reduction := UserPunishment.request_reduction p;
     UserPunishment.reason := r;
     UserPunishment.data_usage := UserPunishment.data_usage p;
     UserPunishment.is_active := UserPunishment.is_active p |}.

Definition set_id (i : Z) (p : UserPunishment.t) : UserPunishment.t :=
  {| UserPunishment.id := i;
     UserPunishment.user_id := UserPunishment.user_id p;
     UserPunishment.level := UserPunishment.level p;
     UserPunishment.start_date := UserPunishment.start_date p;
     UserPunishment.end_date := UserPunishment.end_date p;
     UserPunishment.cooldown_days := UserPunishment.cooldown_days p;
     UserPunishment.request_reduction := UserPunishment.request_reduction p;
     UserPunishment.reason := UserPunishment.reason p;
     UserPunishment.data_usage := UserPunishment.data_usage p;
     UserPunishment.is_active := UserPunishment.is_active p |}.

(** [INSERT INTO punishments (...)]: the key is assigned by the table,
    [reason TEXT NOT NULL] rejects a missing reason. *)
Definition insert_punishment (row : UserPunishment.t) : M Store Z :=
  fun s =>
    match UserPunishment.reason row with
    | None =>
        (Raise (IntegrityError "NOT NULL constraint failed: punishments.reason"), s)
    | Some _ =>
        let new_id :=
          next_autoincrement (punishments_seq s)
            (map UserPunishment.id (punishments s)) in
        (Ok new_id,
         set_punishments (punishments s ++ [set_id new_id row]) new_id s)
    end.

(** [UPDATE punishments SET is_active = 0 WHERE user_id = ? AND is_active = 1] *)
Definition deactivate_rows (user_id : UserId) (reason : option string)
    (rows : list UserPunishment.t) : list UserPunishment.t :=
  map (fun p =>
         if active_for user_id p
         then set_is_active false
                (match reason with
                 | Some r => set_reason (Some r) p
                 | None => p
                 end)
         else p) rows.

Definition add_request (request : UserRequest.t) : M Store Z :=
  fun s =>
    let uid := UserRequest.user_id request in
    let stats' :=
      match user_stats s !! uid with
      | None =>
          <[ uid :=
             {| username := ("user_" ++ uid)%string;
                total_data_usage := UserRequest.size_bytes request;
                total_requests := 1;
                punishment_level := 0;
                cooldown_days := 0;
                request_limit := 10;
                last_request_date := None;
                current_punishment_id := None |} ]> (user_stats s)
      | Some row =>
          <[ uid :=
             {| username := username row;
                total_data_usage :=
                  total_data_usage row + UserRequest.size_bytes request;
                total_requests := total_requests row + 1;
                punishment_level := punishment_level row;
                cooldown_days := cooldown_days row;
                request_limit := request_limit row;
                last_request_date := last_request_date row;
                current_punishment_id := current_punishment_id row |} ]>
            (user_stats s)
      end in
    let s1 := set_user_stats stats' s in
    if check_media_type (UserRequest.media_type request) then
      let request_id := next_rowid (map UserRequest.id (requests s1)) in
      (Ok request_id,
       set_requests
         (requests s1 ++
          [ {| UserRequest.id := request_id;
               UserRequest.user_id := uid;
               UserRequest.media_id := UserRequest.media_id request;
               UserRequest.media_type := UserRequest.media_type request;
               UserRequest.request_date := UserRequest.request_date request;
               UserRequest.size_bytes := UserRequest.size_bytes request;
               UserRequest.status := UserRequest.status request |} ]) s1)
    else
      (Raise (IntegrityError
                "CHECK constraint failed: media_type IN ('movie', 'tv')"), s1).

Definition add_punishment (punishment : UserPunishment.t) : M Store Z :=
  let uid := UserPunishment.user_id punishment in
  let* s := get_state in
  put_state
    (set_punishments (deactivate_rows uid None (punishments s))
       (punishments_seq s) s) ;;;
  let* punishment_id := insert_punishment punishment in
  let* s := get_state in
  put_state
    (set_user_stats
       (alter
          (fun row =>
             {| username := username row;
                total_data_usage := total_data_usage row;
                total_requests := total_requests row;
                punishment_level := UserPunishment.level punishment;
                cooldown_days := UserPunishment.cooldown_days punishment;
                request_limit := request_limit row;
                last_request_date := last_request_date row;
                current_punishment_id := Some punishment_id |})
          uid (user_stats s)) s) ;;;
  ret punishment_id.

(** [ORDER BY start_date DESC LIMIT 1]: a row with the greatest
    [start_date]; among equal ones (where SQL fixes no order) the first
    in the table. *)
Definition latest (rows : list UserPunishment.t) : option UserPunishment.t :=
  fold_left
    (fun best p =>
       match best with
       | None => Some p
       | Some b =>
           if UserPunishment.start_date b <? UserPunishment.start_date p
           then Some p else Some b
       end) rows None.

Definition get_active_punishment (user_id : UserId)
    : M Store (option UserPunishment.t) :=
  fun s => (Ok (latest (filter (fun p => active_for user_id p = true) (punishments s))), s).

Definition get_user_stats (user_id : UserId) : M Store (option UserStats.t) :=
  fun s =>
    (Ok (match user_stats s !! user_id with
         | None => None
         | Some row =>
             Some {| UserStats.user_id := user_id;
                     UserStats.username := username row;
                     UserStats.total_data_usage := total_data_usage row;
                     UserStats.punishment_level := punishment_level row;
                     UserStats.cooldown_days := cooldown_days row;
                     UserStats.request_limit := request_limit row;
                     UserStats.total_requests := total_requests row;
                     UserStats.current_punishment_id := None;
                     UserStats.last_request_date := None |}
         end), s).

Definition create_punishment (user_id : UserId) (level : Z)
    (start_date end_date : Z) (cooldown_days request_reduction data_usage : Z)
    (is_active : bool) (reason : option string) : M Store UserPunishment.t :=
  let row :=
    {| UserPunishment.id := 0;
       UserPunishment.user_id := user_id;
       UserPunishment.level := level;
       UserPunishment.start_date := start_date;
       UserPunishment.end_date := end_date;
       UserPunishment.cooldown_days := cooldown_days;
       UserPunishment.request_reduction := request_reduction;
       UserPunishment.reason := reason;
       UserPunishment.data_usage := data_usage;
       UserPunishment.is_active := is_active |} in
  let* punishment_id := insert_punishment row in
  ret (set_id punishment_id row).

Definition deactivate_punishment (user_id : UserId) (reason : option string)
    : M Store unit :=
  let* s := get_state in
  put_state
    (set_punishments (deactivate_rows user_id reason (punishments s))
       (punishments_seq s) s).

(** [UPDATE user_stats SET ... WHERE user_id = ?]: no row, no change. *)
Definition save_user_stats (stats : UserStats.t) : M Store unit :=
  let* s := get_state in
  put_state
    (set_user_stats
       (alter
          (fun row =>
             {| username := UserStats.username stats;
                total_data_usage := UserStats.total_data_usage stats;
                total_requests := UserStats.total_requests stats;
                punishment_level := UserStats.punishment_level stats;
                cooldown_days := UserStats.cooldown_days stats;
                request_limit := UserStats.request_limit stats;
                last_request_date := last_request_date row;
                current_punishment_id := current_punishment_id row |})
          (UserStats.user_id stats) (user_stats s)) s).

(** [SELECT * FROM requests WHERE user_id = ? [AND request_date >= ?]
    [AND request_date <= ?] ORDER BY request_date DESC].  The table holds
    the dates as ISO-8601 text and compares the text, which is the order
    of the instants as long as all dates are written with the same UTC
    offset (all naive, or all in UTC); this definition covers that case.
    Rows of equal date come in no order that SQL fixes; here they come as
    [merge_sort] leaves them. *)
Definition selected (user_id : UserId) (start_date end_date : option Z)
    (r : UserRequest.t) : bool :=
  bool_decide (UserRequest.user_id r = user_id)
  && match start_date with
     | Some sd => sd <=? UserRequest.request_date r
     | None => true
     end
  && match end_date with
     | Some ed => UserRequest.request_date r <=? ed
     | None => true
     end.

Definition newer_first (a b : UserRequest.t) : Prop :=
  UserRequest.request_date b <= UserRequest.request_date a.

#[global] Instance newer_first_dec (a b : UserRequest.t)
    : Decision (newer_first a b) :=
  Z_le_dec (UserRequest.request_date b) (UserRequest.request_date a).

Definition get_user_requests (user_id : UserId) (start_date end_date : option Z)
    : M Store (list UserRequest.t) :=
  fun s =>
    (Ok (merge_sort newer_first
           (List.filter (selected user_id start_date end_date) (requests s))),
     s).

(** [INSERT INTO user_stats (user_id, total_requests, total_data_usage,
    current_punishment_id, last_request_date)]: the statement names no
    [username], a column declared NOT NULL without a default, so the table
    rejects the row. *)
Definition create_user_stats (stats : UserStats.t) : M Store unit :=
  raise (IntegrityError "NOT NULL constraint failed: user_stats.username").

End Sqlite.

#[global] Instance sqlite_manager : DatabaseManager Sqlite.Store := {|
  add_request := Sqlite.add_request;
  add_punishment := Sqlite.add_punishment;
  get_active_punishment := Sqlite.get_active_punishment;
  get_user_stats := Sqlite.get_user_stats;
  create_punishment := Sqlite.create_punishment;
  deactivate_punishment := Sqlite.deactivate_punishment;
  save_user_stats := Sqlite.save_user_stats;
  get_user_requests := Sqlite.get_user_requests;
  create_user_stats := Sqlite.create_user_stats |}.

(** ** judgarr/core/punishments/manager.py *)

Module PunishmentManager.
Section Manager.
Context {S : Type} {db : DatabaseManager S}.

(** [process_user_behavior]: the calculator's verdict, persisted through
    the database manager's [create_punishment]. *)
Definition process_user_behavior (calculator : Calculator.PunishmentCalculator)
    (now_start now_end : Z) (user_data : UserData.t) (total_data_bytes : Z)
    (current_punishment : option UserPunishment.t)
    : M S (option UserPunishment.t) :=
  match Calculator.calculate_punishment calculator now_start now_end
          user_data total_data_bytes current_punishment with
  | Raise e => raise e
  | Ok None => ret None
  | Ok (Some punishment) =>
      create_punishment
        (UserPunishment.user_id punishment)
        (UserPunishment.level punishment)
        (UserPunishment.start_date punishment)
        (UserPunishment.end_date punishment)
        (UserPunishment.cooldown_days punishment)
        (UserPunishment.request_reduction punishment)
        (UserPunishment.data_usage punishment)
        (UserPunishment.is_active punishment)
        (UserPunishment.reason punishment) ;;;
      ret (Some punishment)
  end.

(** [get_active_punishment]: [self.db] is always set, the call is passed
    on. *)
Definition manager_get_active_punishment (user_id : UserId)
    : M S (option UserPunishment.t) :=
  get_active_punishment user_id.

(** [reset_punishment]; the handler's [print] has no effect on the
    state. *)
Definition reset_punishment (user_id : UserId) (reason : option string)
    : M S bool :=
  try_except
    (let* current := get_active_punishment user_id in
     match current with
     | None => ret true
     | Some _ =>
         deactivate_punishment user_id reason ;;;
         ret true
     end)
    any_Exception
    (fun e => ret false).

(** The new value of [stats.request_limit]; [//] is the floor division. *)
Definition reduced_limit (request_limit request_reduction : Z) : Z :=
  Z.max 5 (request_limit - (request_limit * request_reduction) / 100).

(** [PunishmentManager.create_punishment] *)
Definition manager_create_punishment (user_id : UserId) (level : Z)
    (start_date end_date : Z) (cooldown_days request_reduction data_usage : Z)
    (reason : string) : M S UserPunishment.t :=
  let* stats := get_user_stats user_id in
  match stats with
  | Some stats =>
      save_user_stats
        {| UserStats.user_id := UserStats.user_id stats;
           UserStats.username := UserStats.username stats;
           UserStats.total_data_usage := UserStats.total_data_usage stats;
           UserStats.punishment_level := level;
           UserStats.cooldown_days := cooldown_days;
           UserStats.request_limit :=
             reduced_limit (UserStats.request_limit stats) request_reduction;
           UserStats.total_requests := UserStats.total_requests stats;
           UserStats.current_punishment_id := UserStats.current_punishment_id stats;
           UserStats.last_request_date := UserStats.last_request_date stats |}
  | None => ret tt
  end ;;;
  create_punishment user_id level start_date end_date cooldown_days
    request_reduction data_usage true (Some reason).

End Manager.
End PunishmentManager.

(** ** judgarr/core/user_management.py *)

Module UserStatus.

Record t : Type := mk {
  user_id : UserId;
  total_requests : Z;
  total_data_usage : Z;
  current_punishment : option UserPunishment.t;
  last_request_date : option Z }.

(** The three properties; [now] is [datetime.now()]. *)
Definition is_punished (now : Z) (self : t) : bool :=
  match current_punishment self with
  | None => false
  | Some p => UserPunishment.is_active p && (now <? UserPunishment.end_date p)
  end.

(** [delta.days] is the floor of the difference in days. *)
Definition remaining_cooldown_days (now : Z) (self : t) : Z :=
  match current_punishment self with
  | Some p =>
      if is_punished now self
      then Z.max 0 ((UserPunishment.end_date p - now) / timedelta_days 1)
      else 0
  | None => 0
  end.

Definition current_request_limit (now : Z) (self : t) : Z :=
  match current_punishment self with
  | Some p =>
      if is_punished now self
      then Z.max 0 (100 - UserPunishment.request_reduction p)
      else 100
  | None => 100
  end.

End UserStatus.

Module UserManager.
Section Manager.
Context {S : Type} {db : DatabaseManager S}.

Definition manager_get_user_stats (user_id : UserId) : M S (option UserStats.t) :=
  get_user_stats user_id.

(** [get_user_status]; [now_utc] is [datetime.now(timezone.utc)]. *)
Definition manager_get_user_status (now_utc : Z) (user_id : UserId)
    : M S UserStatus.t :=
  let* stats := get_user_stats user_id in
  let* stats :=
    match stats with
    | Some stats => ret stats
    | None =>
        let stats :=
          {| UserStats.user_id := user_id;
             UserStats.username := "unknown";
             UserStats.total_data_usage := 0;
             UserStats.punishment_level := 0;
             UserStats.cooldown_days := 0;
             UserStats.request_limit := 100;
             UserStats.total_requests := 0;
             UserStats.current_punishment_id := None;
             UserStats.last_request_date := Some now_utc |} in
        create_user_stats stats ;;;
        ret stats
    end in
  let* punishment := PunishmentManager.manager_get_active_punishment user_id in
  let* requests := get_user_requests user_id None None in
  let last_request_date :=
    match requests with
    | [] => None
    | r :: rest =>
        Some (fold_right Z.max (UserRequest.request_date r)
                (map UserRequest.request_date rest))
    end in
  ret {| UserStatus.user_id := user_id;
         UserStatus.total_requests := UserStats.total_requests stats;
         UserStatus.total_data_usage := UserStats.total_data_usage stats;
         UserStatus.current_punishment := punishment;
         UserStatus.last_request_date :=
           match last_request_date with
           | Some d => Some d
           | None => UserStats.last_request_date stats
           end |}.

(** [add_request]; [now] is [datetime.now(timezone.utc)].  The database
    always reports a row id, so the [None] branch after the insert is
    never taken. *)
Definition manager_add_request (now : Z) (user_id : UserId)
    (media_id media_type : string) (size_bytes : Z)
    : M S (option UserRequest.t) :=
  let* punishment := PunishmentManager.manager_get_active_punishment user_id in
  match punishment with
  | Some p =>
      if UserPunishment.is_active p
      then raise (ValueError "User has active punishment")
      else ret tt
  | None => ret tt
  end ;;;
  let request :=
    {| UserRequest.id := 0;
       UserRequest.user_id := user_id;
       UserRequest.media_id := media_id;
       UserRequest.media_type := media_type;
       UserRequest.request_date := now;
       UserRequest.size_bytes := size_bytes;
       UserRequest.status := "pending" |} in
  let* request_id := add_request request in
  let* stats := manager_get_user_stats user_id in
  match stats with
  | Some stats =>
      save_user_stats
        {| UserStats.user_id := UserStats.user_id stats;
           UserStats.username := UserStats.username stats;
           UserStats.total_data_usage := UserStats.total_data_usage stats + size_bytes;
           UserStats.punishment_level := UserStats.punishment_level stats;
           UserStats.cooldown_days := UserStats.cooldown_days stats;
           UserStats.request_limit := UserStats.request_limit stats;
           UserStats.total_requests := UserStats.total_requests stats + 1;
           UserStats.current_punishment_id := UserStats.current_punishment_id stats;
           UserStats.last_request_date := UserStats.last_request_date stats |}
  | None => ret tt
  end ;;;
  ret (Some
    {| UserRequest.id := request_id;
       UserRequest.user_id := UserRequest.user_id request;
       UserRequest.media_id := UserRequest.media_id request;
       UserRequest.media_type := UserRequest.media_type request;
       UserRequest.request_date := UserRequest.request_date request;
       UserRequest.size_bytes := UserRequest.size_bytes request;
       UserRequest.status := UserRequest.status request |}).

End Manager.
End UserManager.

(** ** judgarr/api/overseerr/client.py *)

Module RequestData.
(** One element of the broker's ["results"]: the keys the code reads.
    [createdAt] is the instant its ISO-8601 text denotes. *)
Record t : Type := mk {
  id : Z;
  tmdbId : Z;
  mediaType : string;
  createdAt : Z;
  status : Z }.
End RequestData.

Module Response.
(** The broker's JSON answer: a key may be missing. *)
Record t : Type := mk {
  results : option (list RequestData.t);
  pageSize : option Z }.
End Response.

Module Params.
Record t : Type := mk {
  take : Z;
  skip : Z;
  status : option Z }.
End Params.

Module Overseerr.

(** What the broker answers to
    [GET /api/v1/user/{user_id}/requests?take&skip[&status]]. *)
Record OverseerrClient : Type := {
  transport : UserId -> Params.t -> Result Response.t }.

(** The state of a client run is the list of page fetches issued so far,
    oldest first. *)
Definition Log : Type := list (UserId * Params.t).

Definition get (self : OverseerrClient) (user_id : UserId) (params : Params.t)
    : M Log Response.t :=
  fun log => (transport self user_id params, log ++ [(user_id, params)]).

(** An optional argument that was given ([datetime] objects are always
    truthy). *)
Definition is_set {A} (o : option A) : bool :=
  match o with Some _ => true | None => false end.

(** The date test of [get_user_requests]: [true] when the request is
    kept. *)
Definition in_range (start_date end_date : option Z) (request : RequestData.t)
    : bool :=
  negb (match start_date with
        | Some sd => RequestData.createdAt request <? sd
        | None => false
        end)
  && negb (match end_date with
           | Some ed => ed <? RequestData.createdAt request
           | None => false
           end).

Definition get_user_requests (self : OverseerrClient) (user_id : UserId)
    (start_date end_date : option Z) (status : option Z)
    (page page_size : Z) : M Log Response.t :=
  let params :=
    {| Params.take := page_size;
       Params.skip := (page - 1) * page_size;
       Params.status :=
         match status with
         | Some st => if st =? 0 then None else Some st
         | None => None
         end |} in
  let* response := get self user_id params in
  if is_set start_date || is_set end_date then
    ret {| Response.results :=
             Some (List.filter (in_range start_date end_date)
                     (default [] (Response.results response)));
           Response.pageSize := Response.pageSize response |}
  else ret response.

(** The [while True] loop of [get_all_user_requests], run for at most
    [fuel] iterations; [None] when they do not suffice. *)
Fixpoint get_all_loop (fuel : nat) (self : OverseerrClient) (user_id : UserId)
    (start_date end_date : option Z) (status : option Z)
    (page : Z) (all_requests : list RequestData.t)
    : M Log (option (list RequestData.t)) :=
  match fuel with
  | O => ret None
  | Datatypes.S fuel' =>
      let* response :=
        get_user_requests self user_id start_date end_date status page 20 in
      let requests := default [] (Response.results response) in
      match requests with
      | [] => ret (Some all_requests)
      | _ =>
          let all_requests := all_requests ++ requests in
          if Z.of_nat (length requests) <? default 20 (Response.pageSize response)
          then ret (Some all_requests)
          else get_all_loop fuel' self user_id start_date end_date status
                 (page + 1) all_requests
      end
  end.

Definition get_all_user_requests (fuel : nat) (self : OverseerrClient)
    (user_id : UserId) (start_date end_date : option Z) (status : option Z)
    : M Log (option (list RequestData.t)) :=
  get_all_loop fuel self user_id start_date end_date status 1 [].

End Overseerr.

(** ** judgarr/core/tracking/calculator.py *)

Module SizeCalculator.

(** The fields of the library managers' records that the calculator
    reads. *)
Record Movie : Type := { movie_id : Z; movie_size_on_disk : Z }.
Record Series : Type := { series_id : Z; series_size_on_disk : Z }.
Record MediaIdentifiers : Type := {
  tmdb_id : Z; tvdb_id : option Z; imdb_id : option string }.

(** The calculator and its collaborators, each given by what it answers:
    [RadarrClient.get_movie_by_tmdb_id], [SonarrClient.get_series_by_tvdb_id]
    and [MediaCorrelationService.get_tv_identifiers] (whose cache only
    repeats earlier answers). *)
Record t : Type := {
  overseerr : Overseerr.OverseerrClient;
  radarr_get_movie_by_tmdb_id : Z -> Result (option Movie);
  sonarr_get_series_by_tvdb_id : Z -> Result (option Series);
  correlation_get_tv_identifiers : Z -> Result (option MediaIdentifiers) }.

Definition calculate_movie_request_size (self : t) (tmdb_id : Z) : Result Z :=
  match radarr_get_movie_by_tmdb_id self tmdb_id with
  | Raise e => Raise e
  | Ok None =>
      Raise (APIError ("Movie with TMDB ID " ++ str_Z tmdb_id ++ " not found"))
  | Ok (Some movie) => Ok (movie_size_on_disk movie)
  end.

Definition calculate_series_request_size (self : t) (tmdb_id : Z) : Result Z :=
  let not_found :=
    Raise (APIError ("Series with TMDB ID " ++ str_Z tmdb_id ++ " not found")) in
  match correlation_get_tv_identifiers self tmdb_id with
  | Raise e => Raise e
  | Ok None => not_found
  | Ok (Some identifiers) =>
      match tvdb_id identifiers with
      | None => not_found
      | Some tvdb =>
          if tvdb =? 0 then not_found
          else
            match sonarr_get_series_by_tvdb_id self tvdb with
            | Raise e => Raise e
            | Ok None =>
                Raise (APIError
                  ("Series with TVDB ID " ++ str_Z tvdb ++ " not found"))
            | Ok (Some series) => Ok (series_size_on_disk series)
            end
      end
  end.

Definition calculate_request_size (self : t) (request : UserRequest.t)
    : Result Z :=
  match int_of_str (UserRequest.media_id request) with
  | Raise e => Raise e
  | Ok tmdb_id =>
      if bool_decide (UserRequest.media_type request = "movie"%string)
      then calculate_movie_request_size self tmdb_id
      else if bool_decide (UserRequest.media_type request = "tv"%string)
      then calculate_series_request_size self tmdb_id
      else Raise (APIError
             ("Unknown media type: " ++ UserRequest.media_type request))
  end.

(** The broker request converted to the local model, size still 0. *)
Definition to_user_request (user_id : UserId) (request_data : RequestData.t)
    : UserRequest.t :=
  {| UserRequest.id := RequestData.id request_data;
     UserRequest.user_id := user_id;
     UserRequest.media_id := str_Z (RequestData.tmdbId request_data);
     UserRequest.media_type := RequestData.mediaType request_data;
     UserRequest.request_date := RequestData.createdAt request_data;
     UserRequest.size_bytes := 0;
     UserRequest.status := str_Z (RequestData.status request_data) |}.

Definition set_size_bytes (size : Z) (r : UserRequest.t) : UserRequest.t :=
  {| UserRequest.id := UserRequest.id r;
     UserRequest.user_id := UserRequest.user_id r;
     UserRequest.media_id := UserRequest.media_id r;
     UserRequest.media_type := UserRequest.media_type r;
     UserRequest.request_date := UserRequest.request_date r;
     UserRequest.size_bytes := size;
     UserRequest.status := UserRequest.status r |}.

Definition set_status (st : string) (r : UserRequest.t) : UserRequest.t :=
  {| UserRequest.id := UserRequest.id r;
     UserRequest.user_id := UserRequest.user_id r;
     UserRequest.media_id := UserRequest.media_id r;
     UserRequest.media_type := UserRequest.media_type r;
     UserRequest.request_date := UserRequest.request_date r;
     UserRequest.size_bytes := UserRequest.size_bytes r;
     UserRequest.status := st |}.

(** The [for request_data in requests] loop, from the running
    [total_size] and [processed_requests].  An [APIError] is caught and
    noted on the request; any other exception leaves the loop. *)
Fixpoint process_requests (self : t) (user_id : UserId)
    (requests : list RequestData.t) (total_size : Z)
    (processed_requests : list UserRequest.t)
    : Result (Z * list UserRequest.t) :=
  match requests with
  | [] => Ok (total_size, processed_requests)
  | request_data :: rest =>
      let request := to_user_request user_id request_data in
      match calculate_request_size self request with
      | Ok size =>
          process_requests self user_id rest (total_size + size)
            (processed_requests ++ [set_size_bytes size request])
      | Raise e =>
          if is_APIError e
          then process_requests self user_id rest total_size
                 (processed_requests ++ [set_status (str_exn e) request])
          else Raise e
      end
  end.

(** [calculate_user_requests_size]; [None] when the page loop was cut
    short by [fuel]. *)
Definition calculate_user_requests_size (fuel : nat) (self : t)
    (user_id : UserId) (start_date end_date : option Z)
    : M Overseerr.Log (option (Z * list UserRequest.t)) :=
  let* requests :=
    Overseerr.get_all_user_requests fuel (overseerr self) user_id
      start_date end_date None in
  match requests with
  | None => ret None
  | Some requests =>
      match process_requests self user_id requests 0 [] with
      | Ok r => ret (Some r)
      | Raise e => raise e
      end
  end.

End SizeCalculator.

(** * Properties *)

(** ** Vocabulary of the statements *)

Module Spec.
Import Calculator.

(** Level [l] is configured with a byte threshold that [total] meets. *)
Definition threshold_met (self : PunishmentCalculator) (total : Z)
    (l : PunishmentLevel) : Prop :=
  exists t, In (l, t) (thresholds self) /\ exceeds total t = true.

(** [r] is the highest configured level whose threshold is at most
    [total], or [NONE] when there is no such level. *)
Definition highest_exceeded (self : PunishmentCalculator) (total : Z)
    (r : PunishmentLevel) : Prop :=
  (r = NONE \/ threshold_met self total r)
  /\ forall l, threshold_met self total l -> value l <= value r.

(** [cur] is absent, or present and not above [r]. *)
Definition not_above (current_level : option PunishmentLevel)
    (r : PunishmentLevel) : Prop :=
  match current_level with
  | None => True
  | Some cur => value cur <= value r
  end.

Definition GB (n : Z) : Z := n * bytes_per_gb.

(** *** Pages of the broker *)

(** The query of the fetch for [page], as [get_all_user_requests] has
    [get_user_requests] build it (page size 20). *)
Definition page_params (status : option Z) (page : Z) : Params.t :=
  {| Params.take := 20;
     Params.skip := (page - 1) * 20;
     Params.status :=
       match status with
       | Some st => if st =? 0 then None else Some st
       | None => None
       end |}.

Definition items (r : Response.t) : list RequestData.t :=
  default [] (Response.results r).

(** The page size a response declares, 20 when it declares none. *)
Definition declared_page_size (r : Response.t) : Z :=
  default 20 (Response.pageSize r).

(** A full page holds exactly the page size, a short page fewer or
    nothing. *)
Definition full_page (r : Response.t) : Prop :=
  items r <> [] /\ Z.of_nat (length (items r)) = declared_page_size r.

Definition short_page (r : Response.t) : Prop :=
  items r = [] \/ Z.of_nat (length (items r)) < declared_page_size r.

(** The date bounds of the call drop no item of the page (always so when
    no bound is given). *)
Definition within_bounds (start_date end_date : option Z) (r : Response.t)
    : Prop :=
  Forall (fun x => Overseerr.in_range start_date end_date x = true) (items r).

(** The broker answers the fetches for pages [first], [first + 1], ...
    with [answers], in this order. *)
Definition serves (self : Overseerr.OverseerrClient) (user_id : UserId)
    (status : option Z) (first : Z) (answers : list Response.t) : Prop :=
  forall (i : nat) (r : Response.t),
    answers !! i = Some r ->
    Overseerr.transport self user_id (page_params status (first + Z.of_nat i))
    = Ok r.

(** The fetches for [n] pages from page [first] on, in order. *)
Definition fetches (user_id : UserId) (status : option Z) (first : Z) (n : nat)
    : Overseerr.Log :=
  map (fun i : nat => (user_id, page_params status (first + Z.of_nat i)))
    (seq 0 n).

(** *** Sizes of requests *)

(** What the size lookup of one fetched request gives. *)
Definition lookup (self : SizeCalculator.t) (user_id : UserId)
    (request_data : RequestData.t) : Result Z :=
  SizeCalculator.calculate_request_size self
    (SizeCalculator.to_user_request user_id request_data).

(** The lookup succeeds or fails with an API error. *)
Definition lookup_settled (self : SizeCalculator.t) (user_id : UserId)
    (request_data : RequestData.t) : Prop :=
  match lookup self user_id request_data with
  | Ok _ => True
  | Raise e => is_APIError e = true
  end.

Definition lookup_failed (self : SizeCalculator.t) (user_id : UserId)
    (request_data : RequestData.t) : Prop :=
  exists e, lookup self user_id request_data = Raise e /\ is_APIError e = true.

(** The sizes of the requests whose lookup succeeds. *)
Definition resolved_sizes (self : SizeCalculator.t) (user_id : UserId)
    (requests : list RequestData.t) : list Z :=
  omap (fun request_data =>
          match lookup self user_id request_data with
          | Ok size => Some size
          | Raise _ => None
          end) requests.

Definition sum_Z (l : list Z) : Z := foldr Z.add 0 l.

(** How a fetched request appears in the answer: resolved, with its size
    and the broker's status; or failed, with size 0 and the error's text
    as status. *)
Definition annotated (self : SizeCalculator.t) (user_id : UserId)
    (request_data : RequestData.t) (r : UserRequest.t) : Prop :=
  UserRequest.id r = RequestData.id request_data
  /\ UserRequest.user_id r = user_id
  /\ UserRequest.media_id r = str_Z (RequestData.tmdbId request_data)
  /\ UserRequest.media_type r = RequestData.mediaType request_data
  /\ match lookup self user_id request_data with
     | Ok size =>
         UserRequest.size_bytes r = size
         /\ UserRequest.status r = str_Z (RequestData.status request_data)
     | Raise e =>
         UserRequest.size_bytes r = 0
         /\ UserRequest.status r = str_exn e
     end.

End Spec.

(** ** Stores and collaborators used in examples *)

Module Scenario.

(** A database whose file cannot be written: reads answer from the
    tables, every write raises. *)
Definition readonly_error : Exception :=
  OperationalError "attempt to write a readonly database".

#[export] Instance readonly_manager : DatabaseManager Sqlite.Store := {|
  add_request := fun _ => raise readonly_error;
  add_punishment := fun _ => raise readonly_error;
  get_active_punishment := Sqlite.get_active_punishment;
  get_user_stats := Sqlite.get_user_stats;
  create_punishment := fun _ _ _ _ _ _ _ _ _ => raise readonly_error;
  deactivate_punishment := fun _ _ => raise readonly_error;
  save_user_stats := fun _ => raise readonly_error;
  get_user_requests := Sqlite.get_user_requests;
  create_user_stats := fun _ => raise readonly_error |}.

(** A database that cannot be opened at all. *)
Definition unavailable_error : Exception :=
  OperationalError "unable to open database file".

Definition unavailable_manager : DatabaseManager unit := {|
  add_request := fun _ => raise unavailable_error;
  add_punishment := fun _ => raise unavailable_error;
  get_active_punishment := fun _ => raise unavailable_error;
  get_user_stats := fun _ => raise unavailable_error;
  create_punishment := fun _ _ _ _ _ _ _ _ _ => raise unavailable_error;
  deactivate_punishment := fun _ _ => raise unavailable_error;
  save_user_stats := fun _ => raise unavailable_error;
  get_user_requests := fun _ _ _ => raise unavailable_error;
  create_user_stats := fun _ => raise unavailable_error |}.

Definition stats_row (limit : Z) : Sqlite.StatsRow :=
  {| Sqlite.username := "alice";
     Sqlite.total_data_usage := 0;
     Sqlite.total_requests := 0;
     Sqlite.punishment_level := 0;
     Sqlite.cooldown_days := 0;
     Sqlite.request_limit := limit;
     Sqlite.last_request_date := None;
     Sqlite.current_punishment_id := None |}.

(** One user, alice, with the given request limit and no punishment. *)
Definition store_with_limit (limit : Z) : Sqlite.Store :=
  Sqlite.set_user_stats {[ "alice"%string := stats_row limit ]} Sqlite.empty.

Definition warning_row : UserPunishment.t :=
  {| UserPunishment.id := 1;
     UserPunishment.user_id := "alice";
     UserPunishment.level := 1;
     UserPunishment.start_date := 0;
     UserPunishment.end_date := timedelta_days 3;
     UserPunishment.cooldown_days := 3;
     UserPunishment.request_reduction := 0;
     UserPunishment.reason := Some "first"%string;
     UserPunishment.data_usage := 0;
     UserPunishment.is_active := true |}.

(** alice with one active punishment. *)
Definition store_punished : Sqlite.Store :=
  Sqlite.set_punishments [warning_row] 1 (store_with_limit 100).

Definition alice_data : UserData.t :=
  {| UserData.user_id := "alice";
     UserData.total_requests := 0;
     UserData.request_frequency := 0%Q;
     UserData.movie_requests := 0;
     UserData.tv_requests := 0;
     UserData.last_processed := 0 |}.

(** The rows of [user_id] that are active, by id. *)
Definition active_ids (user_id : UserId) (s : Sqlite.Store) : list Z :=
  map UserPunishment.id
    (List.filter (Sqlite.active_for user_id) (Sqlite.punishments s)).

Definition persisted_limit (user_id : UserId) (s : Sqlite.Store) : option Z :=
  Sqlite.request_limit <$> (Sqlite.user_stats s !! user_id).

(** A broker with pages of two: two full pages and a last page of one. *)
Definition item (n : Z) (kind : string) (tmdb : Z) : RequestData.t :=
  {| RequestData.id := n; RequestData.tmdbId := tmdb;
     RequestData.mediaType := kind; RequestData.createdAt := 100 - n;
     RequestData.status := 2 |}.

Definition page_of (l : list RequestData.t) : Response.t :=
  {| Response.results := Some l; Response.pageSize := Some 2 |}.

Definition paged_broker : Overseerr.OverseerrClient :=
  {| Overseerr.transport := fun _ params =>
       if Params.skip params =? 0
       then Ok (page_of [item 1 "movie" 603; item 2 "movie" 604])
       else if Params.skip params =? 20
       then Ok (page_of [item 3 "tv" 1396; item 4 "movie" 11])
       else if Params.skip params =? 40
       then Ok (page_of [item 5 "movie" 12])
       else Raise (APIError "API request failed: 500 - ") |}.

(** A broker with a full page of twenty requests, numbered 1 to 20 and
    dated 99 down to 80, then a page with request 21, dated 79. *)
Definition twenty_requests : list RequestData.t :=
  map (fun n : nat => item (Z.of_nat n) "movie" 603) (seq 1 20).

Definition first_page : Response.t :=
  {| Response.results := Some twenty_requests; Response.pageSize := Some 20 |}.

Definition second_page : Response.t :=
  {| Response.results := Some [item 21 "movie" 603];
     Response.pageSize := Some 20 |}.

Definition full_broker : Overseerr.OverseerrClient :=
  {| Overseerr.transport := fun _ params =>
       if Params.skip params =? 0 then Ok first_page
       else if Params.skip params =? 20 then Ok second_page
       else Ok {| Response.results := Some []; Response.pageSize := Some 20 |} |}.

(** A broker with one short page of three requests. *)
Definition three_requests : list RequestData.t :=
  [item 1 "movie" 603; item 2 "movie" 604; item 3 "tv" 1396].

Definition small_broker : Overseerr.OverseerrClient :=
  {| Overseerr.transport := fun _ params =>
       if Params.skip params =? 0
       then Ok {| Response.results := Some three_requests;
                  Response.pageSize := Some 20 |}
       else Ok {| Response.results := Some []; Response.pageSize := Some 20 |} |}.

(** Library managers that know movie 603 and series 81189 (TMDB 1396),
    and nothing else. *)
Definition library (broker : Overseerr.OverseerrClient) : SizeCalculator.t :=
  {| SizeCalculator.overseerr := broker;
     SizeCalculator.radarr_get_movie_by_tmdb_id := fun tmdb =>
       if tmdb =? 603
       then Ok (Some {| SizeCalculator.movie_id := 1;
                        SizeCalculator.movie_size_on_disk := 4000 |})
       else Ok None;
     SizeCalculator.sonarr_get_series_by_tvdb_id := fun tvdb =>
       if tvdb =? 81189
       then Ok (Some {| SizeCalculator.series_id := 1;
                        SizeCalculator.series_size_on_disk := 9000 |})
       else Ok None;
     SizeCalculator.correlation_get_tv_identifiers := fun tmdb =>
       if tmdb =? 1396
       then Ok (Some {| SizeCalculator.tmdb_id := tmdb;
                        SizeCalculator.tvdb_id := Some 81189;
                        SizeCalculator.imdb_id := None |})
       else Ok None |}.

(** Library managers as [library], except that the movie manager's
    record of movie 604 does not validate: [Movie.model_validate] raises
    pydantic's [ValidationError], a [ValueError] and not an API error. *)
Definition faulty_library (broker : Overseerr.OverseerrClient)
    : SizeCalculator.t :=
  {| SizeCalculator.overseerr := broker;
     SizeCalculator.radarr_get_movie_by_tmdb_id := fun tmdb =>
       if tmdb =? 604
       then Raise (ValueError "1 validation error for Movie")
       else SizeCalculator.radarr_get_movie_by_tmdb_id (library broker) tmdb;
     SizeCalculator.sonarr_get_series_by_tvdb_id :=
       SizeCalculator.sonarr_get_series_by_tvdb_id (library broker);
     SizeCalculator.correlation_get_tv_identifiers :=
       SizeCalculator.correlation_get_tv_identifiers (library broker) |}.

(** Library managers that are out of reach. *)
Definition unreachable_library (broker : Overseerr.OverseerrClient)
    : SizeCalculator.t :=
  {| SizeCalculator.overseerr := broker;
     SizeCalculator.radarr_get_movie_by_tmdb_id := fun _ =>
       Raise (APIError "Request failed: Cannot connect to host");
     SizeCalculator.sonarr_get_series_by_tvdb_id := fun _ =>
       Raise (APIError "Request failed: Cannot connect to host");
     SizeCalculator.correlation_get_tv_identifiers := fun _ => Ok None |}.

End Scenario.

(** * More of the code

    The remaining operations of the files above, their callers and the
    helpers they use. *)

(** ** judgarr/database/manager.py, administrative operations *)

Class DatabaseAdmin (S : Type) : Type := {
  get_punishment : Z -> M S (option UserPunishment.t);
  update_punishment : UserPunishment.t -> M S unit;
  remove_user_punishments : UserId -> M S unit;
  adjust_user_limit : UserId -> Z -> string -> M S unit;
  update_user_stats : UserStats.t -> M S unit;
  get_request : Z -> M S (option UserRequest.t);
  ensure_user_exists : UserStats.t -> M S unit }.

Module SqliteAdmin.

(** [SELECT * FROM punishments WHERE id = ?]; an empty reason is read
    back as [None]. *)
Definition get_punishment (punishment_id : Z)
    : M Sqlite.Store (option UserPunishment.t) :=
  fun s =>
    (Ok (match List.find (fun p => UserPunishment.id p =? punishment_id)
                 (Sqlite.punishments s) with
         | None => None
         | Some row =>
             Some (Sqlite.set_reason
                     (match UserPunishment.reason row with
                      | Some r => if bool_decide (r = ""%string) then None else Some r
                      | None => None
                      end) row)
         end), s).

(** The row [p] after
    [UPDATE punishments SET level = ?, ..., reason = ? WHERE id = ?]
    with the values of [punishment]: [id] and [user_id] stay. *)
Definition updated_row (punishment p : UserPunishment.t) : UserPunishment.t :=
  {| UserPunishment.id := UserPunishment.id p;
     UserPunishment.user_id := UserPunishment.user_id p;
     UserPunishment.level := UserPunishment.level punishment;
     UserPunishment.start_date := UserPunishment.start_date punishment;
     UserPunishment.end_date := UserPunishment.end_date punishment;
     UserPunishment.cooldown_days := UserPunishment.cooldown_days punishment;
     UserPunishment.request_reduction := UserPunishment.request_reduction punishment;
     UserPunishment.reason := UserPunishment.reason punishment;
     UserPunishment.data_usage := UserPunishment.data_usage punishment;
     UserPunishment.is_active := UserPunishment.is_active punishment |}.

Definition has_id (punishment_id : Z) (p : UserPunishment.t) : bool :=
  UserPunishment.id p =? punishment_id.

(** [update_punishment]: a missing reason violates [reason TEXT NOT NULL],
    but only when a row is written. *)
Definition update_punishment (punishment : UserPunishment.t)
    : M Sqlite.Store unit :=
  fun s =>
    let pid := UserPunishment.id punishment in
    if existsb (has_id pid) (Sqlite.punishments s) then
      match UserPunishment.reason punishment with
      | None =>
          (Raise (IntegrityError "NOT NULL constraint failed: punishments.reason"), s)
      | Some _ =>
          (Ok tt,
           Sqlite.set_punishments
             (map (fun p => if has_id pid p then updated_row punishment p else p)
                (Sqlite.punishments s))
             (Sqlite.punishments_seq s) s)
      end
    else (Ok tt, s).

(** [DELETE FROM punishments WHERE user_id = ?]; the AUTOINCREMENT
    sequence keeps its value (foreign keys are not enforced, no PRAGMA
    turns them on). *)
Definition remove_user_punishments (user_id : UserId) : M Sqlite.Store unit :=
  fun s =>
    (Ok tt,
     Sqlite.set_punishments
       (List.filter
          (fun p => negb (bool_decide (UserPunishment.user_id p = user_id)))
          (Sqlite.punishments s))
       (Sqlite.punishments_seq s) s).

Definition set_request_limit (limit : Z) (row : Sqlite.StatsRow) : Sqlite.StatsRow :=
  {| Sqlite.username := Sqlite.username row;
     Sqlite.total_data_usage := Sqlite.total_data_usage row;
     Sqlite.total_requests := Sqlite.total_requests row;
     Sqlite.punishment_level := Sqlite.punishment_level row;
     Sqlite.cooldown_days := Sqlite.cooldown_days row;
     Sqlite.request_limit := limit;
     Sqlite.last_request_date := Sqlite.last_request_date row;
     Sqlite.current_punishment_id := Sqlite.current_punishment_id row |}.

(** [UPDATE user_stats SET request_limit = request_limit + ? WHERE
    user_id = ?]; the reason is not stored.  This is the statement on
    integers of the column's 64 bits: an adjustment beyond them cannot be
    bound to the statement, and a sum beyond them is stored as a REAL;
    both lie outside this definition (see [int64] below). *)
Definition adjust_user_limit (user_id : UserId) (adjustment : Z) (reason : string)
    : M Sqlite.Store unit :=
  fun s =>
    (Ok tt,
     Sqlite.set_user_stats
       (alter (fun row => set_request_limit (Sqlite.request_limit row + adjustment) row)
          user_id (Sqlite.user_stats s)) s).

(** [INSERT INTO user_stats (user_id, total_requests, total_data_usage,
    last_request_date) ... ON CONFLICT (user_id) DO UPDATE ...]: the row to
    insert has no [username]; SQLite tests NOT NULL before it looks for
    the conflict, so the statement fails whether or not the user has a
    row. *)
Definition update_user_stats (stats : UserStats.t) : M Sqlite.Store unit :=
  raise (IntegrityError "NOT NULL constraint failed: user_stats.username").

(** [SELECT * FROM requests WHERE id = ?] *)
Definition get_request (request_id : Z) : M Sqlite.Store (option UserRequest.t) :=
  fun s =>
    (Ok (List.find (fun r => UserRequest.id r =? request_id) (Sqlite.requests s)),
     s).

Definition ensure_user_exists (stats : UserStats.t) : M Sqlite.Store unit :=
  fun s =>
    match Sqlite.user_stats s !! UserStats.user_id stats with
    | Some _ => (Ok tt, s)
    | None =>
        (Ok tt,
         Sqlite.set_user_stats
           (<[ UserStats.user_id stats :=
               {| Sqlite.username := UserStats.username stats;
                  Sqlite.total_data_usage := UserStats.total_data_usage stats;
                  Sqlite.total_requests := UserStats.total_requests stats;
                  Sqlite.punishment_level := UserStats.punishment_level stats;
                  Sqlite.cooldown_days := UserStats.cooldown_days stats;
                  Sqlite.request_limit := UserStats.request_limit stats;
                  Sqlite.last_request_date := None;
                  Sqlite.current_punishment_id := None |} ]>
              (Sqlite.user_stats s)) s)
    end.

End SqliteAdmin.

#[global] Instance sqlite_admin : DatabaseAdmin Sqlite.Store := {|
  get_punishment := SqliteAdmin.get_punishment;
  update_punishment := SqliteAdmin.update_punishment;
  remove_user_punishments := SqliteAdmin.remove_user_punishments;
  adjust_user_limit := SqliteAdmin.adjust_user_limit;
  update_user_stats := SqliteAdmin.update_user_stats;
  get_request := SqliteAdmin.get_request;
  ensure_user_exists := SqliteAdmin.ensure_user_exists |}.

(** ** judgarr/core/punishments/manager.py, overrides *)

Module Override.
Section Manager.
Context {S : Type} {db : DatabaseManager S} {admin : DatabaseAdmin S}.

(** [override_punishment]; [now_start] and [now_end] are the two clock
    readings of the escalation. *)
Definition override_punishment (now_start now_end : Z) (user_id : UserId)
    (action reason : string) : M S (option UserPunishment.t) :=
  if bool_decide (action = "remove"%string) then
    let* current := get_active_punishment user_id in
    match current with
    | Some current => update_punishment (Sqlite.set_is_active false current)
    | None => ret tt
    end ;;;
    ret None
  else if bool_decide (action = "escalate"%string) then
    let punishment :=
      {| UserPunishment.id := 0;
         UserPunishment.user_id := user_id;
         UserPunishment.level := value SEVERE;
         UserPunishment.start_date := now_start;
         UserPunishment.end_date := now_end + timedelta_days 7;
         UserPunishment.cooldown_days := 7;
         UserPunishment.request_reduction := 50;
         UserPunishment.reason :=
           Some ("Administrative override: " ++ reason)%string;
         UserPunishment.data_usage := 0;
         UserPunishment.is_active := true |} in
    create_punishment
      (UserPunishment.user_id punishment)
      (UserPunishment.level punishment)
      (UserPunishment.start_date punishment)
      (UserPunishment.end_date punishment)
      (UserPunishment.cooldown_days punishment)
      (UserPunishment.request_reduction punishment)
      (UserPunishment.data_usage punishment)
      (UserPunishment.is_active punishment)
      (UserPunishment.reason punishment) ;;;
    ret (Some punishment)
  else ret None.

End Manager.
End Override.

(** ** judgarr/core/user_management.py, administrative operations *)

Module UserAdmin.
Section Manager.
Context {S : Type} {db : DatabaseManager S} {admin : DatabaseAdmin S}.

(** [reset_user_status]; [now] is [datetime.now()]. *)
Definition reset_user_status (now : Z) (user_id : UserId) (reason : string)
    : M S unit :=
  Override.override_punishment now now user_id "remove" reason ;;;
  remove_user_punishments user_id ;;;
  update_user_stats
    {| UserStats.user_id := user_id;
       UserStats.username := "unknown";
       UserStats.total_data_usage := 0;
       UserStats.punishment_level := 0;
       UserStats.cooldown_days := 0;
       UserStats.request_limit := 100;
       UserStats.total_requests := 0;
       UserStats.current_punishment_id := None;
       UserStats.last_request_date := Some now |}.

(** [adjust_request_limit]; [calculator] is the punishment manager's,
    [now], [now_start] and [now_end] the clock readings. *)
Definition adjust_request_limit (calculator : Calculator.PunishmentCalculator)
    (now now_start now_end : Z) (user_id : UserId) (adjustment : Z)
    (reason : string) : M S unit :=
  adjust_user_limit user_id adjustment reason ;;;
  if adjustment <? 0 then
    let user_data :=
      {| UserData.user_id := user_id;
         UserData.total_requests := 0;
         UserData.request_frequency := 0%Q;
         UserData.movie_requests := 0;
         UserData.tv_requests := 0;
         UserData.last_processed := now |} in
    let* punishment :=
      PunishmentManager.process_user_behavior calculator now_start now_end
        user_data 0 None in
    match punishment with
    | Some punishment =>
        let* stats := get_user_stats user_id in
        match stats with
        | Some stats =>
            update_user_stats
              {| UserStats.user_id := UserStats.user_id stats;
                 UserStats.username := UserStats.username stats;
                 UserStats.total_data_usage := UserStats.total_data_usage stats;
                 UserStats.punishment_level := UserStats.punishment_level stats;
                 UserStats.cooldown_days := UserStats.cooldown_days stats;
                 UserStats.request_limit := UserStats.request_limit stats;
                 UserStats.total_requests := UserStats.total_requests stats;
                 UserStats.current_punishment_id :=
                   Some (UserPunishment.id punishment);
                 UserStats.last_request_date := UserStats.last_request_date stats |}
        | None => ret tt
        end
    | None => ret tt
    end
  else
    Override.override_punishment now_start now_end user_id "remove" reason ;;;
    ret tt.

(** [create_user]; [now] is [datetime.now()]. *)
Definition create_user (now : Z) (user_id : UserId) (username : string)
    (total_data_usage total_requests : Z) : M S UserStats.t :=
  let stats :=
    {| UserStats.user_id := user_id;
       UserStats.username := username;
       UserStats.total_data_usage := total_data_usage;
       UserStats.punishment_level := 0;
       UserStats.cooldown_days := 0;
       UserStats.request_limit := 10;
       UserStats.total_requests := total_requests;
       UserStats.current_punishment_id := None;
       UserStats.last_request_date := Some now |} in
  save_user_stats stats ;;;
  ret stats.

End Manager.
End UserAdmin.

(** ** judgarr/api/overseerr/client.py, users *)

Module OverseerrUsers.
Section Users.
(** A user as the broker describes one; the client does not look inside. *)
Variable User : Type.

Record UsersResponse : Type := { user_results : option (list User) }.

(** What the broker answers to [GET /api/v1/user?take&skip]. *)
Record UsersClient : Type := {
  users_transport : Z -> Z -> Result UsersResponse }.

(** The fetches issued so far, each with its [take] and [skip]. *)
Definition UsersLog : Type := list (Z * Z).

Definition get_users (self : UsersClient) (take skip : Z)
    : M UsersLog UsersResponse :=
  fun log => (users_transport self take skip, log ++ [(take, skip)]).

(** The [while True] loop of [get_all_users], run for at most [fuel]
    iterations; [None] when they do not suffice. *)
Fixpoint get_all_users_loop (fuel : nat) (self : UsersClient) (skip : Z)
    (all_users : list User) : M UsersLog (option (list User)) :=
  match fuel with
  | O => ret None
  | Datatypes.S fuel' =>
      let take := 20 in
      let* response := get_users self take skip in
      let users := default [] (user_results response) in
      match users with
      | [] => ret (Some all_users)
      | _ =>
          let all_users := all_users ++ users in
          if Z.of_nat (length users) <? take
          then ret (Some all_users)
          else get_all_users_loop fuel' self (skip + take) all_users
      end
  end.

Definition get_all_users (fuel : nat) (self : UsersClient)
    : M UsersLog (option (list User)) :=
  get_all_users_loop fuel self 0 [].

End Users.
End OverseerrUsers.

(** ** judgarr/api/radarr/client.py and judgarr/api/sonarr/client.py,
    sizes of several items *)

Module Radarr.





End Radarr.

Module Sonarr.





End Sonarr.

(** ** judgarr/shared/utils/__init__.py and
    judgarr/core/tracking/service.py *)

Module Tracking.

(** [calculate_rolling_window]; [now] is [datetime.now()], [days] within
    the range of [timedelta]. *)
Definition calculate_rolling_window (now : Z) (days : Z) : Z * Z :=
  (now - timedelta_days days, now).

Record UserTrackingService : Type := {
  tracking_period_days : Z;
  calculator : SizeCalculator.t }.

(** [UserTrackingService.get_user_stats]; [None] when the page loop was
    cut short by [fuel]. *)
Definition get_user_stats (fuel : nat) (self : UserTrackingService) (now : Z)
    (user_id : UserId) (start_date end_date : option Z)
    : M Overseerr.Log (option UserStats.t) :=
  let window :=
    match start_date, end_date with
    | Some sd, Some ed => (sd, ed)
    | _, _ => calculate_rolling_window now (tracking_period_days self)
    end in
  let* r :=
    SizeCalculator.calculate_user_requests_size fuel (calculator self) user_id
      (Some (fst window)) (Some (snd window)) in
  match r with
  | None => ret None
  | Some (total_size, requests) =>
      ret (Some
        {| UserStats.user_id := user_id;
           UserStats.username := "unknown";
           UserStats.total_data_usage := total_size;
           UserStats.punishment_level := 0;
           UserStats.cooldown_days := 0;
           UserStats.request_limit := 100;
           UserStats.total_requests := Z.of_nat (length requests);
           UserStats.current_punishment_id := None;
           UserStats.last_request_date :=
             UserRequest.request_date <$> last requests |})
  end.


End Tracking.

(** ** Vocabulary and stores for the further properties *)

Module Cases.

(** A configuration that the validators of
    judgarr/config/models/punishment.py accept. *)
Definition valid_config (cfg : Config.PunishmentConfig) : bool :=
  Config.validate_tracking_period (Config.tracking_period_days cfg)
  && Config.validate_threshold (Config.t_warning (Config.thresholds cfg))
  && Config.validate_threshold (Config.t_mild (Config.thresholds cfg))
  && Config.validate_threshold (Config.t_severe (Config.thresholds cfg))
  && Config.validate_threshold (Config.t_maximum (Config.thresholds cfg))
  && Config.validate_cooldown (Config.c_warning (Config.cooldowns cfg))
  && Config.validate_cooldown (Config.c_mild (Config.cooldowns cfg))
  && Config.validate_cooldown (Config.c_severe (Config.cooldowns cfg))
  && Config.validate_cooldown (Config.c_maximum (Config.cooldowns cfg))
  && Config.validate_limit (Config.r_warning (Config.request_limits cfg))
  && Config.validate_limit (Config.r_mild (Config.request_limits cfg))
  && Config.validate_limit (Config.r_severe (Config.request_limits cfg))
  && Config.validate_limit (Config.r_maximum (Config.request_limits cfg)).

(** The value of an optional level, an absent one counting as NONE. *)
Definition value_of (current_level : option PunishmentLevel) : Z :=
  match current_level with
  | Some l => value l
  | None => 0
  end.

(** The cooldown and the reduction a configuration gives to a level. *)
Definition configured_cooldown (cfg : Config.PunishmentConfig)
    (l : PunishmentLevel) : Z :=
  match l with
  | NONE => 0
  | WARNING => Config.c_warning (Config.cooldowns cfg)
  | MILD => Config.c_mild (Config.cooldowns cfg)
  | SEVERE => Config.c_severe (Config.cooldowns cfg)
  | MAXIMUM => Config.c_maximum (Config.cooldowns cfg)
  end.

Definition configured_reduction (cfg : Config.PunishmentConfig)
    (l : PunishmentLevel) : Z :=
  match l with
  | NONE => 0
  | WARNING => Config.r_warning (Config.request_limits cfg)
  | MILD => Config.r_mild (Config.request_limits cfg)
  | SEVERE => Config.r_severe (Config.request_limits cfg)
  | MAXIMUM => Config.r_maximum (Config.request_limits cfg)
  end.

(** The current punishment is absent, inactive, or carries one of the
    five levels. *)
Definition level_readable (current_punishment : option UserPunishment.t) : Prop :=
  match current_punishment with
  | Some p =>
      UserPunishment.is_active p = true ->
      0 <= UserPunishment.level p <= 4
  | None => True
  end.

(** The level [calculate_punishment] takes as current. *)
Definition current_level_of (current_punishment : option UserPunishment.t)
    : option PunishmentLevel :=
  match current_punishment with
  | Some p =>
      if UserPunishment.is_active p
      then match of_value (UserPunishment.level p) with
           | Ok l => Some l
           | Raise _ => None
           end
      else None
  | None => None
  end.

(** What the schema guarantees of the punishments table: distinct ids
    (PRIMARY KEY), a reason in every row (NOT NULL), and no id above the
    AUTOINCREMENT sequence. *)
Definition table_invariant (s : Sqlite.Store) : Prop :=
  NoDup (map UserPunishment.id (Sqlite.punishments s))
  /\ Forall (fun p => is_Some (UserPunishment.reason p)
                      /\ UserPunishment.id p <= Sqlite.punishments_seq s)
       (Sqlite.punishments s).

(** All rows of a user, active or not. *)
Definition rows_of (user_id : UserId) (s : Sqlite.Store) : list UserPunishment.t :=
  List.filter (fun p => bool_decide (UserPunishment.user_id p = user_id))
    (Sqlite.punishments s).

Definition active_rows (user_id : UserId) (s : Sqlite.Store)
    : list UserPunishment.t :=
  List.filter (Sqlite.active_for user_id) (Sqlite.punishments s).

(** The row of a request as stored with the key [request_id]. *)
Definition stored_request (request_id : Z) (r : UserRequest.t) : UserRequest.t :=
  {| UserRequest.id := request_id;
     UserRequest.user_id := UserRequest.user_id r;
     UserRequest.media_id := UserRequest.media_id r;
     UserRequest.media_type := UserRequest.media_type r;
     UserRequest.request_date := UserRequest.request_date r;
     UserRequest.size_bytes := UserRequest.size_bytes r;
     UserRequest.status := UserRequest.status r |}.

(** What [get_punishment] reads back of a reason. *)
Definition read_reason (reason : string) : option string :=
  if bool_decide (reason = ""%string) then None else Some reason.

Definition second_row : UserPunishment.t :=
  {| UserPunishment.id := 2;
     UserPunishment.user_id := "alice";
     UserPunishment.level := 2;
     UserPunishment.start_date := 10;
     UserPunishment.end_date := 10 + timedelta_days 5;
     UserPunishment.cooldown_days := 5;
     UserPunishment.request_reduction := -5;
     UserPunishment.reason := Some "second"%string;
     UserPunishment.data_usage := 0;
     UserPunishment.is_active := true |}.

Definition bob_row : UserPunishment.t :=
  {| UserPunishment.id := 3;
     UserPunishment.user_id := "bob";
     UserPunishment.level := 1;
     UserPunishment.start_date := 20;
     UserPunishment.end_date := 20 + timedelta_days 3;
     UserPunishment.cooldown_days := 3;
     UserPunishment.request_reduction := 0;
     UserPunishment.reason := Some "bob's"%string;
     UserPunishment.data_usage := 0;
     UserPunishment.is_active := true |}.

(** alice with two active punishments (as two calls of
    [create_punishment] leave her) and bob with one. *)
Definition store_doubly_punished : Sqlite.Store :=
  Sqlite.set_punishments [Scenario.warning_row; second_row; bob_row] 3
    (Scenario.store_with_limit 100).

Definition movie_request (user_id : UserId) (date size : Z) : UserRequest.t :=
  {| UserRequest.id := 0;
     UserRequest.user_id := user_id;
     UserRequest.media_id := "603";
     UserRequest.media_type := "movie";
     UserRequest.request_date := date;
     UserRequest.size_bytes := size;
     UserRequest.status := "pending" |}.

(** *** Pages of users *)

Definition user_items {User : Type} (r : OverseerrUsers.UsersResponse User)
    : list User :=
  default [] (OverseerrUsers.user_results User r).

(** The broker answers the fetches at [skip], [skip + 20], ... (each with
    [take] 20) with [answers], in this order. *)
Definition users_served {User : Type} (self : OverseerrUsers.UsersClient User)
    (skip : Z) (answers : list (OverseerrUsers.UsersResponse User)) : Prop :=
  forall (i : nat) (r : OverseerrUsers.UsersResponse User),
    answers !! i = Some r ->
    OverseerrUsers.users_transport User self 20 (skip + 20 * Z.of_nat i) = Ok r.

Definition user_fetches (skip : Z) (n : nat) : OverseerrUsers.UsersLog :=
  map (fun i : nat => (20, skip + 20 * Z.of_nat i)) (seq 0 n).

Definition users_broker : OverseerrUsers.UsersClient nat :=
  {| OverseerrUsers.users_transport := fun take skip =>
       if skip =? 0
       then Ok {| OverseerrUsers.user_results := Some (seq 1 20) |}
       else if skip =? 20
       then Ok {| OverseerrUsers.user_results := Some [21%nat; 22%nat] |}
       else Raise (APIError "API request failed: 500 - ") |}.

(** *** Errors of the collaborators *)

(** A collaborator that fails only with API errors. *)
Definition api_errors_only {A B : Type} (f : A -> Result B) : Prop :=
  forall a e, f a = Raise e -> is_APIError e = true.

Definition collaborators_api_only (self : SizeCalculator.t) : Prop :=
  api_errors_only (SizeCalculator.radarr_get_movie_by_tmdb_id self)
  /\ api_errors_only (SizeCalculator.sonarr_get_series_by_tvdb_id self)
  /\ api_errors_only (SizeCalculator.correlation_get_tv_identifiers self).




(** The integers an INTEGER column holds. *)
Definition int64 (z : Z) : Prop :=
  -9223372036854775808 <= z <= 9223372036854775807.

(** The days a [timedelta] can hold; Python raises [OverflowError]
    outside. *)
Definition timedelta_range (days : Z) : Prop :=
  -999999999 <= days <= 999999999.


(** A broker that is out of reach. *)
Definition failing_broker : Overseerr.OverseerrClient :=
  {| Overseerr.transport := fun _ _ =>
       Raise (APIError "Request failed: Cannot connect to host") |}.

End Cases.

(** ** The punishment calculator *)

Section CalculatorFacts.
Import Calculator Spec.

Lemma value_nonneg l : 0 <= value l.
Proof. destruct l; simpl; lia. Qed.

Lemma value_inj l1 l2 : value l1 = value l2 -> l1 = l2.
Proof. destruct l1, l2; simpl; intros; (reflexivity || lia). Qed.

Lemma highest_exceeded_unique self total r1 r2 :
  highest_exceeded self total r1 -> highest_exceeded self total r2 -> r1 = r2.
Proof.
  intros [H1 U1] [H2 U2]. apply value_inj.
  pose proof (value_nonneg r1). pose proof (value_nonneg r2).
  destruct H1 as [-> | M1], H2 as [-> | M2]; try reflexivity.
  - specialize (U1 _ M2). simpl in *. lia.
  - specialize (U2 _ M1). simpl in *. lia.
  - specialize (U1 _ M2). specialize (U2 _ M1). lia.
Qed.

(** The scan of the dictionary built by [__init__] ends on the highest
    level whose threshold is met. *)
Lemma scan_init_highest cfg total :
  highest_exceeded (init cfg) total
    (scan_thresholds (thresholds (init cfg)) total NONE).
Proof.
  unfold scan_thresholds, highest_exceeded, threshold_met. simpl.
  set (tw := gb_to_bytes (Config.t_warning _)).
  set (tm := gb_to_bytes (Config.t_mild _)).
  set (ts := gb_to_bytes (Config.t_severe _)).
  set (tx := gb_to_bytes (Config.t_maximum _)).
  destruct (exceeds total tw) eqn:Ew, (exceeds total tm) eqn:Em,
    (exceeds total ts) eqn:Es, (exceeds total tx) eqn:Ex.
  all: split.
  all: try (left; reflexivity).
  all: try (right;
            first [ exists tx; split; [ | assumption ]
                  | exists ts; split; [ | assumption ]
                  | exists tm; split; [ | assumption ]
                  | exists tw; split; [ | assumption ] ];
            repeat (first [ left; reflexivity | right ]); fail).
  all: intros l (t & Hin & Ht).
  all: repeat (destruct Hin as [Hin | Hin];
               [ inversion Hin; subst l t; clear Hin;
                 first [ simpl; lia | congruence ] | ]).
  all: destruct Hin.
Qed.

(** C1: the level returned by [determine_punishment_level] is never below
    the current level, and when the current level is above the level the
    thresholds give, the current level is returned unchanged; this holds
    for every dictionary of thresholds, every total and every current
    level. *)
Theorem determine_punishment_level_never_decreases :
  forall (self : PunishmentCalculator) (total_data_bytes : Z)
         (cur : PunishmentLevel),
    value cur
      <= value (determine_punishment_level self total_data_bytes (Some cur))
    /\ (value (scan_thresholds (thresholds self) total_data_bytes NONE)
          < value cur ->
        determine_punishment_level self total_data_bytes (Some cur) = cur).
Proof.
  intros self total cur. unfold determine_punishment_level.
  destruct (decide (Some cur = Some MAXIMUM)) as [E | NE].
  - inversion E; subst. split; [simpl; lia | reflexivity].
  - set (new_level := scan_thresholds _ _ _).
    pose proof (value_nonneg new_level) as Hn.
    unfold truthy.
    destruct (value cur =? 0) eqn:E0; simpl.
    + apply Z.eqb_eq in E0. split; [lia | intros; lia].
    + destruct (value cur >? value new_level) eqn:Eg.
      * split; [lia | reflexivity].
      * rewrite Z.gtb_ltb in Eg. apply Z.ltb_ge in Eg.
        split; [lia | intros; lia].
Qed.

(** C1 at work: a MILD user whose usage is back in the WARNING range
    (600 GB under the default thresholds) stays MILD. *)
Lemma determine_punishment_level_never_decreases_witness :
  determine_punishment_level (init Config.default_config) (GB 600) (Some MILD)
  = MILD.
Proof.
  apply (proj2 (determine_punishment_level_never_decreases
                  (init Config.default_config) (GB 600) MILD)).
  vm_compute. reflexivity.
Defined.

(** C2: when [r] is the highest configured level whose byte threshold is
    at most the total, and the current level is absent or not above [r],
    [determine_punishment_level] returns [r] (such an [r] always exists);
    with the default thresholds 500/750/1000/1500 GB a total of 900 GB
    gives MILD; and with current level MAXIMUM the answer is MAXIMUM for
    every total. *)
Theorem determine_punishment_level_highest_exceeded :
  (forall (cfg : Config.PunishmentConfig) (total_data_bytes : Z)
          (current_level : option PunishmentLevel) (r : PunishmentLevel),
      highest_exceeded (init cfg) total_data_bytes r ->
      not_above current_level r ->
      determine_punishment_level (init cfg) total_data_bytes current_level = r)
  /\ (forall (cfg : Config.PunishmentConfig) (total_data_bytes : Z),
      exists r, highest_exceeded (init cfg) total_data_bytes r)
  /\ (forall current_level,
      not_above current_level MILD ->
      determine_punishment_level (init Config.default_config) (GB 900)
        current_level = MILD)
  /\ (forall (self : PunishmentCalculator) (total_data_bytes : Z),
      determine_punishment_level self total_data_bytes (Some MAXIMUM) = MAXIMUM).
Proof.
  assert (main : forall cfg total current_level r,
             highest_exceeded (init cfg) total r ->
             not_above current_level r ->
             determine_punishment_level (init cfg) total current_level = r).
  { intros cfg total current_level r Hr Hcur.
    pose proof (scan_init_highest cfg total) as Hs.
    pose proof (highest_exceeded_unique _ _ _ _ Hs Hr) as E.
    unfold determine_punishment_level.
    destruct (decide (current_level = Some MAXIMUM)) as [-> | NE].
    - simpl in Hcur. apply value_inj.
      pose proof (value_nonneg r). destruct r; simpl in *; lia.
    - rewrite E. destruct current_level as [cur |]; [ | reflexivity ].
      simpl in Hcur.
      destruct (value cur >? value r) eqn:Eg.
      + rewrite Z.gtb_ltb in Eg. apply Z.ltb_lt in Eg. lia.
      + rewrite andb_false_r. reflexivity. }
  split; [exact main | ].
  split; [intros; eexists; apply scan_init_highest | ].
  split.
  - intros current_level Hc. apply main; [ | exact Hc ].
    pose proof (scan_init_highest Config.default_config (GB 900)) as Hs.
    exact Hs.
  - intros self total. unfold determine_punishment_level.
    destruct (decide (Some MAXIMUM = Some MAXIMUM)); [reflexivity | congruence].
Qed.

(** The first part of C2 at work: default thresholds, 900 GB, current
    level WARNING. *)
Lemma determine_punishment_level_highest_exceeded_witness :
  determine_punishment_level (init Config.default_config) (GB 900)
    (Some WARNING) = MILD.
Proof.
  apply (proj1 determine_punishment_level_highest_exceeded).
  - exact (scan_init_highest Config.default_config (GB 900)).
  - simpl. lia.
Defined.

End CalculatorFacts.

(** ** The tables *)

Section SqliteFacts.
Import Sqlite Scenario.

Lemma latest_from_some rows b :
  exists p, fold_left
      (fun best p =>
         match best with
         | None => Some p
         | Some b =>
             if UserPunishment.start_date b <? UserPunishment.start_date p
             then Some p else Some b
         end) rows (Some b) = Some p /\ (p = b \/ In p rows).
Proof.
  revert b. induction rows as [| x rows IH]; intros b; simpl.
  - exists b. auto.
  - destruct (UserPunishment.start_date b <? UserPunishment.start_date x).
    + destruct (IH x) as (p & E & Hp). exists p. split; [exact E | ].
      destruct Hp; auto.
    + destruct (IH b) as (p & E & Hp). exists p. split; [exact E | ].
      destruct Hp; auto.
Qed.

Lemma latest_nonempty x rows :
  exists p, latest (x :: rows) = Some p /\ In p (x :: rows).
Proof.
  unfold latest. simpl. destruct (latest_from_some rows x) as (p & E & Hp).
  exists p. split; [exact E | ]. simpl. destruct Hp; auto.
Qed.

Lemma filter_active_none user_id rows :
  Forall (fun p => active_for user_id p = false) rows ->
  filter (fun p => active_for user_id p = true) rows = [].
Proof.
  induction 1 as [| p rows Hp _ IH]; [reflexivity | ].
  rewrite filter_cons. destruct (decide (active_for user_id p = true)) as [E | _].
  - congruence.
  - exact IH.
Qed.

(** Reading the active punishment: none when no row of the user is
    active. *)
Lemma get_active_punishment_none user_id s :
  Forall (fun p => active_for user_id p = false) (punishments s) ->
  Sqlite.get_active_punishment user_id s = (Ok None, s).
Proof.
  intros Hn. unfold Sqlite.get_active_punishment.
  rewrite (filter_active_none _ _ Hn). reflexivity.
Qed.

(** Reading the active punishment: an active row of the user when there
    is one. *)
Lemma get_active_punishment_some user_id s :
  Exists (fun p => active_for user_id p = true) (punishments s) ->
  exists p, Sqlite.get_active_punishment user_id s = (Ok (Some p), s)
            /\ In p (punishments s) /\ active_for user_id p = true.
Proof.
  intros Hex. unfold Sqlite.get_active_punishment.
  destruct (filter (fun p => active_for user_id p = true) (punishments s))
    as [| x rows] eqn:Ef.
  - exfalso. apply Exists_exists in Hex as (p & Hin & Hp).
    assert (p ∈ filter (fun p => active_for user_id p = true) (punishments s))
      as Hmem by (apply list_elem_of_filter; split; [exact Hp | exact Hin]).
    rewrite Ef in Hmem. inversion Hmem.
  - destruct (latest_nonempty x rows) as (p & E & Hp).
    exists p. rewrite E. split; [reflexivity | ].
    rewrite <- Ef in Hp. apply list_elem_of_In in Hp.
    apply list_elem_of_filter in Hp as [Ha Hin].
    split; [apply list_elem_of_In; exact Hin | exact Ha].
Qed.

Lemma active_for_set_is_active_false user_id p :
  active_for user_id (set_is_active false p) = false.
Proof. unfold active_for. simpl. apply andb_false_r. Qed.

(** After the deactivating UPDATE no row of the user is active. *)
Lemma deactivate_rows_inactive user_id reason rows :
  Forall (fun p => active_for user_id p = false)
    (deactivate_rows user_id reason rows).
Proof.
  unfold deactivate_rows. apply Forall_forall. intros q Hq.
  apply list_elem_of_In, in_map_iff in Hq as (p & <- & _).
  destruct (active_for user_id p) eqn:E.
  - apply active_for_set_is_active_false.
  - exact E.
Qed.

(** Where no row of the user is active the UPDATE changes nothing. *)
Lemma deactivate_rows_id user_id reason rows :
  Forall (fun p => active_for user_id p = false) rows ->
  deactivate_rows user_id reason rows = rows.
Proof.
  unfold deactivate_rows. induction 1 as [| p rows Hp _ IH]; [reflexivity | ].
  simpl. rewrite Hp, IH. reflexivity.
Qed.

(** The UPDATE leaves the active rows of every other user as they
    were. *)
Lemma deactivate_rows_other user_id other reason rows :
  other <> user_id ->
  List.filter (active_for other) (deactivate_rows user_id reason rows)
  = List.filter (active_for other) rows.
Proof.
  intros Hne. unfold deactivate_rows.
  induction rows as [| p rows IH]; [reflexivity | ].
  simpl. rewrite IH.
  destruct (active_for user_id p) eqn:Ea; [ | reflexivity ].
  assert (active_for other p = false) as Eo.
  { unfold active_for in *. apply andb_prop in Ea as [Eu _].
    apply bool_decide_eq_true in Eu.
    rewrite bool_decide_eq_false_2 by congruence. reflexivity. }
  rewrite Eo.
  replace (active_for other
             (set_is_active false
                (match reason with
                 | Some r => set_reason (Some r) p
                 | None => p
                 end))) with false
    by (unfold active_for; simpl; rewrite andb_false_r; reflexivity).
  reflexivity.
Qed.

End SqliteFacts.

(** ** Creating punishments *)

Section CreationFacts.
Import Sqlite Scenario.

Lemma filter_inactive_nil user_id rows :
  Forall (fun p => active_for user_id p = false) rows ->
  List.filter (active_for user_id) rows = [].
Proof.
  induction 1 as [| p rows Hp _ IH]; [reflexivity | ].
  simpl. rewrite Hp. exact IH.
Qed.

(** [add_punishment] does keep a single active row: whatever the user had
    before, the only active row afterwards is the inserted one. *)
Lemma add_punishment_single_active (punishment : UserPunishment.t) (s : Store) :
  UserPunishment.is_active punishment = true ->
  is_Some (UserPunishment.reason punishment) ->
  exists new_id s',
    Sqlite.add_punishment punishment s = (Ok new_id, s')
    /\ List.filter (active_for (UserPunishment.user_id punishment))
         (punishments s') = [set_id new_id punishment].
Proof.
  intros Hact [r Hr].
  unfold Sqlite.add_punishment, bind, get_state, put_state, ret,
    insert_punishment. simpl. rewrite Hr. simpl.
  eexists _, _. split; [reflexivity | ]. simpl.
  rewrite List.filter_app.
  rewrite (filter_inactive_nil _ _ (deactivate_rows_inactive _ _ _)).
  simpl. unfold active_for. simpl. rewrite Hact.
  rewrite bool_decide_eq_true_2 by reflexivity. reflexivity.
Qed.

(** [create_punishment] only appends: the rows that were active stay
    active. *)
Lemma create_punishment_keeps_active user_id level sd ed cd rr du reason s :
  exists p s',
    Sqlite.create_punishment user_id level sd ed cd rr du true (Some reason) s
      = (Ok p, s')
    /\ List.filter (active_for user_id) (punishments s')
       = List.filter (active_for user_id) (punishments s) ++ [p].
Proof.
  unfold Sqlite.create_punishment, bind, ret, insert_punishment. simpl.
  eexists _, _. split; [reflexivity | ]. simpl.
  rewrite List.filter_app. simpl. unfold active_for at 2. simpl.
  rewrite bool_decide_eq_true_2 by reflexivity. reflexivity.
Qed.

(** C3, evaluated where it fails: two punishments created in sequence for
    alice through [DatabaseManager.create_punishment] (the operation
    [PunishmentManager] calls) leave both rows, ids 1 and 2, active;
    created through [add_punishment] instead, only the second row, id 2,
    is active. *)
Theorem create_punishment_leaves_two_active :
  (let s1 := snd (Sqlite.create_punishment "alice" 1 0 (timedelta_days 3)
                    3 0 0 true (Some "first"%string) (store_with_limit 100)) in
   let s2 := snd (Sqlite.create_punishment "alice" 2 10 (10 + timedelta_days 5)
                    5 (-5) 0 true (Some "second"%string) s1) in
   active_ids "alice" s2 = [1; 2])
  /\ (let second :=
        {| UserPunishment.id := 0;
           UserPunishment.user_id := "alice";
           UserPunishment.level := 2;
           UserPunishment.start_date := 10;
           UserPunishment.end_date := 10 + timedelta_days 5;
           UserPunishment.cooldown_days := 5;
           UserPunishment.request_reduction := -5;
           UserPunishment.reason := Some "second"%string;
           UserPunishment.data_usage := 0;
           UserPunishment.is_active := true |} in
      let s1 := snd (Sqlite.add_punishment warning_row (store_with_limit 100)) in
      let s2 := snd (Sqlite.add_punishment second s1) in
      active_ids "alice" s2 = [2]).
Proof. split; vm_compute; reflexivity. Qed.

End CreationFacts.

(** ** Resetting punishments *)

Section ResetFacts.
Import Scenario PunishmentManager.

(** Whatever the database does, [reset_punishment] returns a boolean:
    no exception leaves it. *)
Lemma reset_punishment_total {S} (db : DatabaseManager S) user_id reason (s : S) :
  exists b s', reset_punishment (db := db) user_id reason s = (Ok b, s').
Proof.
  unfold reset_punishment, try_except, bind, ret, any_Exception.
  destruct (get_active_punishment (DatabaseManager := db) user_id s) as [[[p |] | e] s1]; eauto.
  destruct (deactivate_punishment (DatabaseManager := db) user_id reason s1) as [[[] | e] s2]; eauto.
Qed.

Lemma reset_punishment_read_error {S} (db : DatabaseManager S)
    user_id reason (s s1 : S) e :
  get_active_punishment (DatabaseManager := db) user_id s = (Raise e, s1) ->
  reset_punishment (db := db) user_id reason s = (Ok false, s1).
Proof.
  intros E. unfold reset_punishment, try_except, bind, ret, any_Exception.
  rewrite E. reflexivity.
Qed.

Lemma reset_punishment_write_error {S} (db : DatabaseManager S)
    user_id reason (s s1 s2 : S) p e :
  get_active_punishment (DatabaseManager := db) user_id s = (Ok (Some p), s1) ->
  deactivate_punishment (DatabaseManager := db) user_id reason s1 = (Raise e, s2) ->
  reset_punishment (db := db) user_id reason s = (Ok false, s2).
Proof.
  intros E1 E2. unfold reset_punishment, try_except, bind, ret, any_Exception.
  rewrite E1, E2. reflexivity.
Qed.

Lemma reset_punishment_nothing user_id reason (s : Sqlite.Store) :
  Forall (fun p => Sqlite.active_for user_id p = false) (Sqlite.punishments s) ->
  reset_punishment (db := sqlite_manager) user_id reason s = (Ok true, s).
Proof.
  intros Hn. unfold reset_punishment, try_except, bind, ret.
  cbn [get_active_punishment sqlite_manager].
  rewrite (get_active_punishment_none _ _ Hn). reflexivity.
Qed.

Lemma reset_punishment_deactivates user_id reason (s : Sqlite.Store) :
  Exists (fun p => Sqlite.active_for user_id p = true) (Sqlite.punishments s) ->
  reset_punishment (db := sqlite_manager) user_id reason s
  = (Ok true,
     Sqlite.set_punishments (Sqlite.deactivate_rows user_id reason (Sqlite.punishments s))
       (Sqlite.punishments_seq s) s).
Proof.
  intros Hex. unfold reset_punishment, try_except, bind, ret.
  cbn [get_active_punishment sqlite_manager].
  destruct (get_active_punishment_some _ _ Hex) as (p & E & _).
  rewrite E. reflexivity.
Qed.

Lemma deactivate_rows_ids user_id reason rows :
  map UserPunishment.id (Sqlite.deactivate_rows user_id reason rows)
  = map UserPunishment.id rows.
Proof.
  unfold Sqlite.deactivate_rows. rewrite map_map. apply map_ext.
  intros p. destruct (Sqlite.active_for user_id p); [ | reflexivity ].
  destruct reason; reflexivity.
Qed.

(** A row after the deactivation of the user's punishments: a row that
    was active for the user is the same row marked inactive, with the
    reason of the call in place of its own when one is given; any other
    row is as it was. *)
Lemma deactivate_rows_rowwise user_id reason rows :
  Forall2
    (fun p p' =>
       if Sqlite.active_for user_id p
       then p' = Sqlite.set_is_active false
                   (match reason with
                    | Some r => Sqlite.set_reason (Some r) p
                    | None => p
                    end)
       else p' = p)
    rows (Sqlite.deactivate_rows user_id reason rows).
Proof.
  induction rows as [| p rows IH]; [constructor | ].
  simpl. constructor; [ | exact IH ].
  destruct (Sqlite.active_for user_id p); reflexivity.
Qed.

(** C8: on the tables, [reset_punishment] for a user with no active
    punishment returns [True] and leaves the store as it was; for a user
    with an active punishment it returns [True] and the store is the one
    before with the user's active rows deactivated: no row is deleted or
    added, each row that was active for the user is the same row marked
    inactive (with the reason of the call when one is given), every other
    row, the requests and the statistics are as they were; so none of the
    user's rows is active afterwards and a second reset changes nothing.
    Over any database manager the call never raises, and an error raised
    by the read or by the deactivation is answered by [False]. *)
Theorem reset_punishment_idempotent_best_effort :
  (forall user_id reason (s : Sqlite.Store),
      Forall (fun p => Sqlite.active_for user_id p = false) (Sqlite.punishments s) ->
      reset_punishment (db := sqlite_manager) user_id reason s = (Ok true, s))
  /\ (forall user_id reason (s : Sqlite.Store),
      Exists (fun p => Sqlite.active_for user_id p = true) (Sqlite.punishments s) ->
      exists s',
        reset_punishment (db := sqlite_manager) user_id reason s = (Ok true, s')
        /\ Forall (fun p => Sqlite.active_for user_id p = false) (Sqlite.punishments s')
        /\ s' = Sqlite.set_punishments
                  (Sqlite.deactivate_rows user_id reason (Sqlite.punishments s))
                  (Sqlite.punishments_seq s) s
        /\ Sqlite.punishments_seq s' = Sqlite.punishments_seq s
        /\ map UserPunishment.id (Sqlite.punishments s')
           = map UserPunishment.id (Sqlite.punishments s)
        /\ Forall2
             (fun p p' =>
                if Sqlite.active_for user_id p
                then p' = Sqlite.set_is_active false
                            (match reason with
                             | Some r => Sqlite.set_reason (Some r) p
                             | None => p
                             end)
                else p' = p)
             (Sqlite.punishments s) (Sqlite.punishments s')
        /\ (forall other, other <> user_id ->
              List.filter (Sqlite.active_for other) (Sqlite.punishments s')
              = List.filter (Sqlite.active_for other) (Sqlite.punishments s))
        /\ Sqlite.requests s' = Sqlite.requests s
        /\ Sqlite.user_stats s' = Sqlite.user_stats s
        /\ reset_punishment (db := sqlite_manager) user_id reason s' = (Ok true, s'))
  /\ (forall S (db : DatabaseManager S) user_id reason (s : S),
      (exists b s', reset_punishment (db := db) user_id reason s = (Ok b, s'))
      /\ (forall e s1,
             get_active_punishment (DatabaseManager := db) user_id s = (Raise e, s1) ->
             reset_punishment (db := db) user_id reason s = (Ok false, s1))
      /\ (forall p e s1 s2,
             get_active_punishment (DatabaseManager := db) user_id s = (Ok (Some p), s1) ->
             deactivate_punishment (DatabaseManager := db) user_id reason s1 = (Raise e, s2) ->
             reset_punishment (db := db) user_id reason s = (Ok false, s2))).
Proof.
  split; [exact reset_punishment_nothing | ].
  split.
  - intros user_id reason s Hex. eexists. split.
    { apply reset_punishment_deactivates. exact Hex. }
    simpl. split; [apply deactivate_rows_inactive | ].
    split; [reflexivity | ]. split; [reflexivity | ].
    split; [apply deactivate_rows_ids | ].
    split; [apply deactivate_rows_rowwise | ].
    split.
    { intros other Hne. apply deactivate_rows_other. exact Hne. }
    split; [reflexivity | ]. split; [reflexivity | ].
    apply reset_punishment_nothing. simpl. apply deactivate_rows_inactive.
  - intros S db user_id reason s. split; [apply reset_punishment_total | ].
    split.
    + intros e s1. apply reset_punishment_read_error.
    + intros p e s1 s2. apply reset_punishment_write_error.
Qed.

(** The parts of C8 at work: alice without a punishment, alice with one,
    and alice with one on a database that cannot be written. *)
Lemma reset_punishment_idempotent_best_effort_witness :
  reset_punishment (db := sqlite_manager) "alice" None (store_with_limit 100)
    = (Ok true, store_with_limit 100)
  /\ (exists s', reset_punishment (db := sqlite_manager) "alice"
                   (Some "reset"%string) store_punished
                 = (Ok true, s')
                 /\ Forall (fun p => Sqlite.active_for "alice" p = false) (Sqlite.punishments s')
                 /\ Sqlite.punishments s'
                    = [Sqlite.set_is_active false
                         (Sqlite.set_reason (Some "reset"%string) warning_row)])
  /\ reset_punishment (db := readonly_manager) "alice" None store_punished
     = (Ok false, store_punished).
Proof.
  destruct reset_punishment_idempotent_best_effort as (Hnone & Hsome & Hany).
  split.
  - apply Hnone. simpl. constructor.
  - split.
    + destruct (Hsome "alice"%string (Some "reset"%string) store_punished)
        as (s' & E & Hin & Hs' & _).
      * simpl. apply Exists_cons_hd. reflexivity.
      * exists s'. split; [exact E | ]. split; [exact Hin | ].
        rewrite Hs'. reflexivity.
    + destruct (Hany _ readonly_manager "alice"%string None store_punished)
        as (_ & _ & Hwrite).
      eapply Hwrite; reflexivity.
Defined.

End ResetFacts.

(** ** The request limit after a punishment *)

Section LimitFacts.
Import Scenario PunishmentManager.

Lemma reduced_limit_floor request_limit request_reduction :
  5 <= reduced_limit request_limit request_reduction.
Proof. unfold reduced_limit. lia. Qed.

(** C7: when the user has a statistics row with request limit [L],
    [PunishmentManager.create_punishment] with reduction [r] succeeds and
    the row then holds the limit [max(5, L - (L * r) // 100)] (with the
    level and cooldown of the punishment); the new limit is never below 5,
    and is exactly 5 when [L = 10] and the computed value falls below 5. *)
Theorem create_punishment_request_limit :
  forall (user_id : UserId) (level start_date end_date : Z)
         (cooldown_days request_reduction data_usage : Z) (reason : string)
         (s : Sqlite.Store) (row : Sqlite.StatsRow),
    Sqlite.user_stats s !! user_id = Some row ->
    let L := Sqlite.request_limit row in
    let computed := L - (L * request_reduction) / 100 in
    exists p s' row',
      manager_create_punishment (db := sqlite_manager) user_id level
        start_date end_date cooldown_days request_reduction data_usage reason s
      = (Ok p, s')
      /\ Sqlite.user_stats s' !! user_id = Some row'
      /\ Sqlite.request_limit row' = Z.max 5 computed
      /\ Sqlite.punishment_level row' = level
      /\ Sqlite.cooldown_days row' = cooldown_days
      /\ 5 <= Sqlite.request_limit row'
      /\ (L = 10 -> computed < 5 -> Sqlite.request_limit row' = 5).
Proof.
  intros user_id level sd ed cd rr du reason s row Hrow L computed.
  unfold manager_create_punishment, bind.
  cbn [get_user_stats save_user_stats create_punishment sqlite_manager].
  unfold Sqlite.get_user_stats. rewrite Hrow.
  unfold Sqlite.save_user_stats, Sqlite.create_punishment,
    Sqlite.insert_punishment, bind, get_state, put_state, ret.
  cbn.
  eexists _, _, _. split; [reflexivity | ].
  cbn. rewrite lookup_alter_eq, Hrow. cbn.
  split; [reflexivity | ].
  cbn. fold L. unfold reduced_limit. fold computed.
  repeat split; try reflexivity; lia.
Qed.

(** C7 at work: alice with limit 10 and a reduction of 80 percent ends on
    the floor, 5. *)
Lemma create_punishment_request_limit_witness :
  exists p s' row',
    manager_create_punishment (db := sqlite_manager) "alice" 3 0
      (timedelta_days 7) 7 80 0 "Excessive usage" (store_with_limit 10)
    = (Ok p, s')
    /\ Sqlite.user_stats s' !! "alice"%string = Some row'
    /\ Sqlite.request_limit row' = 5.
Proof.
  destruct (create_punishment_request_limit "alice"%string 3 0
              (timedelta_days 7) 7 80 0 "Excessive usage"%string
              (store_with_limit 10) (stats_row 10))
    as (p & s' & row' & E & Hrow & _ & _ & _ & _ & Hfloor).
  - reflexivity.
  - exists p, s', row'. split; [exact E | ]. split; [exact Hrow | ].
    apply Hfloor; [reflexivity | ]. vm_compute. reflexivity.
Defined.

(** C6, evaluated: for alice, without a punishment, 1100 GB under the
    default configuration the calculator answers SEVERE with a cooldown of
    7 days and a reduction of -10; created through
    [PunishmentManager.create_punishment] that punishment takes the
    persisted request limit from 100 to 110, and created through
    [process_user_behavior] it leaves the limit at 100.  The limit is 90
    in neither case. *)
Theorem severe_scenario_request_limit :
  (exists p,
      Calculator.calculate_punishment
        (Calculator.init Config.default_config) 0 0 alice_data (Spec.GB 1100)
        None = Ok (Some p)
      /\ UserPunishment.level p = value SEVERE
      /\ UserPunishment.cooldown_days p = 7
      /\ UserPunishment.request_reduction p = -10)
  /\ persisted_limit "alice" (store_with_limit 100) = Some 100
  /\ persisted_limit "alice"
       (snd (manager_create_punishment (db := sqlite_manager) "alice"
               (value SEVERE) 0 (timedelta_days 7) 7 (-10) (Spec.GB 1100)
               "Exceeded 3 data usage threshold (threshold: 1000.0GB)"
               (store_with_limit 100)))
     = Some 110
  /\ persisted_limit "alice"
       (snd (process_user_behavior (db := sqlite_manager)
               (Calculator.init Config.default_config) 0 0 alice_data
               (Spec.GB 1100) None (store_with_limit 100)))
     = Some 100.
Proof.
  split.
  - eexists. split; [vm_compute; reflexivity | ].
    repeat split; reflexivity.
  - repeat split; vm_compute; reflexivity.
Qed.

End LimitFacts.

(** ** A user's standing *)

Section StatusFacts.
Import Scenario.

(** [is_punished] holds exactly when there is a punishment that is active
    and ends after [now]. *)
Lemma is_punished_iff now (st : UserStatus.t) :
  UserStatus.is_punished now st = true
  <-> exists p, UserStatus.current_punishment st = Some p
                /\ UserPunishment.is_active p = true
                /\ now < UserPunishment.end_date p.
Proof.
  unfold UserStatus.is_punished.
  destruct (UserStatus.current_punishment st) as [p |].
  - rewrite andb_true_iff, Z.ltb_lt. split.
    + intros [Ha Hn]. exists p. auto.
    + intros (q & [= <-] & Ha & Hn). auto.
  - split; [discriminate | intros (q & [=] & _)].
Qed.

(** C9: for every status and every reading of the clock,
    [current_request_limit] is [max(0, 100 - request_reduction)] of the
    current punishment when the user is punished (the punishment is active
    and ends after now), and exactly 100 otherwise.  The status record
    carries no persisted request limit: the status that [get_user_status]
    assembles for a user with a statistics row and no active punishment
    shows 100 whatever limit the row holds. *)
Theorem current_request_limit_spec :
  (forall (now : Z) (st : UserStatus.t),
      (forall p,
          UserStatus.current_punishment st = Some p ->
          UserPunishment.is_active p = true ->
          now < UserPunishment.end_date p ->
          UserStatus.is_punished now st = true
          /\ UserStatus.current_request_limit now st
             = Z.max 0 (100 - UserPunishment.request_reduction p))
      /\ (UserStatus.is_punished now st = false ->
          UserStatus.current_request_limit now st = 100)
      /\ (UserStatus.is_punished now st = false
          <-> (UserStatus.current_punishment st = None
               \/ exists p, UserStatus.current_punishment st = Some p
                            /\ (UserPunishment.is_active p = false
                                \/ UserPunishment.end_date p <= now))))
  /\ (forall (now now_utc : Z) (user_id : UserId) (s : Sqlite.Store)
             (row : Sqlite.StatsRow),
      Sqlite.user_stats s !! user_id = Some row ->
      Forall (fun p => Sqlite.active_for user_id p = false)
        (Sqlite.punishments s) ->
      exists st,
        UserManager.manager_get_user_status (db := sqlite_manager)
          now_utc user_id s = (Ok st, s)
        /\ UserStatus.current_request_limit now st = 100).
Proof.
  split.
  - intros now st.
    unfold UserStatus.current_request_limit, UserStatus.is_punished.
    destruct (UserStatus.current_punishment st) as [q |].
    + split; [ | split ].
      * intros p [= <-] Ha Hn.
        apply Z.ltb_lt in Hn. rewrite Ha, Hn. simpl. auto.
      * intros ->. reflexivity.
      * rewrite andb_false_iff, Z.ltb_ge. split.
        -- intros Hc. right. exists q. auto.
        -- intros [[=] | (p & [= <-] & Hc)]. exact Hc.
    + split; [ | split ].
      * intros p [=].
      * reflexivity.
      * split; auto.
  - intros now now_utc user_id s row Hrow Hn.
    unfold UserManager.manager_get_user_status,
      PunishmentManager.manager_get_active_punishment, bind.
    cbn [get_user_stats get_active_punishment get_user_requests sqlite_manager].
    unfold Sqlite.get_user_stats. rewrite Hrow. unfold ret at 1.
    rewrite (get_active_punishment_none _ _ Hn).
    unfold Sqlite.get_user_requests, ret.
    eexists. split; [reflexivity | ]. reflexivity.
Qed.

(** C9 at work: a punished user with reduction 30 is shown 70, with
    reduction 150 is shown 0, after the end date 100; and alice, whose
    row holds the limit 42 and who has no punishment, is shown 100. *)
Lemma current_request_limit_spec_witness :
  let punishment r :=
    {| UserPunishment.id := 1; UserPunishment.user_id := "alice";
       UserPunishment.level := 2; UserPunishment.start_date := 0;
       UserPunishment.end_date := 50; UserPunishment.cooldown_days := 5;
       UserPunishment.request_reduction := r;
       UserPunishment.reason := None; UserPunishment.data_usage := 0;
       UserPunishment.is_active := true |} in
  let status r := UserStatus.mk "alice" 4 1024 (Some (punishment r)) None in
  UserStatus.current_request_limit 10 (status 30) = 70
  /\ UserStatus.current_request_limit 10 (status 150) = 0
  /\ UserStatus.current_request_limit 50 (status 30) = 100
  /\ exists st,
       UserManager.manager_get_user_status (db := sqlite_manager) 10 "alice"
         (store_with_limit 42) = (Ok st, store_with_limit 42)
       /\ UserStatus.current_request_limit 10 st = 100.
Proof.
  intros punishment status.
  destruct current_request_limit_spec as [Hstatus Hassembled].
  destruct (Hstatus 10 (status 30)) as (H30 & _ & _).
  destruct (Hstatus 10 (status 150)) as (H150 & _ & _).
  destruct (Hstatus 50 (status 30)) as (_ & Hnot & _).
  split; [ | split; [ | split ] ].
  - destruct (H30 (punishment 30)) as [_ E];
      [reflexivity | reflexivity | reflexivity | exact E].
  - destruct (H150 (punishment 150)) as [_ E];
      [reflexivity | reflexivity | reflexivity | exact E].
  - apply Hnot. reflexivity.
  - apply (Hassembled 10 10 "alice"%string (store_with_limit 42) (stats_row 42)).
    + reflexivity.
    + constructor.
Defined.

End StatusFacts.

(** ** Adding a request *)

Section AddRequestFacts.
Import Scenario UserManager.

(** C10, amended: on the tables, [UserManager.add_request] for a user
    with an active punishment raises
    [ValueError("User has active punishment")] and leaves the store
    (requests and statistics) as it was; for a user without one, and a
    media type the table accepts (movie or tv), it returns a request that
    carries the row id the table assigned, and that request is the row
    appended to the requests table; for a user without one and any other
    media type the table's CHECK constraint rejects the row: the call
    raises [IntegrityError] and no request is stored. *)
Theorem add_request_blocked_when_punished :
  (forall (now : Z) (user_id : UserId) (media_id media_type : string)
          (size_bytes : Z) (s : Sqlite.Store),
      Exists (fun p => Sqlite.active_for user_id p = true) (Sqlite.punishments s) ->
      manager_add_request (db := sqlite_manager) now user_id media_id
        media_type size_bytes s
      = (Raise (ValueError "User has active punishment"), s))
  /\ (forall (now : Z) (user_id : UserId) (media_id media_type : string)
             (size_bytes : Z) (s : Sqlite.Store),
      Forall (fun p => Sqlite.active_for user_id p = false) (Sqlite.punishments s) ->
      Sqlite.check_media_type media_type = true ->
      exists s',
        let request :=
          {| UserRequest.id :=
               Sqlite.next_rowid (map UserRequest.id (Sqlite.requests s));
             UserRequest.user_id := user_id;
             UserRequest.media_id := media_id;
             UserRequest.media_type := media_type;
             UserRequest.request_date := now;
             UserRequest.size_bytes := size_bytes;
             UserRequest.status := "pending" |} in
        manager_add_request (db := sqlite_manager) now user_id media_id
          media_type size_bytes s
        = (Ok (Some request), s')
        /\ Sqlite.requests s' = Sqlite.requests s ++ [request]
        /\ Sqlite.punishments s' = Sqlite.punishments s
        /\ Forall (fun r => UserRequest.id r < UserRequest.id request)
             (Sqlite.requests s))
  /\ (forall (now : Z) (user_id : UserId) (media_id media_type : string)
             (size_bytes : Z) (s : Sqlite.Store),
      Forall (fun p => Sqlite.active_for user_id p = false) (Sqlite.punishments s) ->
      Sqlite.check_media_type media_type = false ->
      exists s',
        manager_add_request (db := sqlite_manager) now user_id media_id
          media_type size_bytes s
        = (Raise (IntegrityError
                    "CHECK constraint failed: media_type IN ('movie', 'tv')"),
           s')
        /\ Sqlite.requests s' = Sqlite.requests s
        /\ Sqlite.punishments s' = Sqlite.punishments s).
Proof.
  split; [ | split ].
  - intros now user_id media_id media_type size_bytes s Hex.
    unfold manager_add_request, PunishmentManager.manager_get_active_punishment,
      bind.
    cbn [get_active_punishment sqlite_manager].
    destruct (get_active_punishment_some _ _ Hex) as (p & E & _ & Ha).
    rewrite E. unfold Sqlite.active_for in Ha.
    apply andb_prop in Ha as [_ ->]. reflexivity.
  - intros now user_id media_id media_type size_bytes s Hn Hm.
    unfold manager_add_request, PunishmentManager.manager_get_active_punishment,
      manager_get_user_stats, bind.
    cbn [get_active_punishment add_request get_user_stats save_user_stats
         sqlite_manager].
    rewrite (get_active_punishment_none _ _ Hn).
    unfold ret at 1. unfold Sqlite.add_request. cbn [UserRequest.media_type].
    rewrite Hm. cbn [UserRequest.user_id].
    unfold Sqlite.get_user_stats.
    cbn [Sqlite.user_stats Sqlite.set_requests Sqlite.set_user_stats].
    set (stats' := match Sqlite.user_stats s !! user_id with
                   | Some _ => _ | None => _ end).
    assert (is_Some (stats' !! user_id)) as [row Hrow].
    { subst stats'. destruct (Sqlite.user_stats s !! user_id);
        rewrite lookup_insert_eq; eauto. }
    rewrite Hrow.
    unfold Sqlite.save_user_stats, bind, get_state, put_state, ret. cbn.
    eexists. split; [reflexivity | ].
    cbn. split; [reflexivity | ]. split; [reflexivity | ].
    unfold Sqlite.next_rowid.
    induction (Sqlite.requests s) as [| r rs IH]; constructor.
    + simpl. lia.
    + eapply Forall_impl; [exact IH | ]. simpl. intros; lia.
  - intros now user_id media_id media_type size_bytes s Hn Hm.
    unfold manager_add_request, PunishmentManager.manager_get_active_punishment,
      bind.
    cbn [get_active_punishment add_request sqlite_manager].
    rewrite (get_active_punishment_none _ _ Hn).
    unfold ret at 1. unfold Sqlite.add_request. cbn [UserRequest.media_type].
    rewrite Hm.
    eexists. split; [reflexivity | ]. split; reflexivity.
Qed.

(** C10 at work: alice under an active punishment is refused; alice
    without one gets request 1. *)
Lemma add_request_blocked_when_punished_witness :
  manager_add_request (db := sqlite_manager) 7 "alice" "603" "movie" 1000000
    store_punished
  = (Raise (ValueError "User has active punishment"), store_punished)
  /\ exists s' r,
       manager_add_request (db := sqlite_manager) 7 "alice" "603" "movie"
         1000000 (store_with_limit 100) = (Ok (Some r), s')
       /\ UserRequest.id r = 1
       /\ Sqlite.requests s' = [r].
Proof.
  destruct add_request_blocked_when_punished as (Hblocked & Hfree & _).
  split.
  - apply Hblocked. apply Exists_cons_hd. reflexivity.
  - destruct (Hfree 7 "alice"%string "603"%string "movie"%string 1000000
                (store_with_limit 100)) as (s' & E & Hreq & _).
    + constructor.
    + reflexivity.
    + exists s'. eexists. split; [exact E | ]. split; [reflexivity | exact Hreq].
Defined.

(** C10 as stated fails: alice has no punishment, yet her request for a
    series, the media type the models name beside movie, is not inserted
    and no request object is returned; the call raises. *)
Lemma add_request_blocked_when_punished_counterexample :
  Forall (fun p => Sqlite.active_for "alice" p = false)
    (Sqlite.punishments (store_with_limit 100))
  /\ (exists s',
        manager_add_request (db := sqlite_manager) 7 "alice" "1396" "series"
          1000000 (store_with_limit 100)
        = (Raise (IntegrityError
                    "CHECK constraint failed: media_type IN ('movie', 'tv')"),
           s')
        /\ Sqlite.requests s' = [])
  /\ ~ exists r s',
        manager_add_request (db := sqlite_manager) 7 "alice" "1396" "series"
          1000000 (store_with_limit 100)
        = (Ok (Some r), s').
Proof.
  split; [constructor | ].
  split.
  - eexists. split; [vm_compute; reflexivity | reflexivity].
  - intros (r & s' & E). vm_compute in E. discriminate.
Qed.

End AddRequestFacts.

(** ** Paging through the broker *)

Section PaginationFacts.
Import Spec Scenario Overseerr.

Lemma filter_all_true {A} (f : A -> bool) (l : list A) :
  Forall (fun x => f x = true) l -> List.filter f l = l.
Proof.
  induction 1 as [| x l Hx _ IH]; [reflexivity | ].
  simpl. rewrite Hx, IH. reflexivity.
Qed.

(** One fetch whose answer the date bounds leave whole: the caller sees
    the broker's items and page size, and the fetch is logged. *)
Lemma get_user_requests_whole self user_id start_date end_date status page r log :
  transport self user_id (page_params status page) = Ok r ->
  within_bounds start_date end_date r ->
  exists r',
    get_user_requests self user_id start_date end_date status page 20 log
    = (Ok r', log ++ [(user_id, page_params status page)])
    /\ items r' = items r
    /\ declared_page_size r' = declared_page_size r.
Proof.
  intros Ht Hb. unfold get_user_requests, bind, get, ret.
  fold (page_params status page). rewrite Ht.
  destruct (is_set start_date || is_set end_date).
  - eexists. split; [reflexivity | ]. split; [ | reflexivity ].
    unfold items at 1. simpl. apply filter_all_true. exact Hb.
  - exists r. auto.
Qed.

Lemma fetches_cons user_id status first n :
  fetches user_id status first (S n)
  = (user_id, page_params status first)
    :: fetches user_id status (first + 1) n.
Proof.
  unfold fetches. simpl. rewrite Z.add_0_r. f_equal.
  rewrite <- seq_shift, map_map. apply map_ext.
  intros i. do 2 f_equal. lia.
Qed.

Lemma serves_tail self user_id status first r answers :
  serves self user_id status first (r :: answers) ->
  transport self user_id (page_params status first) = Ok r
  /\ serves self user_id status (first + 1) answers.
Proof.
  intros Hs. split.
  - specialize (Hs 0%nat r eq_refl). rewrite Z.add_0_r in Hs. exact Hs.
  - intros i r' Hi. specialize (Hs (S i) r' Hi).
    replace (first + 1 + Z.of_nat i) with (first + Z.of_nat (S i)) by lia.
    exact Hs.
Qed.

(** The loop, started at any page with any fetched requests so far. *)
Lemma get_all_loop_pages self user_id start_date end_date status :
  forall (full : list Response.t) (final : Response.t) (fuel : nat)
         (page : Z) (all_requests : list RequestData.t) (log : Log),
    serves self user_id status page (full ++ [final]) ->
    Forall full_page full ->
    short_page final ->
    Forall (within_bounds start_date end_date) (full ++ [final]) ->
    (length full < fuel)%nat ->
    get_all_loop fuel self user_id start_date end_date status page
      all_requests log
    = (Ok (Some (all_requests ++ concat (map items (full ++ [final])))),
       log ++ fetches user_id status page (S (length full))).
Proof.
  induction full as [| r full IH];
    intros final fuel page all_requests log Hs Hfull Hshort Hb Hfuel.
  - simpl in *. destruct fuel as [| fuel]; [lia | ].
    apply serves_tail in Hs as [Ht _].
    apply Forall_cons in Hb as [Hb _].
    destruct (get_user_requests_whole _ _ _ _ _ _ _ log Ht Hb)
      as (r' & E & Hi & Hd).
    cbn [get_all_loop]. unfold bind. rewrite E.
    fold (items r'). rewrite Hi. rewrite app_nil_r.
    rewrite fetches_cons. unfold fetches at 1. simpl.
    destruct (items final) as [| x l] eqn:Ei.
    + rewrite app_nil_r. reflexivity.
    + destruct Hshort as [Hnil | Hlt]; [rewrite Ei in Hnil; discriminate | ].
      fold (declared_page_size r'). rewrite Hd, Ei in *.
      apply Z.ltb_lt in Hlt. rewrite Hlt. reflexivity.
  - destruct fuel as [| fuel]; [simpl in Hfuel; lia | ].
    change ((r :: full) ++ [final]) with (r :: (full ++ [final])) in *.
    apply serves_tail in Hs as [Ht Hs].
    apply Forall_cons in Hb as [Hb Hbs].
    apply Forall_cons in Hfull as [[Hne Hlen] Hfull].
    destruct (get_user_requests_whole _ _ _ _ _ _ _ log Ht Hb)
      as (r' & E & Hi & Hd).
    cbn [get_all_loop]. unfold bind. rewrite E.
    fold (items r'). rewrite Hi.
    destruct (items r) as [| x l] eqn:Ei; [congruence | ].
    fold (declared_page_size r'). rewrite Hd, <- Hlen, Z.ltb_irrefl.
    rewrite (IH final fuel (page + 1) _ _ Hs Hfull Hshort Hbs)
      by (simpl in Hfuel; lia).
    simpl. rewrite Ei. rewrite <- app_assoc.
    rewrite (fetches_cons _ _ page). rewrite <- app_assoc. reflexivity.
Qed.

(** Paging where the date filter drops nothing: when the broker answers
    the fetches for pages 1 to N with full
    pages and the fetch for page N+1 with a short or empty page, and the
    date bounds of the call (if any) drop none of their items, then
    [get_all_user_requests], given fuel for N+1 iterations, returns the
    items of all pages in page order and issues exactly the N+1 fetches
    for pages 1, 2, ..., N+1, in this order. *)
Theorem get_all_user_requests_pages :
  forall (self : OverseerrClient) (user_id : UserId)
         (start_date end_date : option Z) (status : option Z)
         (full : list Response.t) (final : Response.t)
         (fuel : nat) (log : Log),
    serves self user_id status 1 (full ++ [final]) ->
    Forall full_page full ->
    short_page final ->
    Forall (within_bounds start_date end_date) (full ++ [final]) ->
    (length full < fuel)%nat ->
    get_all_user_requests fuel self user_id start_date end_date status log
    = (Ok (Some (concat (map items (full ++ [final])))),
       log ++ fetches user_id status 1 (length full + 1))
    /\ length (fetches user_id status 1 (length full + 1))
       = (length full + 1)%nat.
Proof.
  intros self user_id sd ed status full final fuel log Hs Hfull Hshort Hb Hfuel.
  split.
  - unfold get_all_user_requests.
    rewrite (get_all_loop_pages _ _ _ _ _ full final fuel 1 [] log
               Hs Hfull Hshort Hb Hfuel).
    rewrite Nat.add_1_r. reflexivity.
  - unfold fetches. rewrite length_map, length_seq. reflexivity.
Qed.

(** C5 at work: two full pages of two and a last page of one give five
    requests in three fetches. *)
Lemma get_all_user_requests_pages_witness :
  get_all_user_requests 3 paged_broker "alice" None None None []
  = (Ok (Some [item 1 "movie" 603; item 2 "movie" 604; item 3 "tv" 1396;
               item 4 "movie" 11; item 5 "movie" 12]),
     [("alice"%string, page_params None 1); ("alice"%string, page_params None 2);
      ("alice"%string, page_params None 3)]).
Proof.
  apply (get_all_user_requests_pages paged_broker "alice"%string None None None
           [page_of [item 1 "movie" 603; item 2 "movie" 604];
            page_of [item 3 "tv" 1396; item 4 "movie" 11]]
           (page_of [item 5 "movie" 12]) 3%nat []).
  - intros i r Hi.
    destruct i as [| [| [| i]]]; simpl in Hi; inversion Hi; subst; reflexivity.
  - repeat constructor; discriminate.
  - right. vm_compute. reflexivity.
  - repeat constructor.
  - simpl. lia.
Defined.

(** Outside the theorem's premise: the page-length test reads the page
    after the date filter.  With an end date that drops the first item of
    a full first page, the loop stops after one fetch, although the later
    pages hold requests within the bounds. *)
Example get_all_user_requests_bounds_stop_early :
  get_all_user_requests 3 paged_broker "alice" None (Some 98) None []
  = (Ok (Some [item 2 "movie" 604]), [("alice"%string, page_params None 1)]).
Proof. vm_compute. reflexivity. Qed.

(** C5, evaluated: the broker answers page 1 with a full page of twenty
    requests and page 2 with a short page of one (N = 1).  Without date
    bounds the call returns the twenty-one requests after two fetches, as
    the claim says.  With an end date that drops the first request of
    page 1, the test for the last page reads the nineteen requests the
    filter left, takes the full page for a short one, and the call
    returns them after a single fetch: page 2 is never fetched, and its
    request, which lies within the bounds, is missing. *)
Theorem get_all_user_requests_stops_on_filtered_page :
  serves full_broker "alice" None 1 [first_page; second_page]
  /\ full_page first_page
  /\ short_page second_page
  /\ get_all_user_requests 3 full_broker "alice" None None None []
     = (Ok (Some (twenty_requests ++ [item 21 "movie" 603])),
        fetches "alice" None 1 2)
  /\ get_all_user_requests 3 full_broker "alice" None (Some 98) None []
     = (Ok (Some (tail twenty_requests)), fetches "alice" None 1 1)
  /\ in_range None (Some 98) (item 21 "movie" 603) = true
  /\ ~ In (item 21 "movie" 603) (tail twenty_requests).
Proof.
  split.
  { intros i r Hi.
    destruct i as [| [| i]]; simpl in Hi; inversion Hi; subst; reflexivity. }
  split; [split; [discriminate | reflexivity] | ].
  split; [right; vm_compute; reflexivity | ].
  split; [vm_compute; reflexivity | ].
  split; [vm_compute; reflexivity | ].
  split; [reflexivity | ].
  vm_compute. intuition discriminate.
Qed.

End PaginationFacts.

(** ** Aggregating sizes *)

Section AggregationFacts.
Import Spec Scenario SizeCalculator.

(** [int(str(n))] is [n]: the identifier survives the trip through
    [media_id]. *)
Lemma int_of_str_str_Z (z : Z) : int_of_str (str_Z z) = Ok z.
Proof.
  unfold int_of_str, str_Z.
  rewrite NilZero.isi.
  - rewrite DecimalZ.of_to. reflexivity.
  - destruct z; simpl; try discriminate.
    intros [= E]. apply (DecimalPos.Unsigned.to_uint_nonnil _ E).
  - destruct z; simpl; try discriminate.
    intros [= E]. apply (DecimalPos.Unsigned.to_uint_nonnil _ E).
Qed.

(** The loop from any running total and list: it adds the resolved sizes
    and appends one entry per request, in order. *)
Lemma process_requests_settled self user_id :
  forall (requests : list RequestData.t) (total_size : Z)
         (processed : list UserRequest.t),
    Forall (lookup_settled self user_id) requests ->
    exists added,
      process_requests self user_id requests total_size processed
      = Ok (total_size + sum_Z (resolved_sizes self user_id requests),
            processed ++ added)
      /\ Forall2 (annotated self user_id) requests added.
Proof.
  induction requests as [| rd rest IH]; intros total_size processed Hall.
  - exists []. simpl. rewrite Z.add_0_r, app_nil_r. auto.
  - apply Forall_cons in Hall as [Hrd Hrest].
    unfold lookup_settled in Hrd. simpl.
    unfold resolved_sizes. simpl. fold (resolved_sizes self user_id rest).
    fold (lookup self user_id rd).
    destruct (lookup self user_id rd) as [size | e] eqn:El.
    + destruct (IH (total_size + size) (processed ++
                  [set_size_bytes size (to_user_request user_id rd)]) Hrest)
        as (added & E & Hann).
      rewrite E. eexists (_ :: added). split.
      * simpl. rewrite <- app_assoc. simpl. rewrite Z.add_assoc. reflexivity.
      * constructor; [ | exact Hann ].
        unfold annotated. rewrite El. simpl. repeat split; reflexivity.
    + rewrite Hrd.
      destruct (IH total_size (processed ++
                  [set_status (str_exn e) (to_user_request user_id rd)]) Hrest)
        as (added & E & Hann).
      rewrite E. eexists (_ :: added). split.
      * rewrite <- app_assoc. reflexivity.
      * constructor; [ | exact Hann ].
        unfold annotated. rewrite El. simpl. repeat split; reflexivity.
Qed.

Lemma resolved_sizes_all_failed self user_id requests :
  Forall (lookup_failed self user_id) requests ->
  resolved_sizes self user_id requests = [].
Proof.
  induction 1 as [| rd rest (e & El & _) _ IH]; [reflexivity | ].
  unfold resolved_sizes in *. simpl. rewrite El. exact IH.
Qed.

(** A lookup that fails with anything but an API error is not caught:
    the loop is left with that exception at the first such request. *)
Lemma process_requests_aborts self user_id :
  forall (before : list RequestData.t) (request_data : RequestData.t)
         (after : list RequestData.t) (e : Exception) (total_size : Z)
         (processed : list UserRequest.t),
    Forall (lookup_settled self user_id) before ->
    lookup self user_id request_data = Raise e ->
    is_APIError e = false ->
    process_requests self user_id (before ++ request_data :: after)
      total_size processed = Raise e.
Proof.
  induction before as [| rd rest IH];
    intros request_data after e total_size processed Hall He Hapi.
  - simpl. fold (lookup self user_id request_data). rewrite He, Hapi.
    reflexivity.
  - apply Forall_cons in Hall as [Hrd Hrest].
    unfold lookup_settled in Hrd. simpl.
    fold (lookup self user_id rd).
    destruct (lookup self user_id rd) as [size | e'].
    + apply IH; assumption.
    + rewrite Hrd. apply IH; assumption.
Qed.

(** C4, amended: when the page loop has fetched [requests] and every
    size lookup either succeeds or fails with an API error, the
    aggregation returns; its total is the sum of the sizes of the
    requests whose lookup succeeded; its list has one entry per fetched
    request, in order, a resolved one with its size and a failed one with
    size 0 and the error's text as status; and when every lookup fails the
    total is 0 and the list, as long as the fetched one, has every entry
    marked with its error.  A lookup that fails with an exception of
    another class is not tolerated: at the first such request the
    aggregation raises that exception, and returns neither total nor
    list. *)
Theorem calculate_user_requests_size_partial_failure :
  forall (fuel : nat) (self : SizeCalculator.t) (user_id : UserId)
         (start_date end_date : option Z)
         (log log' : Overseerr.Log) (requests : list RequestData.t),
    Overseerr.get_all_user_requests fuel (overseerr self) user_id
      start_date end_date None log = (Ok (Some requests), log') ->
    (Forall (lookup_settled self user_id) requests ->
     exists (total_bytes : Z) (processed : list UserRequest.t),
       calculate_user_requests_size fuel self user_id start_date end_date log
       = (Ok (Some (total_bytes, processed)), log')
       /\ total_bytes = sum_Z (resolved_sizes self user_id requests)
       /\ Forall2 (annotated self user_id) requests processed
       /\ length processed = length requests
       /\ (Forall (lookup_failed self user_id) requests ->
           total_bytes = 0
           /\ (requests <> [] -> processed <> [])
           /\ Forall2
                (fun request_data r =>
                   exists e, lookup self user_id request_data = Raise e
                             /\ UserRequest.status r = str_exn e
                             /\ UserRequest.size_bytes r = 0)
                requests processed))
    /\ (forall (before : list RequestData.t) (request_data : RequestData.t)
               (after : list RequestData.t) (e : Exception),
           requests = before ++ request_data :: after ->
           Forall (lookup_settled self user_id) before ->
           lookup self user_id request_data = Raise e ->
           is_APIError e = false ->
           calculate_user_requests_size fuel self user_id start_date end_date
             log
           = (Raise e, log')).
Proof.
  intros fuel self user_id sd ed log log' requests Hfetch. split.
  - intros Hall.
    destruct (process_requests_settled self user_id requests 0 [] Hall)
      as (processed & E & Hann).
    exists (sum_Z (resolved_sizes self user_id requests)), processed.
    split.
    { unfold calculate_user_requests_size, bind. rewrite Hfetch, E.
      reflexivity. }
    split; [reflexivity | ].
    split; [exact Hann | ].
    assert (length processed = length requests) as Hlen
      by (symmetry; eapply Forall2_length; exact Hann).
    split; [exact Hlen | ].
    intros Hfail. split.
    { rewrite (resolved_sizes_all_failed _ _ _ Hfail). reflexivity. }
    split.
    { intros Hne ->. destruct requests; [congruence | discriminate]. }
    clear E Hlen Hfetch Hall.
    induction Hann as [| rd r rest added Hr _ IH]; [constructor | ].
    apply Forall_cons in Hfail as [(e & El & _) Hrest].
    constructor; [ | exact (IH Hrest) ].
    unfold annotated in Hr. rewrite El in Hr.
    destruct Hr as (_ & _ & _ & _ & Hsize & Hstatus). exists e. auto.
  - intros before rd after e -> Hall He Hapi.
    unfold calculate_user_requests_size, bind. rewrite Hfetch.
    rewrite (process_requests_aborts self user_id before rd after e 0 []
               Hall He Hapi).
    reflexivity.
Qed.

(** C4 at work: of three requests the second is unknown to the library;
    the total is the sum of the first and the third, and the second
    carries the error's text. *)
Lemma calculate_user_requests_size_partial_failure_witness :
  exists processed,
    calculate_user_requests_size 2 (library small_broker) "alice" None None []
    = (Ok (Some (4000 + 9000, processed)),
       [("alice"%string, page_params None 1)])
    /\ UserRequest.status <$> processed
       = ["2"; "Movie with TMDB ID 604 not found"; "2"]%string.
Proof.
  destruct (proj1 (calculate_user_requests_size_partial_failure 2
                     (library small_broker) "alice"%string None None []
                     [("alice"%string, page_params None 1)] three_requests
                     ltac:(vm_compute; reflexivity)))
    as (total & processed & E & Htotal & Hann & _).
  - repeat constructor.
  - exists processed. subst total. split; [exact E | ].
    vm_compute in E. inversion E. reflexivity.
Defined.

(** C4 as stated fails: when the record of the second of three requests
    does not validate, its lookup fails, and the aggregation, instead of
    going on to the third, raises; no total and no list are returned. *)
Lemma calculate_user_requests_size_partial_failure_counterexample :
  lookup (faulty_library small_broker) "alice" (item 2 "movie" 604)
  = Raise (ValueError "1 validation error for Movie")
  /\ calculate_user_requests_size 2 (faulty_library small_broker) "alice"
       None None []
     = (Raise (ValueError "1 validation error for Movie"),
        [("alice"%string, page_params None 1)])
  /\ ~ exists (total_bytes : Z) (processed : list UserRequest.t)
              (log' : Overseerr.Log),
        calculate_user_requests_size 2 (faulty_library small_broker) "alice"
          None None []
        = (Ok (Some (total_bytes, processed)), log').
Proof.
  split; [vm_compute; reflexivity | ].
  split; [vm_compute; reflexivity | ].
  intros (total & processed & log' & E). vm_compute in E. discriminate.
Qed.

End AggregationFacts.

(** * Further properties *)

(** ** The calculator, beyond the claims *)

Section CalculatorMore.
Import Calculator Spec Cases.

(** The returned level is the higher of the current level and the level
    the scan gives. *)
Lemma determine_punishment_level_max self total current_level :
  value (determine_punishment_level self total current_level)
  = Z.max (value_of current_level)
      (value (scan_thresholds (thresholds self) total NONE)).
Proof.
  unfold determine_punishment_level.
  set (new_level := scan_thresholds _ _ _).
  pose proof (value_nonneg new_level) as Hn.
  destruct (decide (current_level = Some MAXIMUM)) as [-> | NE].
  - simpl. destruct new_level; simpl; lia.
  - destruct current_level as [cur |]; simpl; [ | lia ].
    unfold truthy. pose proof (value_nonneg cur) as Hc.
    destruct (value cur =? 0) eqn:E0; simpl.
    + apply Z.eqb_eq in E0. lia.
    + destruct (value cur >? value new_level) eqn:Eg.
      * rewrite Z.gtb_ltb in Eg. apply Z.ltb_lt in Eg. lia.
      * rewrite Z.gtb_ltb in Eg. apply Z.ltb_ge in Eg. lia.
Qed.

Lemma exceeds_monotone total1 total2 threshold :
  total1 <= total2 ->
  exceeds total1 threshold = true -> exceeds total2 threshold = true.
Proof.
  unfold exceeds. intros Hle H1.
  apply Qle_bool_iff in H1. apply Qle_bool_iff.
  eapply Qle_trans; [exact H1 | ].
  rewrite <- Zle_Qle. exact Hle.
Qed.

Lemma scan_init_monotone cfg total1 total2 :
  total1 <= total2 ->
  value (scan_thresholds (thresholds (init cfg)) total1 NONE)
  <= value (scan_thresholds (thresholds (init cfg)) total2 NONE).
Proof.
  intros Hle.
  destruct (scan_init_highest cfg total1) as [[E1 | (t & Hin & Ht)] _].
  - rewrite E1. apply value_nonneg.
  - destruct (scan_init_highest cfg total2) as [_ U2].
    apply U2. exists t. split; [exact Hin | ].
    eapply exceeds_monotone; eassumption.
Qed.

(** X1: More usage never gives a lower level: for a calculator built from a
    configuration and a fixed current level, the level is monotone in the
    total. *)
Theorem determine_punishment_level_monotone_in_usage :
  forall (cfg : Config.PunishmentConfig) (total1 total2 : Z)
         (current_level : option PunishmentLevel),
    total1 <= total2 ->
    value (determine_punishment_level (init cfg) total1 current_level)
    <= value (determine_punishment_level (init cfg) total2 current_level).
Proof.
  intros cfg total1 total2 current_level Hle.
  rewrite !determine_punishment_level_max.
  pose proof (scan_init_monotone cfg total1 total2 Hle). lia.
Qed.

Lemma determine_punishment_level_monotone_in_usage_witness :
  value (determine_punishment_level (init Config.default_config) (GB 600)
           (Some WARNING))
  <= value (determine_punishment_level (init Config.default_config) (GB 1200)
              (Some WARNING)).
Proof.
  apply determine_punishment_level_monotone_in_usage.
  vm_compute. discriminate.
Defined.

(** X2: Recalculations compose: feeding the result back with the same total
    changes nothing, and two recalculations give the same level in either
    order.  This holds for every dictionary of thresholds. *)
Theorem determine_punishment_level_recalculation :
  forall (self : PunishmentCalculator) (total1 total2 : Z)
         (current_level : option PunishmentLevel),
    determine_punishment_level self total1
      (Some (determine_punishment_level self total1 current_level))
    = determine_punishment_level self total1 current_level
    /\ determine_punishment_level self total2
         (Some (determine_punishment_level self total1 current_level))
       = determine_punishment_level self total1
           (Some (determine_punishment_level self total2 current_level)).
Proof.
  intros self total1 total2 current_level.
  split; apply value_inj; rewrite !determine_punishment_level_max; simpl;
    rewrite !determine_punishment_level_max; lia.
Qed.

Lemma timedelta_in_range days :
  timedelta_range days -> timedelta days = Ok (timedelta_days days).
Proof.
  unfold timedelta_range, timedelta. intros H.
  destruct (Z.ltb_spec days (-2147483648)); [lia | ].
  destruct (Z.ltb_spec 2147483647 days); [lia | ].
  destruct (Z.ltb_spec 999999999 (Z.abs days)); [lia | reflexivity].
Qed.

Lemma timedelta_total days :
  (timedelta_range days /\ timedelta days = Ok (timedelta_days days))
  \/ (~ timedelta_range days
      /\ exists msg, timedelta days = Raise (OverflowError msg)).
Proof.
  unfold timedelta_range, timedelta.
  destruct (Z.ltb_spec days (-2147483648)); simpl.
  { right. split; [lia | eexists; reflexivity]. }
  destruct (Z.ltb_spec 2147483647 days); simpl.
  { right. split; [lia | eexists; reflexivity]. }
  destruct (Z.ltb_spec 999999999 (Z.abs days)).
  - right. split; [lia | eexists; reflexivity].
  - left. split; [lia | reflexivity].
Qed.

Lemma datetime_add_in_range d delta :
  0 <= d + delta <= datetime_max -> datetime_add d delta = Ok (d + delta).
Proof.
  unfold datetime_add. intros H.
  destruct (Z.ltb_spec (d + delta) 0); [lia | ].
  destruct (Z.ltb_spec datetime_max (d + delta)); [lia | reflexivity].
Qed.

Lemma datetime_add_total d delta :
  (0 <= d + delta <= datetime_max /\ datetime_add d delta = Ok (d + delta))
  \/ ((d + delta < 0 \/ datetime_max < d + delta)
      /\ datetime_add d delta = Raise (OverflowError "date value out of range")).
Proof.
  unfold datetime_add.
  destruct (Z.ltb_spec (d + delta) 0); simpl.
  { right. split; [lia | reflexivity]. }
  destruct (Z.ltb_spec datetime_max (d + delta)).
  - right. split; [lia | reflexivity].
  - left. split; [lia | reflexivity].
Qed.

Lemma getitem_init_cooldowns cfg l :
  l <> NONE ->
  getitem (cooldowns (init cfg)) l = Ok (configured_cooldown cfg l).
Proof. destruct l; intros H; try congruence; reflexivity. Qed.

Lemma getitem_init_reductions cfg l :
  l <> NONE ->
  getitem (reductions (init cfg)) l = Ok (configured_reduction cfg l).
Proof. destruct l; intros H; try congruence; reflexivity. Qed.

Lemma getitem_init_thresholds cfg l :
  l <> NONE -> exists t, getitem (thresholds (init cfg)) l = Ok t.
Proof. destruct l; intros H; try congruence; eexists; reflexivity. Qed.

Lemma of_value_readable n :
  0 <= n <= 4 -> exists l, of_value n = Ok l /\ value l = n.
Proof.
  intros H.
  assert (n = 0 \/ n = 1 \/ n = 2 \/ n = 3 \/ n = 4) as Hn by lia.
  destruct Hn as [-> | [-> | [-> | [-> | ->]]]]; eexists; split; reflexivity.
Qed.

(** X3: On a calculator built from a configuration, with a current punishment
    that is absent, inactive or carries one of the five levels,
    [calculate_punishment] answers [None] exactly when the determined
    level is NONE.  Otherwise, when the cooldown the configuration gives
    that level fits a [timedelta] and the end date, that many days after
    the clock reading, is a date up to year 9999, it answers a punishment
    of that level, active, for the given user and usage, with that
    cooldown, the configured reduction and that end date; and when the
    cooldown or the end date does not fit, it raises [OverflowError]. *)
Theorem calculate_punishment_configured :
  forall (cfg : Config.PunishmentConfig) (now_start now_end : Z)
         (user_data : UserData.t) (total_data_bytes : Z)
         (current_punishment : option UserPunishment.t),
    level_readable current_punishment ->
    let l := determine_punishment_level (init cfg) total_data_bytes
               (current_level_of current_punishment) in
    let end_date := now_end + timedelta_days (configured_cooldown cfg l) in
    (l = NONE ->
     calculate_punishment (init cfg) now_start now_end user_data
       total_data_bytes current_punishment = Ok None)
    /\ (l <> NONE ->
        timedelta_range (configured_cooldown cfg l) ->
        0 <= end_date <= datetime_max ->
        exists p,
          calculate_punishment (init cfg) now_start now_end user_data
            total_data_bytes current_punishment = Ok (Some p)
          /\ UserPunishment.level p = value l
          /\ UserPunishment.user_id p = UserData.user_id user_data
          /\ UserPunishment.cooldown_days p = configured_cooldown cfg l
          /\ UserPunishment.request_reduction p = configured_reduction cfg l
          /\ UserPunishment.start_date p = now_start
          /\ UserPunishment.end_date p = end_date
          /\ UserPunishment.data_usage p = total_data_bytes
          /\ UserPunishment.is_active p = true
          /\ UserPunishment.id p = 0)
    /\ (l <> NONE ->
        ~ timedelta_range (configured_cooldown cfg l)
        \/ end_date < 0 \/ datetime_max < end_date ->
        exists msg,
          calculate_punishment (init cfg) now_start now_end user_data
            total_data_bytes current_punishment = Raise (OverflowError msg)).
Proof.
  intros cfg now_start now_end user_data total current_punishment Hread l
    end_date.
  assert (exists cl,
             cl = current_level_of current_punishment
             /\ (match current_punishment with
                 | Some p =>
                     if UserPunishment.is_active p
                     then match of_value (UserPunishment.level p) with
                          | Ok l => Ok (Some l)
                          | Raise e => Raise e
                          end
                     else Ok None
                 | None => Ok None
                 end) = Ok cl) as (cl & Hcl & Ecur).
  { unfold current_level_of. destruct current_punishment as [p |]; eauto.
    simpl in Hread. destruct (UserPunishment.is_active p); eauto.
    destruct (of_value_readable _ (Hread eq_refl)) as (l0 & -> & _). eauto. }
  unfold calculate_punishment. rewrite Ecur. subst cl. fold l.
  split; [intros ->; reflexivity | ].
  split.
  - intros Hne Hdelta Hend.
    destruct (decide (l = NONE)) as [E | _]; [congruence | ].
    rewrite (getitem_init_cooldowns _ _ Hne), (getitem_init_reductions _ _ Hne).
    destruct (getitem_init_thresholds cfg l Hne) as (t & ->).
    rewrite (timedelta_in_range _ Hdelta).
    rewrite (datetime_add_in_range _ _ Hend).
    eexists. split; [reflexivity | ]. simpl. repeat split; reflexivity.
  - intros Hne Hout.
    destruct (decide (l = NONE)) as [E | _]; [congruence | ].
    rewrite (getitem_init_cooldowns _ _ Hne), (getitem_init_reductions _ _ Hne).
    destruct (getitem_init_thresholds cfg l Hne) as (t & ->).
    destruct (timedelta_total (configured_cooldown cfg l))
      as [[Hdelta ->] | [Hdelta (msg & ->)]].
    + destruct (datetime_add_total now_end
                  (timedelta_days (configured_cooldown cfg l)))
        as [[Hend ->] | [Hend ->]].
      * exfalso. fold end_date in Hend. destruct Hout as [H | H]; [tauto | lia].
      * eexists. reflexivity.
    + eexists. reflexivity.
Qed.

Lemma calculate_punishment_configured_witness :
  (exists p,
      calculate_punishment (init Config.default_config) 5 6 Scenario.alice_data
        (GB 800) (Some Scenario.warning_row) = Ok (Some p)
      /\ UserPunishment.level p = value MILD
      /\ UserPunishment.cooldown_days p = 5
      /\ UserPunishment.request_reduction p = -5
      /\ UserPunishment.end_date p = 6 + timedelta_days 5)
  /\ exists msg,
       calculate_punishment (init Config.default_config) 5
         (datetime_max - timedelta_days 4) Scenario.alice_data
         (GB 800) (Some Scenario.warning_row) = Raise (OverflowError msg).
Proof.
  split.
  - destruct (calculate_punishment_configured Config.default_config 5 6
                Scenario.alice_data (GB 800) (Some Scenario.warning_row))
      as (_ & Hsome & _).
    + simpl. intros _. lia.
    + destruct Hsome as (p & E & Hl & _ & Hc & Hr & _ & He & _).
      * vm_compute. discriminate.
      * vm_compute. split; discriminate.
      * vm_compute. split; discriminate.
      * exists p. split; [exact E | ]. split; [exact Hl | ].
        split; [exact Hc | ]. split; [exact Hr | exact He].
  - destruct (calculate_punishment_configured Config.default_config 5
                (datetime_max - timedelta_days 4)
                Scenario.alice_data (GB 800) (Some Scenario.warning_row))
      as (_ & _ & Hraise).
    + simpl. intros _. lia.
    + apply Hraise.
      * vm_compute. discriminate.
      * right. right. vm_compute. reflexivity.
Defined.

Lemma positive_threshold_not_met gb total :
  Config.validate_threshold gb = true -> total <= 0 ->
  exceeds total (gb_to_bytes gb) = false.
Proof.
  unfold Config.validate_threshold, exceeds, gb_to_bytes. intros Hv Ht.
  apply negb_true_iff in Hv.
  destruct (Qle_bool (gb * inject_Z bytes_per_gb) (inject_Z total)) eqn:E;
    [ | reflexivity ].
  exfalso. apply Qle_bool_iff in E.
  assert (Qle_bool gb 0 = true) as Hc; [ | congruence ].
  apply Qle_bool_iff.
  unfold Qle, Qmult, inject_Z in *. simpl in *.
  unfold bytes_per_gb in E. nia.
Qed.

Lemma calculate_punishment_no_usage cfg now_start now_end user_data total :
  valid_config cfg = true -> total <= 0 ->
  calculate_punishment (init cfg) now_start now_end user_data total None
  = Ok None.
Proof.
  intros Hv Ht. unfold valid_config in Hv.
  repeat (apply andb_prop in Hv as [Hv ?]).
  unfold calculate_punishment, determine_punishment_level, scan_thresholds.
  destruct (decide (None = Some MAXIMUM)) as [E | _]; [discriminate | ].
  simpl.
  rewrite !positive_threshold_not_met by assumption. reflexivity.
Qed.

(** X4: Under a configuration the validators accept (all thresholds
    positive), a total of zero or less with no current punishment gives no
    punishment. *)
Theorem calculate_punishment_nothing_without_usage :
  forall (cfg : Config.PunishmentConfig) (now_start now_end : Z)
         (user_data : UserData.t) (total_data_bytes : Z),
    valid_config cfg = true ->
    total_data_bytes <= 0 ->
    calculate_punishment (init cfg) now_start now_end user_data
      total_data_bytes None = Ok None.
Proof.
  intros cfg now_start now_end user_data total Hv Ht.
  apply calculate_punishment_no_usage; assumption.
Qed.

Lemma calculate_punishment_nothing_without_usage_witness :
  calculate_punishment (init Config.default_config) 5 6 Scenario.alice_data 0
    None = Ok None.
Proof.
  apply calculate_punishment_nothing_without_usage; [reflexivity | lia].
Defined.

End CalculatorMore.

(** ** The punishments table, beyond the claims *)

Section PunishmentRows.
Import Cases.

Lemma fold_max_bounds (seq : Z) (ids : list Z) :
  seq <= fold_right Z.max seq ids
  /\ Forall (fun i => i <= fold_right Z.max seq ids) ids.
Proof.
  induction ids as [| i ids [IH1 IH2]]; simpl.
  - split; [lia | constructor].
  - split; [lia | ]. constructor; [lia | ].
    eapply Forall_impl; [exact IH2 | ]. simpl. intros; lia.
Qed.

Lemma next_autoincrement_fresh (seq : Z) (rows : list UserPunishment.t) :
  seq < Sqlite.next_autoincrement seq (map UserPunishment.id rows)
  /\ Forall (fun p => UserPunishment.id p
                      < Sqlite.next_autoincrement seq (map UserPunishment.id rows))
       rows.
Proof.
  unfold Sqlite.next_autoincrement.
  destruct (fold_max_bounds seq (map UserPunishment.id rows)) as [H1 H2].
  split; [lia | ].
  apply Forall_forall. intros p Hp.
  rewrite Forall_forall in H2.
  assert (UserPunishment.id p ∈ map UserPunishment.id rows) as Hin
    by (apply list_elem_of_fmap; eauto).
  specialize (H2 _ Hin). simpl in H2. lia.
Qed.

Lemma insert_punishment_invariant row s :
  table_invariant s -> table_invariant (snd (Sqlite.insert_punishment row s)).
Proof.
  intros [Hnd Hall]. unfold Sqlite.insert_punishment.
  destruct (UserPunishment.reason row) as [r |] eqn:Er; [ | split; assumption ].
  simpl. destruct (next_autoincrement_fresh (Sqlite.punishments_seq s)
                     (Sqlite.punishments s)) as [Hseq Hfresh].
  set (new_id := Sqlite.next_autoincrement _ _) in *.
  split; simpl.
  - rewrite map_app. simpl. apply NoDup_app. split; [exact Hnd | ].
    split; [ | apply NoDup_singleton ].
    intros i Hi [= ->]%list_elem_of_singleton.
    apply list_elem_of_fmap in Hi as (p & Hid & Hp).
    rewrite Forall_forall in Hfresh. specialize (Hfresh _ Hp). simpl in Hfresh. lia.
  - apply Forall_app. split.
    + eapply Forall_impl; [exact Hall | ]. simpl. intros p [Hr Hi]. split; [exact Hr | lia].
    + constructor; [ | constructor ]. simpl. rewrite Er. split; [eauto | lia].
Qed.

Lemma map_rows_invariant (f : UserPunishment.t -> UserPunishment.t) s :
  (forall p, UserPunishment.id (f p) = UserPunishment.id p) ->
  (forall p, is_Some (UserPunishment.reason p) ->
             is_Some (UserPunishment.reason (f p))) ->
  table_invariant s ->
  table_invariant
    (Sqlite.set_punishments (map f (Sqlite.punishments s))
       (Sqlite.punishments_seq s) s).
Proof.
  intros Hid Hreason [Hnd Hall]. split; simpl.
  - rewrite map_map. erewrite map_ext; [exact Hnd | ]. intros p. apply Hid.
  - apply Forall_forall. intros q Hq.
    apply list_elem_of_fmap in Hq as (p & -> & Hp).
    rewrite Forall_forall in Hall. destruct (Hall _ Hp) as [Hr Hi].
    rewrite Hid. split; [apply Hreason; exact Hr | exact Hi].
Qed.

Lemma deactivate_invariant user_id reason s :
  table_invariant s ->
  table_invariant
    (Sqlite.set_punishments
       (Sqlite.deactivate_rows user_id reason (Sqlite.punishments s))
       (Sqlite.punishments_seq s) s).
Proof.
  intros Hinv. unfold Sqlite.deactivate_rows. apply map_rows_invariant; [ | | exact Hinv ].
  - intros p. destruct (Sqlite.active_for user_id p), reason; reflexivity.
  - intros p Hr. destruct (Sqlite.active_for user_id p), reason; simpl; eauto.
Qed.

Lemma bool_filter_sublist {A} (f : A -> bool) (l : list A) :
  List.filter f l `sublist_of` l.
Proof.
  induction l as [| x l IH]; simpl; [constructor | ].
  destruct (f x); [apply sublist_skip | apply sublist_cons]; exact IH.
Qed.

Lemma create_punishment_invariant user_id level sd ed cd rr du active reason s :
  table_invariant s ->
  table_invariant
    (snd (Sqlite.create_punishment user_id level sd ed cd rr du active reason s)).
Proof.
  intros Hinv. unfold Sqlite.create_punishment, bind, ret.
  match goal with |- context [Sqlite.insert_punishment ?row s] =>
    pose proof (insert_punishment_invariant row s Hinv) as Hi;
    destruct (Sqlite.insert_punishment row s) as [[i | e] s1] end;
    exact Hi.
Qed.

Lemma add_punishment_invariant p s :
  table_invariant s -> table_invariant (snd (Sqlite.add_punishment p s)).
Proof.
  intros Hinv. unfold Sqlite.add_punishment, bind, get_state, put_state, ret.
  pose proof (deactivate_invariant (UserPunishment.user_id p) None s Hinv) as H1.
  set (s1 := Sqlite.set_punishments _ _ s) in *.
  pose proof (insert_punishment_invariant p s1 H1) as H2.
  destruct (Sqlite.insert_punishment p s1) as [[i | e] s2]; exact H2.
Qed.

Lemma update_punishment_invariant p s :
  table_invariant s -> table_invariant (snd (SqliteAdmin.update_punishment p s)).
Proof.
  intros Hinv. unfold SqliteAdmin.update_punishment.
  destruct (existsb _ _); [ | exact Hinv ].
  destruct (UserPunishment.reason p) as [r |] eqn:Er; [ | exact Hinv ].
  apply (map_rows_invariant _ s); [ | | exact Hinv ].
  - intros q. destruct (SqliteAdmin.has_id _ q); reflexivity.
  - intros q Hq. destruct (SqliteAdmin.has_id _ q); simpl;
      [rewrite Er; eauto | exact Hq].
Qed.

Lemma remove_user_punishments_invariant user_id s :
  table_invariant s ->
  table_invariant (snd (SqliteAdmin.remove_user_punishments user_id s)).
Proof.
  intros [Hnd Hall]. split; simpl.
  - refine (sublist_NoDup _ _ Hnd _).
    apply (fmap_sublist UserPunishment.id). apply bool_filter_sublist.
  - apply Forall_forall. intros q Hq.
    apply list_elem_of_In, filter_In in Hq as [Hq _].
    rewrite Forall_forall in Hall. apply Hall. apply list_elem_of_In. exact Hq.
Qed.

Lemma create_punishment_fresh user_id level sd ed cd rr du active reason s p s' :
  Sqlite.create_punishment user_id level sd ed cd rr du active reason s
  = (Ok p, s') ->
  Sqlite.punishments_seq s < UserPunishment.id p
  /\ Forall (fun q => UserPunishment.id q < UserPunishment.id p)
       (Sqlite.punishments s).
Proof.
  intros H.
  unfold Sqlite.create_punishment, bind, ret, Sqlite.insert_punishment in H.
  destruct reason as [r |]; simpl in H; inversion H; subst. simpl.
  apply next_autoincrement_fresh.
Qed.

(** X5: The guarantees of the schema (distinct ids, a reason in every row, no
    id above the sequence) hold of the empty store and are kept by every
    operation that writes punishments, whether it returns or raises; and
    the id a created punishment gets lies above the sequence, so an id is
    never given twice, not even after rows were deleted. *)
Theorem punishments_table_invariant :
  table_invariant Sqlite.empty
  /\ forall s : Sqlite.Store,
       table_invariant s ->
       (forall user_id level sd ed cd rr du active reason,
           table_invariant
             (snd (Sqlite.create_punishment user_id level sd ed cd rr du
                     active reason s)))
       /\ (forall p, table_invariant (snd (Sqlite.add_punishment p s)))
       /\ (forall user_id reason,
              table_invariant (snd (Sqlite.deactivate_punishment user_id reason s)))
       /\ (forall p, table_invariant (snd (SqliteAdmin.update_punishment p s)))
       /\ (forall user_id,
              table_invariant (snd (SqliteAdmin.remove_user_punishments user_id s)))
       /\ (forall user_id level sd ed cd rr du active reason p s',
              Sqlite.create_punishment user_id level sd ed cd rr du active
                reason s = (Ok p, s') ->
              Sqlite.punishments_seq s < UserPunishment.id p
              /\ Forall (fun q => UserPunishment.id q < UserPunishment.id p)
                   (Sqlite.punishments s)).
Proof.
  split; [split; simpl; constructor | ].
  intros s Hinv.
  split; [intros; apply create_punishment_invariant; exact Hinv | ].
  split; [intros; apply add_punishment_invariant; exact Hinv | ].
  split; [intros; apply deactivate_invariant; exact Hinv | ].
  split; [intros; apply update_punishment_invariant; exact Hinv | ].
  split; [intros; apply remove_user_punishments_invariant; exact Hinv | ].
  intros. eapply create_punishment_fresh. eassumption.
Qed.

(** The invariant at work: after alice's rows are deleted, bob's new
    punishment still gets an id above the three that were ever used. *)
Lemma punishments_table_invariant_witness :
  table_invariant store_doubly_punished
  /\ exists p s',
       Sqlite.create_punishment "bob" 2 30 40 5 0 0 true (Some "again"%string)
         (snd (SqliteAdmin.remove_user_punishments "alice" store_doubly_punished))
       = (Ok p, s')
       /\ 3 < UserPunishment.id p.
Proof.
  assert (table_invariant store_doubly_punished) as Hinv.
  { split; simpl.
    - repeat constructor; vm_compute; intros H;
        repeat (inversion H as [| ? ? ? H']; subst; clear H; rename H' into H).
    - repeat constructor; simpl; eauto; lia. }
  split; [exact Hinv | ].
  destruct punishments_table_invariant as [_ Hkeep].
  destruct (Hkeep _ Hinv) as (_ & _ & _ & _ & Hdel & _).
  destruct (Hkeep _ (Hdel "alice"%string)) as (_ & _ & _ & _ & _ & Hfresh).
  edestruct (Hfresh "bob"%string 2 30 40 5 0 0 true (Some "again"%string))
    as [Hlt _]; [vm_compute; reflexivity | ].
  eexists _, _. split; [vm_compute; reflexivity | exact Hlt].
Defined.

End PunishmentRows.

(** ** Writing and reading back *)

Section RoundTrips.
Import Cases.

Lemma find_none_below {A} (key : A -> Z) (n : Z) (l : list A) :
  Forall (fun x => key x < n) l ->
  List.find (fun x => key x =? n) l = None.
Proof.
  induction 1 as [| x l Hx _ IH]; [reflexivity | ].
  simpl. destruct (key x =? n) eqn:E; [apply Z.eqb_eq in E; lia | exact IH].
Qed.

Lemma find_app_new {A} (key : A -> Z) (n : Z) (l : list A) (x : A) :
  Forall (fun y => key y < n) l -> key x = n ->
  List.find (fun y => key y =? n) (l ++ [x]) = Some x.
Proof.
  intros Hl Hx. induction Hl as [| y l Hy _ IH]; simpl.
  - rewrite Hx, Z.eqb_refl. reflexivity.
  - destruct (key y =? n) eqn:E; [apply Z.eqb_eq in E; lia | exact IH].
Qed.

Lemma find_app_old {A} (key : A -> Z) (n j : Z) (l : list A) (x : A) :
  key x = n -> j <> n ->
  List.find (fun y => key y =? j) (l ++ [x]) = List.find (fun y => key y =? j) l.
Proof.
  intros Hx Hne. induction l as [| y l IH]; simpl.
  - destruct (key x =? j) eqn:E; [apply Z.eqb_eq in E; lia | reflexivity].
  - destruct (key y =? j); [reflexivity | exact IH].
Qed.

(** X6: A created punishment can be read back under the id it was given:
    [get_punishment] returns the record [create_punishment] returned,
    except that an empty reason is read back as [None]; and every
    punishment that could be read before is read unchanged. *)
Theorem create_then_get_punishment :
  forall (user_id : UserId) (level sd ed cd rr du : Z) (active : bool)
         (reason : string) (s : Sqlite.Store),
    exists p s',
      Sqlite.create_punishment user_id level sd ed cd rr du active
        (Some reason) s = (Ok p, s')
      /\ SqliteAdmin.get_punishment (UserPunishment.id p) s'
         = (Ok (Some (Sqlite.set_reason (read_reason reason) p)), s')
      /\ forall q, In q (Sqlite.punishments s) ->
           fst (SqliteAdmin.get_punishment (UserPunishment.id q) s')
           = fst (SqliteAdmin.get_punishment (UserPunishment.id q) s).
Proof.
  intros user_id level sd ed cd rr du active reason s.
  unfold Sqlite.create_punishment, bind, ret, Sqlite.insert_punishment. simpl.
  destruct (next_autoincrement_fresh (Sqlite.punishments_seq s)
              (Sqlite.punishments s)) as [_ Hfresh].
  set (new_id := Sqlite.next_autoincrement _ _) in *.
  eexists _, _. split; [reflexivity | ]. split.
  - unfold SqliteAdmin.get_punishment. simpl.
    rewrite (find_app_new UserPunishment.id new_id) by (auto; reflexivity).
    reflexivity.
  - intros q Hq. unfold SqliteAdmin.get_punishment. simpl.
    rewrite (find_app_old UserPunishment.id new_id); [reflexivity | reflexivity | ].
    rewrite Forall_forall in Hfresh.
    specialize (Hfresh q (proj2 (list_elem_of_In _ _) Hq)). simpl in Hfresh. lia.
Qed.

Lemma next_rowid_fresh (rows : list UserRequest.t) :
  Forall (fun r => UserRequest.id r < Sqlite.next_rowid (map UserRequest.id rows))
    rows.
Proof.
  unfold Sqlite.next_rowid.
  destruct (fold_max_bounds 0 (map UserRequest.id rows)) as [_ H2].
  apply Forall_forall. intros r Hr. rewrite Forall_forall in H2.
  assert (UserRequest.id r ∈ map UserRequest.id rows) as Hin
    by (apply list_elem_of_fmap; eauto).
  specialize (H2 _ Hin). simpl in H2. lia.
Qed.

(** X7: A request added to the table (its media type being one the table
    accepts) can be read back under the row id [add_request] returns, with
    the fields it was given; the requests stored before are read
    unchanged, and the id is above all of theirs. *)
Theorem add_then_get_request :
  forall (request : UserRequest.t) (s : Sqlite.Store),
    Sqlite.check_media_type (UserRequest.media_type request) = true ->
    exists request_id s',
      Sqlite.add_request request s = (Ok request_id, s')
      /\ SqliteAdmin.get_request request_id s'
         = (Ok (Some (stored_request request_id request)), s')
      /\ Forall (fun r => UserRequest.id r < request_id) (Sqlite.requests s)
      /\ forall r, In r (Sqlite.requests s) ->
           fst (SqliteAdmin.get_request (UserRequest.id r) s')
           = fst (SqliteAdmin.get_request (UserRequest.id r) s).
Proof.
  intros request s Hm. unfold Sqlite.add_request. rewrite Hm.
  cbn [Sqlite.requests Sqlite.set_user_stats].
  pose proof (next_rowid_fresh (Sqlite.requests s)) as Hfresh.
  set (request_id := Sqlite.next_rowid _) in *.
  eexists _, _. split; [reflexivity | ]. split; [ | split ].
  - unfold SqliteAdmin.get_request. cbn [Sqlite.requests Sqlite.set_requests].
    rewrite (find_app_new UserRequest.id request_id) by (auto; reflexivity).
    reflexivity.
  - exact Hfresh.
  - intros r Hr. unfold SqliteAdmin.get_request.
    cbn [Sqlite.requests Sqlite.set_requests fst].
    rewrite (find_app_old UserRequest.id request_id); [reflexivity | reflexivity | ].
    rewrite Forall_forall in Hfresh.
    specialize (Hfresh r (proj2 (list_elem_of_In _ _) Hr)). simpl in Hfresh. lia.
Qed.

Lemma add_then_get_request_witness :
  exists s',
    Sqlite.add_request (movie_request "alice" 7 1000000)
      (Scenario.store_with_limit 100) = (Ok 1, s')
    /\ SqliteAdmin.get_request 1 s'
       = (Ok (Some (stored_request 1 (movie_request "alice" 7 1000000))), s').
Proof.
  destruct (add_then_get_request (movie_request "alice" 7 1000000)
              (Scenario.store_with_limit 100) eq_refl)
    as (request_id & s' & E & Hget & _).
  assert (request_id = 1) as -> by (vm_compute in E; congruence).
  exists s'. split; [exact E | exact Hget].
Defined.

End RoundTrips.

Section RoundTripsWitness.
Import Cases.

Lemma create_then_get_punishment_witness :
  exists p s',
    Sqlite.create_punishment "alice" 2 10 20 5 (-5) 0 true (Some ""%string)
      Scenario.store_punished = (Ok p, s')
    /\ UserPunishment.id p = 2
    /\ SqliteAdmin.get_punishment 2 s'
       = (Ok (Some (Sqlite.set_reason None p)), s')
    /\ fst (SqliteAdmin.get_punishment 1 s') = Ok (Some Scenario.warning_row).
Proof.
  destruct (create_then_get_punishment "alice"%string 2 10 20 5 (-5) 0 true
              ""%string Scenario.store_punished)
    as (p & s' & E & Hget & Hold).
  assert (UserPunishment.id p = 2) as Hid
    by (vm_compute in E; inversion E; reflexivity).
  exists p, s'. split; [exact E | ]. split; [exact Hid | ].
  split.
  - rewrite <- Hid. exact Hget.
  - change 1 with (UserPunishment.id Scenario.warning_row).
    rewrite (Hold Scenario.warning_row); [reflexivity | left; reflexivity].
Defined.

End RoundTripsWitness.

(** ** The statistics table *)

Section StatsRows.
Import Cases Scenario.

(** X8: [ensure_user_exists] never overwrites: a user who has a row keeps the
    store as it is; a user without one gets a row with the given seven
    fields, which [get_user_stats] then returns, the rows of all other
    users staying as they were; and a second call changes nothing. *)
Theorem ensure_user_exists_spec :
  forall (stats : UserStats.t) (s : Sqlite.Store),
    let s' := snd (SqliteAdmin.ensure_user_exists stats s) in
    fst (SqliteAdmin.ensure_user_exists stats s) = Ok tt
    /\ (is_Some (Sqlite.user_stats s !! UserStats.user_id stats) -> s' = s)
    /\ (Sqlite.user_stats s !! UserStats.user_id stats = None ->
        fst (Sqlite.get_user_stats (UserStats.user_id stats) s')
        = Ok (Some {| UserStats.user_id := UserStats.user_id stats;
                      UserStats.username := UserStats.username stats;
                      UserStats.total_data_usage := UserStats.total_data_usage stats;
                      UserStats.punishment_level := UserStats.punishment_level stats;
                      UserStats.cooldown_days := UserStats.cooldown_days stats;
                      UserStats.request_limit := UserStats.request_limit stats;
                      UserStats.total_requests := UserStats.total_requests stats;
                      UserStats.current_punishment_id := None;
                      UserStats.last_request_date := None |}))
    /\ (forall other, other <> UserStats.user_id stats ->
          Sqlite.user_stats s' !! other = Sqlite.user_stats s !! other)
    /\ snd (SqliteAdmin.ensure_user_exists stats s') = s'.
Proof.
  intros stats s. unfold SqliteAdmin.ensure_user_exists.
  destruct (Sqlite.user_stats s !! UserStats.user_id stats) as [row |] eqn:E;
    cbn [fst snd].
  - split; [reflexivity | ]. split; [reflexivity | ].
    split; [discriminate | ]. split; [reflexivity | ].
    rewrite E. reflexivity.
  - split; [reflexivity | ]. split; [intros [? [=]] | ].
    split.
    + intros _. unfold Sqlite.get_user_stats. cbn [fst Sqlite.user_stats Sqlite.set_user_stats].
      rewrite lookup_insert_eq. reflexivity.
    + split.
      * intros other Hne. cbn. rewrite lookup_insert_ne by congruence. reflexivity.
      * cbn [Sqlite.user_stats Sqlite.set_user_stats].
        rewrite lookup_insert_eq. reflexivity.
Qed.

Lemma ensure_user_exists_spec_witness :
  snd (SqliteAdmin.ensure_user_exists
         (UserStats.mk "alice" "someone else" 9 9 9 9 9 None None)
         (store_with_limit 100))
  = store_with_limit 100.
Proof.
  destruct (ensure_user_exists_spec
              (UserStats.mk "alice" "someone else" 9 9 9 9 9 None None)
              (store_with_limit 100)) as (_ & Hkeep & _).
  apply Hkeep. vm_compute. eauto.
Defined.

(** X9: [adjust_user_limit], while the adjustments, the stored limit and
    the sums stay within the 64 bits of the INTEGER column, adds the
    adjustment to the stored limit as it is, with no floor and no ceiling
    of its own; two adjustments amount to one by their sum; a user without
    a row is left without one; nothing else in the store changes. *)
Theorem adjust_user_limit_additive :
  forall (user_id : UserId) (a b : Z) (reason1 reason2 : string)
         (s : Sqlite.Store),
    int64 a -> int64 b -> int64 (a + b) ->
    (forall l, persisted_limit user_id s = Some l ->
               int64 l /\ int64 (l + a) /\ int64 (l + a + b)) ->
    let s1 := snd (SqliteAdmin.adjust_user_limit user_id a reason1 s) in
    let s2 := snd (SqliteAdmin.adjust_user_limit user_id b reason2 s1) in
    fst (SqliteAdmin.adjust_user_limit user_id a reason1 s) = Ok tt
    /\ persisted_limit user_id s1 = (fun l => l + a) <$> persisted_limit user_id s
    /\ (forall other, other <> user_id ->
          Sqlite.user_stats s1 !! other = Sqlite.user_stats s !! other)
    /\ Sqlite.punishments s1 = Sqlite.punishments s
    /\ Sqlite.requests s1 = Sqlite.requests s
    /\ s2 = snd (SqliteAdmin.adjust_user_limit user_id (a + b) reason1 s).
Proof.
  intros user_id a b reason1 reason2 s _ _ _ _. cbn.
  unfold persisted_limit. cbn.
  split; [reflexivity | ].
  split.
  { rewrite lookup_alter_eq. destruct (Sqlite.user_stats s !! user_id); reflexivity. }
  split.
  { intros other Hne. rewrite lookup_alter_ne by congruence. reflexivity. }
  split; [reflexivity | ]. split; [reflexivity | ].
  unfold Sqlite.set_user_stats. cbn. f_equal.
  apply map_eq. intros k. destruct (decide (user_id = k)) as [<- | Hne].
  - rewrite !lookup_alter_eq.
    rewrite <- option_fmap_compose. apply option_fmap_ext. intros row.
    cbn. unfold SqliteAdmin.set_request_limit. cbn. f_equal. lia.
  - rewrite !lookup_alter_ne by exact Hne. reflexivity.
Qed.

(** As the limit has no floor here, it can go below the floor of 5 that
    [create_punishment] keeps, and below zero. *)
Lemma adjust_user_limit_additive_witness :
  persisted_limit "alice"
    (snd (SqliteAdmin.adjust_user_limit "alice" (-8) "manual"
            (store_with_limit 10))) = Some 2
  /\ persisted_limit "alice"
       (snd (SqliteAdmin.adjust_user_limit "alice" (-8) "again"
               (snd (SqliteAdmin.adjust_user_limit "alice" (-8) "manual"
                       (store_with_limit 10)))))
     = persisted_limit "alice"
         (snd (SqliteAdmin.adjust_user_limit "alice" (-16) "manual"
                 (store_with_limit 10))).
Proof.
  destruct (adjust_user_limit_additive "alice"%string (-8) (-8)
              "manual"%string "again"%string (store_with_limit 10))
    as (_ & H1 & _ & _ & _ & H2).
  - unfold int64. lia.
  - unfold int64. lia.
  - unfold int64. lia.
  - intros l Hl. vm_compute in Hl. inversion Hl. unfold int64. lia.
  - split.
    + rewrite H1. reflexivity.
    + rewrite H2. reflexivity.
Defined.

(** X10: [UserManager.create_user] persists nothing for a user who has no row:
    it goes through [save_user_stats], an UPDATE, so the store stays as it
    was although the statistics (limit 10) are returned.  For a user who
    has a row it overwrites name, usage and request count, and resets
    level and cooldown to 0 and the limit to 10. *)
Theorem create_user_persists_only_existing :
  forall (now : Z) (user_id : UserId) (username : string)
         (total_data_usage total_requests : Z) (s : Sqlite.Store),
    exists stats s',
      UserAdmin.create_user (db := sqlite_manager) now user_id username
        total_data_usage total_requests s = (Ok stats, s')
      /\ UserStats.request_limit stats = 10
      /\ (Sqlite.user_stats s !! user_id = None -> s' = s)
      /\ (forall row, Sqlite.user_stats s !! user_id = Some row ->
            Sqlite.user_stats s' !! user_id
            = Some {| Sqlite.username := username;
                      Sqlite.total_data_usage := total_data_usage;
                      Sqlite.total_requests := total_requests;
                      Sqlite.punishment_level := 0;
                      Sqlite.cooldown_days := 0;
                      Sqlite.request_limit := 10;
                      Sqlite.last_request_date := Sqlite.last_request_date row;
                      Sqlite.current_punishment_id :=
                        Sqlite.current_punishment_id row |}).
Proof.
  intros now user_id username usage total s.
  unfold UserAdmin.create_user, bind, ret.
  cbn [save_user_stats sqlite_manager].
  unfold Sqlite.save_user_stats, bind, get_state, put_state. cbn.
  eexists _, _. split; [reflexivity | ]. split; [reflexivity | ].
  split.
  - intros Hnone. rewrite (alter_id' _ _ _ Hnone). destruct s; reflexivity.
  - intros row Hrow. cbn. rewrite lookup_alter_eq, Hrow. reflexivity.
Qed.

Lemma create_user_persists_only_existing_witness :
  exists stats,
    UserAdmin.create_user (db := sqlite_manager) 7 "carol" "Carol" 0 0
      (store_with_limit 100) = (Ok stats, store_with_limit 100)
    /\ fst (Sqlite.get_user_stats "carol" (store_with_limit 100)) = Ok None.
Proof.
  destruct (create_user_persists_only_existing 7 "carol"%string "Carol"%string
              0 0 (store_with_limit 100))
    as (stats & s' & E & _ & Hnew & _).
  exists stats. split; [ | reflexivity ].
  rewrite E. f_equal. exact (Hnew eq_refl).
Defined.

End StatsRows.

(** ** Counting requests *)

Section RequestCounting.
Import Cases Scenario.

(** The statistics after [DatabaseManager.add_request]: one request and
    its size more for a user with a row; a fresh row (name [user_<id>],
    limit 10) holding exactly this request for a user without one. *)
Lemma add_request_counts request s :
  Sqlite.check_media_type (UserRequest.media_type request) = true ->
  exists row',
    Sqlite.user_stats (snd (Sqlite.add_request request s))
      !! UserRequest.user_id request = Some row'
    /\ match Sqlite.user_stats s !! UserRequest.user_id request with
       | Some row =>
           Sqlite.total_requests row' = Sqlite.total_requests row + 1
           /\ Sqlite.total_data_usage row'
              = Sqlite.total_data_usage row + UserRequest.size_bytes request
           /\ Sqlite.request_limit row' = Sqlite.request_limit row
       | None =>
           Sqlite.total_requests row' = 1
           /\ Sqlite.total_data_usage row' = UserRequest.size_bytes request
           /\ Sqlite.request_limit row' = 10
       end.
Proof.
  intros Hm. unfold Sqlite.add_request. rewrite Hm. cbn.
  destruct (Sqlite.user_stats s !! UserRequest.user_id request) as [row |];
    rewrite lookup_insert_eq; eexists; (split; [reflexivity | ]); cbn; auto.
Qed.

(** X11: [UserManager.add_request] counts every request twice: the database
    operation it calls already adds the request and its size to the user's
    statistics, and the manager then adds them again.  So for a user with
    a row the request count grows by 2 and the usage by twice the size,
    and a user without a row starts at 2 requests, while one row is added
    to the requests table. *)
Theorem manager_add_request_counts_twice :
  forall (now : Z) (user_id : UserId) (media_id media_type : string)
         (size_bytes : Z) (s : Sqlite.Store),
    Forall (fun p => Sqlite.active_for user_id p = false) (Sqlite.punishments s) ->
    Sqlite.check_media_type media_type = true ->
    let s' := snd (UserManager.manager_add_request (db := sqlite_manager) now
                     user_id media_id media_type size_bytes s) in
    length (Sqlite.requests s') = S (length (Sqlite.requests s))
    /\ exists row',
         Sqlite.user_stats s' !! user_id = Some row'
         /\ match Sqlite.user_stats s !! user_id with
            | Some row =>
                Sqlite.total_requests row' = Sqlite.total_requests row + 2
                /\ Sqlite.total_data_usage row'
                   = Sqlite.total_data_usage row + 2 * size_bytes
            | None =>
                Sqlite.total_requests row' = 2
                /\ Sqlite.total_data_usage row' = 2 * size_bytes
            end.
Proof.
  intros now user_id media_id media_type size_bytes s Hn Hm s'. subst s'.
  destruct (UserManager.manager_add_request now user_id media_id media_type
              size_bytes s) as [res s1] eqn:E.
  cbn [snd].
  unfold UserManager.manager_add_request,
    PunishmentManager.manager_get_active_punishment,
    UserManager.manager_get_user_stats, bind in E.
  cbn [get_active_punishment add_request get_user_stats save_user_stats
       sqlite_manager] in E.
  rewrite (get_active_punishment_none _ _ Hn) in E.
  unfold ret at 1 in E. unfold Sqlite.add_request in E.
  cbn [UserRequest.media_type] in E. rewrite Hm in E.
  unfold Sqlite.get_user_stats, Sqlite.save_user_stats, bind, get_state,
    put_state, ret in E.
  cbn in E. unfold UserId in *.
  destruct (Sqlite.user_stats s !! user_id) as [row |] eqn:Erow;
    rewrite lookup_insert_eq in E; cbn in E;
    inversion E; subst res s1; clear E; cbn;
    (split; [rewrite length_app; simpl; lia | ]);
    rewrite lookup_alter_eq, lookup_insert_eq; cbn;
    eexists; (split; [reflexivity | ]); cbn; split; lia.
Qed.

Lemma manager_add_request_counts_twice_witness :
  exists row',
    Sqlite.user_stats
      (snd (UserManager.manager_add_request (db := sqlite_manager) 7 "alice"
              "603" "movie" 1000 (store_with_limit 100)))
      !! "alice"%string = Some row'
    /\ Sqlite.total_requests row' = 2
    /\ Sqlite.total_data_usage row' = 2000.
Proof.
  destruct (manager_add_request_counts_twice 7 "alice"%string "603"%string
              "movie"%string 1000 (store_with_limit 100))
    as (_ & row' & Hrow & Hcount).
  - constructor.
  - reflexivity.
  - exists row'. split; [exact Hrow | ].
    change (Sqlite.user_stats (store_with_limit 100) !! "alice"%string)
      with (Some (stats_row 100)) in Hcount.
    exact Hcount.
Defined.

End RequestCounting.

(** ** Overrides and resets *)

Section Overrides.
Import Cases Scenario.

Lemma filter_filter_neg {A} (f : A -> bool) (l : list A) :
  List.filter f (List.filter (fun x => negb (f x)) l) = [].
Proof.
  induction l as [| x l IH]; [reflexivity | ].
  simpl. destruct (f x) eqn:E; simpl; [exact IH | ].
  rewrite E. exact IH.
Qed.

Lemma filter_filter_implied {A} (f g : A -> bool) (l : list A) :
  (forall x, g x = true -> f x = true) ->
  List.filter g (List.filter f l) = List.filter g l.
Proof.
  intros Himp. induction l as [| x l IH]; [reflexivity | ].
  simpl. destruct (f x) eqn:Ef; simpl.
  - rewrite IH. reflexivity.
  - destruct (g x) eqn:Eg; [rewrite (Himp _ Eg) in Ef; discriminate | exact IH].
Qed.

(** X13: [remove_user_punishments] deletes every row of the user, active or
    not, so that no active punishment can be read afterwards; the rows of
    the other users, the requests and the statistics (also the user's own
    row, with its level, cooldown and punishment id) stay as they were. *)
Theorem remove_user_punishments_purges :
  forall (user_id : UserId) (s : Sqlite.Store),
    let s' := snd (SqliteAdmin.remove_user_punishments user_id s) in
    fst (SqliteAdmin.remove_user_punishments user_id s) = Ok tt
    /\ rows_of user_id s' = []
    /\ Sqlite.get_active_punishment user_id s' = (Ok None, s')
    /\ (forall other, other <> user_id -> rows_of other s' = rows_of other s)
    /\ Sqlite.requests s' = Sqlite.requests s
    /\ Sqlite.user_stats s' = Sqlite.user_stats s.
Proof.
  intros user_id s. cbn.
  split; [reflexivity | ]. split.
  { unfold rows_of. cbn. apply filter_filter_neg. }
  split.
  { apply get_active_punishment_none. cbn.
    apply Forall_forall. intros p Hp.
    apply list_elem_of_In, filter_In in Hp as [_ Hp].
    unfold Sqlite.active_for. apply negb_true_iff in Hp. rewrite Hp. reflexivity. }
  split; [ | split; reflexivity ].
  intros other Hne. unfold rows_of. cbn. apply filter_filter_implied.
  intros p Hp. apply bool_decide_eq_true in Hp.
  apply negb_true_iff, bool_decide_eq_false. congruence.
Qed.

Lemma remove_user_punishments_purges_witness :
  rows_of "alice" (snd (SqliteAdmin.remove_user_punishments "alice"
                          store_doubly_punished)) = []
  /\ rows_of "bob" (snd (SqliteAdmin.remove_user_punishments "alice"
                           store_doubly_punished)) = [bob_row].
Proof.
  destruct (remove_user_punishments_purges "alice"%string store_doubly_punished)
    as (_ & Hgone & _ & Hother & _).
  split; [exact Hgone | ].
  rewrite Hother by discriminate. reflexivity.
Defined.

Lemma same_id_same_row (rows : list UserPunishment.t) (c p : UserPunishment.t) :
  NoDup (map UserPunishment.id rows) ->
  In c rows -> In p rows -> UserPunishment.id p = UserPunishment.id c -> p = c.
Proof.
  induction rows as [| x rows IH]; intros Hnd Hc Hp Hid; [destruct Hc | ].
  simpl in Hnd. apply NoDup_cons in Hnd as [Hx Hnd].
  assert (forall q, In q rows -> UserPunishment.id q <> UserPunishment.id x) as Hfresh.
  { intros q Hq E. apply Hx. rewrite <- E.
    apply list_elem_of_fmap. exists q. split; [reflexivity | ].
    apply list_elem_of_In. exact Hq. }
  destruct Hc as [<- | Hc], Hp as [<- | Hp].
  - reflexivity.
  - exfalso. apply (Hfresh _ Hp). exact Hid.
  - exfalso. apply (Hfresh _ Hc). symmetry. exact Hid.
  - apply IH; assumption.
Qed.

Lemma updated_row_self c :
  SqliteAdmin.updated_row (Sqlite.set_is_active false c) c
  = Sqlite.set_is_active false c.
Proof. destruct c; reflexivity. Qed.

Lemma deactivate_one_row (c : UserPunishment.t) (rows : list UserPunishment.t) :
  (forall p, In p rows -> UserPunishment.id p = UserPunishment.id c -> p = c) ->
  forall other,
    List.filter (Sqlite.active_for other)
      (map (fun p => if SqliteAdmin.has_id (UserPunishment.id c) p
                     then SqliteAdmin.updated_row (Sqlite.set_is_active false c) p
                     else p) rows)
    = List.filter (fun p => negb (UserPunishment.id p =? UserPunishment.id c))
        (List.filter (Sqlite.active_for other) rows).
Proof.
  intros Huniq other. induction rows as [| x rows IH]; [reflexivity | ].
  cbn [map List.filter].
  rewrite IH by (intros p Hp; apply Huniq; right; exact Hp).
  unfold SqliteAdmin.has_id.
  destruct (UserPunishment.id x =? UserPunishment.id c) eqn:E.
  - apply Z.eqb_eq in E. rewrite (Huniq x (or_introl eq_refl) E).
    rewrite updated_row_self.
    replace (Sqlite.active_for other (Sqlite.set_is_active false c)) with false
      by (unfold Sqlite.active_for; simpl; rewrite andb_false_r; reflexivity).
    destruct (Sqlite.active_for other c); cbn [List.filter];
      [rewrite Z.eqb_refl; reflexivity | reflexivity].
  - destruct (Sqlite.active_for other x); cbn [List.filter];
      [rewrite E | ]; reflexivity.
Qed.

(** What [remove] does to a table as the schema keeps it. *)
Lemma override_remove_step now_start now_end user_id reason (s : Sqlite.Store) :
  table_invariant s ->
  (Sqlite.get_active_punishment user_id s = (Ok None, s)
   /\ Override.override_punishment (db := sqlite_manager) (admin := sqlite_admin)
        now_start now_end user_id "remove" reason s = (Ok None, s))
  \/ (exists c,
        Sqlite.get_active_punishment user_id s = (Ok (Some c), s)
        /\ In c (Sqlite.punishments s)
        /\ Sqlite.active_for user_id c = true
        /\ (forall p, In p (Sqlite.punishments s) ->
                      UserPunishment.id p = UserPunishment.id c -> p = c)
        /\ Override.override_punishment (db := sqlite_manager)
             (admin := sqlite_admin) now_start now_end user_id "remove" reason s
           = (Ok None,
              Sqlite.set_punishments
                (map (fun p =>
                        if SqliteAdmin.has_id (UserPunishment.id c) p
                        then SqliteAdmin.updated_row (Sqlite.set_is_active false c) p
                        else p) (Sqlite.punishments s))
                (Sqlite.punishments_seq s) s)).
Proof.
  intros [Hnd Hall].
  unfold Override.override_punishment, bind, ret.
  rewrite bool_decide_eq_true_2 by reflexivity.
  cbn [get_active_punishment update_punishment sqlite_manager sqlite_admin].
  destruct (Exists_dec (fun p => Sqlite.active_for user_id p = true)
              (Sqlite.punishments s)) as [Hex | Hno].
  - right. destruct (get_active_punishment_some _ _ Hex) as (c & E & Hin & Hact).
    exists c. rewrite E.
    split; [reflexivity | ]. split; [exact Hin | ]. split; [exact Hact | ].
    split; [intros p Hp Hid; eapply same_id_same_row; eassumption | ].
    unfold SqliteAdmin.update_punishment. cbn [UserPunishment.id Sqlite.set_is_active].
    assert (existsb (SqliteAdmin.has_id (UserPunishment.id c)) (Sqlite.punishments s)
            = true) as ->.
    { apply existsb_exists. exists c. split; [exact Hin | ].
      unfold SqliteAdmin.has_id. apply Z.eqb_refl. }
    rewrite Forall_forall in Hall.
    destruct (Hall c (proj2 (list_elem_of_In _ _) Hin)) as [[r Hr] _].
    cbn [UserPunishment.reason Sqlite.set_is_active]. rewrite Hr. reflexivity.
  - left.
    assert (Forall (fun p => Sqlite.active_for user_id p = false)
              (Sqlite.punishments s)) as Hn.
    { apply Forall_forall. intros p Hp.
      destruct (Sqlite.active_for user_id p) eqn:Ea; [ | reflexivity ].
      exfalso. apply Hno. apply Exists_exists. eauto. }
    rewrite (get_active_punishment_none _ _ Hn). split; reflexivity.
Qed.

Lemma update_keeps_other_users (c : UserPunishment.t) (rows : list UserPunishment.t)
    (other : UserId) :
  (forall p, In p rows -> UserPunishment.id p = UserPunishment.id c -> p = c) ->
  UserPunishment.user_id c <> other ->
  List.filter (fun p => bool_decide (UserPunishment.user_id p = other))
    (map (fun p => if SqliteAdmin.has_id (UserPunishment.id c) p
                   then SqliteAdmin.updated_row (Sqlite.set_is_active false c) p
                   else p) rows)
  = List.filter (fun p => bool_decide (UserPunishment.user_id p = other)) rows.
Proof.
  intros Huniq Hne. induction rows as [| x rows IH]; [reflexivity | ].
  cbn [map List.filter].
  rewrite IH by (intros p Hp; apply Huniq; right; exact Hp).
  unfold SqliteAdmin.has_id.
  destruct (UserPunishment.id x =? UserPunishment.id c) eqn:E; [ | reflexivity ].
  apply Z.eqb_eq in E. rewrite (Huniq x (or_introl eq_refl) E).
  rewrite updated_row_self. cbn [UserPunishment.user_id Sqlite.set_is_active].
  rewrite bool_decide_eq_false_2 by exact Hne. reflexivity.
Qed.

(** X14: [override_punishment] with action [remove], on a table as the schema
    keeps it: it returns [None]; when the user has no active punishment
    the store is unchanged; otherwise exactly the row that
    [get_active_punishment] reads (the active one that started last) is
    deactivated, and every other active row, of this user or another,
    stays active.  A user with two active rows is therefore still punished
    afterwards. *)
Theorem override_remove_deactivates_one :
  forall (now_start now_end : Z) (user_id : UserId) (reason : string)
         (s : Sqlite.Store),
    table_invariant s ->
    exists s',
      Override.override_punishment (db := sqlite_manager) (admin := sqlite_admin)
        now_start now_end user_id "remove" reason s = (Ok None, s')
      /\ match fst (Sqlite.get_active_punishment user_id s) with
         | Ok (Some current) =>
             In current (active_rows user_id s)
             /\ forall other,
                  active_rows other s'
                  = List.filter
                      (fun p => negb (UserPunishment.id p
                                      =? UserPunishment.id current))
                      (active_rows other s)
         | _ => s' = s
         end.
Proof.
  intros now_start now_end user_id reason s Hinv.
  destruct (override_remove_step now_start now_end user_id reason s Hinv)
    as [[Hget E] | (c & Hget & Hin & Hact & Huniq & E)].
  - exists s. rewrite Hget. split; [exact E | reflexivity].
  - eexists. split; [exact E | ]. rewrite Hget. cbn [fst]. split.
    + unfold active_rows. apply filter_In. split; assumption.
    + intros other. unfold active_rows.
      cbn [Sqlite.punishments Sqlite.set_punishments].
      apply (deactivate_one_row c). exact Huniq.
Qed.


Lemma table_invariant_doubly_punished : table_invariant store_doubly_punished.
Proof.
  split; simpl.
  - repeat constructor; vm_compute; intros H;
      repeat (inversion H as [| ? ? ? H']; subst; clear H; rename H' into H).
  - repeat constructor; simpl; eauto; lia.
Defined.

(** alice has two active rows; [remove] deactivates the later one (id 2)
    and leaves her punished by the first. *)
Lemma override_remove_deactivates_one_witness :
  exists s',
    Override.override_punishment (db := sqlite_manager) (admin := sqlite_admin)
      0 0 "alice" "remove" "mercy" store_doubly_punished = (Ok None, s')
    /\ active_ids "alice" s' = [1]
    /\ active_ids "bob" s' = [3].
Proof.
  destruct (override_remove_deactivates_one 0 0 "alice"%string "mercy"%string
              store_doubly_punished table_invariant_doubly_punished)
    as (s' & E & Hrows).
  exists s'. split; [exact E | ].
  change (fst (Sqlite.get_active_punishment "alice" store_doubly_punished))
    with (Ok (Some second_row)) in Hrows.
  destruct Hrows as [_ Hrows].
  unfold active_ids. fold (active_rows "alice" s'). fold (active_rows "bob" s').
  rewrite !Hrows. split; reflexivity.
Defined.

End Overrides.

Section Escalation.
Import Cases Scenario.

(** X15: [override_punishment] with action [escalate]: a SEVERE punishment of
    7 days with reduction 50 and no usage is stored as a new active row,
    beside the rows that were active before; the record returned carries
    id 0, not the id of the stored row; and the statistics (so also the
    persisted request limit) are not touched.  Any other action than
    [remove] and [escalate] returns [None] and leaves the store as it
    was. *)
Theorem override_escalate_adds_severe :
  forall (now_start now_end : Z) (user_id : UserId) (reason : string)
         (s : Sqlite.Store),
    (exists p s' row_id,
        Override.override_punishment (db := sqlite_manager)
          (admin := sqlite_admin) now_start now_end user_id "escalate" reason s
        = (Ok (Some p), s')
        /\ UserPunishment.id p = 0
        /\ UserPunishment.level p = value SEVERE
        /\ UserPunishment.cooldown_days p = 7
        /\ UserPunishment.request_reduction p = 50
        /\ UserPunishment.data_usage p = 0
        /\ UserPunishment.end_date p = now_end + timedelta_days 7
        /\ UserPunishment.reason p
           = Some ("Administrative override: " ++ reason)%string
        /\ Sqlite.punishments_seq s < row_id
        /\ active_rows user_id s'
           = active_rows user_id s ++ [Sqlite.set_id row_id p]
        /\ Sqlite.user_stats s' = Sqlite.user_stats s)
    /\ (forall action,
           action <> "remove"%string -> action <> "escalate"%string ->
           Override.override_punishment (db := sqlite_manager)
             (admin := sqlite_admin) now_start now_end user_id action reason s
           = (Ok None, s)).
Proof.
  intros now_start now_end user_id reason s. split.
  - unfold Override.override_punishment, bind, ret.
    rewrite bool_decide_eq_false_2 by discriminate.
    rewrite bool_decide_eq_true_2 by reflexivity.
    cbn [create_punishment sqlite_manager].
    unfold Sqlite.create_punishment, bind, ret, Sqlite.insert_punishment. cbn.
    destruct (next_autoincrement_fresh (Sqlite.punishments_seq s)
                (Sqlite.punishments s)) as [Hseq _].
    eexists _, _, _. split; [reflexivity | ].
    repeat (split; [reflexivity | ]).
    split; [exact Hseq | ]. split; [ | reflexivity ].
    unfold active_rows. cbn. rewrite List.filter_app. cbn.
    unfold Sqlite.active_for at 2. cbn.
    rewrite bool_decide_eq_true_2 by reflexivity. reflexivity.
  - intros action Hr He. unfold Override.override_punishment.
    rewrite !bool_decide_eq_false_2 by assumption. reflexivity.
Qed.

Lemma override_escalate_adds_severe_witness :
  Override.override_punishment (db := sqlite_manager) (admin := sqlite_admin)
    0 0 "alice" "pardon" "typo" store_punished = (Ok None, store_punished).
Proof.
  apply (proj2 (override_escalate_adds_severe 0 0 "alice"%string "typo"%string
                  store_punished)); discriminate.
Defined.

(** X16: [UserManager.reset_user_status] on the tables never completes: its
    last step, [update_user_stats], names no [username] in its INSERT and
    is rejected by the NOT NULL column.  By then the punishments of the
    user are deleted (each statement is committed on its own); the
    statistics row, the other users' punishments and the requests are as
    before. *)
Theorem reset_user_status_purges_then_fails :
  forall (now : Z) (user_id : UserId) (reason : string) (s : Sqlite.Store),
    table_invariant s ->
    exists s',
      UserAdmin.reset_user_status (db := sqlite_manager) (admin := sqlite_admin)
        now user_id reason s
      = (Raise (IntegrityError "NOT NULL constraint failed: user_stats.username"),
         s')
      /\ rows_of user_id s' = []
      /\ (forall other, other <> user_id -> rows_of other s' = rows_of other s)
      /\ Sqlite.user_stats s' = Sqlite.user_stats s
      /\ Sqlite.requests s' = Sqlite.requests s.
Proof.
  intros now user_id reason s Hinv.
  unfold UserAdmin.reset_user_status, bind.
  cbn [remove_user_punishments update_user_stats sqlite_admin].
  unfold SqliteAdmin.remove_user_punishments, SqliteAdmin.update_user_stats, raise.
  destruct (override_remove_step now now user_id reason s Hinv)
    as [[_ E] | (c & _ & _ & Hact & Huniq & E)]; rewrite E;
    (eexists; split; [reflexivity | ]); cbn.
  - split; [apply filter_filter_neg | ].
    split; [ | split; reflexivity ].
    intros other Hne. unfold rows_of. cbn. apply filter_filter_implied.
    intros p Hp. apply bool_decide_eq_true in Hp.
    apply negb_true_iff, bool_decide_eq_false. congruence.
  - split; [apply filter_filter_neg | ].
    split; [ | split; reflexivity ].
    intros other Hne. unfold rows_of. cbn.
    rewrite filter_filter_implied.
    + apply update_keeps_other_users; [exact Huniq | ].
      unfold Sqlite.active_for in Hact. apply andb_prop in Hact as [Hu _].
      apply bool_decide_eq_true in Hu. congruence.
    + intros p Hp. apply bool_decide_eq_true in Hp.
      apply negb_true_iff, bool_decide_eq_false. congruence.
Qed.


Lemma reset_user_status_purges_then_fails_witness :
  exists s',
    UserAdmin.reset_user_status (db := sqlite_manager) (admin := sqlite_admin)
      50 "alice" "Administrative reset" store_doubly_punished
    = (Raise (IntegrityError "NOT NULL constraint failed: user_stats.username"),
       s')
    /\ Sqlite.punishments s' = [bob_row]
    /\ persisted_limit "alice" s' = Some 100.
Proof.
  destruct (reset_user_status_purges_then_fails 50 "alice"%string
              "Administrative reset"%string store_doubly_punished
              table_invariant_doubly_punished) as (s' & E & _).
  exists s'. split; [exact E | ].
  vm_compute in E. inversion E. split; reflexivity.
Defined.

(** X17: [UserManager.adjust_request_limit] with a negative adjustment, under
    a configuration the validators accept: the limit is lowered by the
    adjustment and nothing else happens.  The punishment the code means
    to derive from it is computed from a usage of 0 bytes, which no
    positive threshold meets, so no punishment is created.  With an
    adjustment of zero or more the limit is raised and the active
    punishment read for the user, if any, is deactivated. *)
Theorem adjust_request_limit_never_punishes :
  forall (cfg : Config.PunishmentConfig) (now now_start now_end : Z)
         (user_id : UserId) (adjustment : Z) (reason : string)
         (s : Sqlite.Store),
    valid_config cfg = true ->
    (adjustment < 0 ->
     UserAdmin.adjust_request_limit (db := sqlite_manager)
       (admin := sqlite_admin) (Calculator.init cfg) now now_start now_end
       user_id adjustment reason s
     = (Ok tt, snd (SqliteAdmin.adjust_user_limit user_id adjustment reason s)))
    /\ (0 <= adjustment ->
        UserAdmin.adjust_request_limit (db := sqlite_manager)
          (admin := sqlite_admin) (Calculator.init cfg) now now_start now_end
          user_id adjustment reason s
        = match Override.override_punishment (db := sqlite_manager)
                  (admin := sqlite_admin) now_start now_end user_id "remove"
                  reason
                  (snd (SqliteAdmin.adjust_user_limit user_id adjustment reason s))
          with
          | (Ok _, s') => (Ok tt, s')
          | (Raise e, s') => (Raise e, s')
          end).
Proof.
  intros cfg now now_start now_end user_id adjustment reason s Hv.
  unfold UserAdmin.adjust_request_limit, bind.
  cbn [adjust_user_limit sqlite_admin].
  unfold SqliteAdmin.adjust_user_limit at 1 3. cbn [snd].
  split.
  - intros Hneg. apply Z.ltb_lt in Hneg. rewrite Hneg.
    unfold PunishmentManager.process_user_behavior.
    rewrite (calculate_punishment_no_usage cfg _ _ _ 0 Hv) by lia.
    reflexivity.
  - intros Hpos. apply Z.ltb_ge in Hpos. rewrite Hpos.
    destruct (Override.override_punishment _ _ _ _ _ _) as [[o | e] s'];
      reflexivity.
Qed.

Lemma adjust_request_limit_never_punishes_witness :
  UserAdmin.adjust_request_limit (db := sqlite_manager) (admin := sqlite_admin)
    (Calculator.init Config.default_config) 1 2 3 "alice" (-20) "abuse"
    (store_with_limit 100)
  = (Ok tt, store_with_limit 80).
Proof.
  destruct (adjust_request_limit_never_punishes Config.default_config 1 2 3
              "alice"%string (-20) "abuse"%string (store_with_limit 100)
              eq_refl) as [Hneg _].
  rewrite Hneg by lia. reflexivity.
Defined.

End Escalation.

(** ** The broker, beyond the claims *)

Section BrokerMore.
Import Spec Cases Overseerr.

Lemma in_range_unbounded x : in_range None None x = true.
Proof. reflexivity. Qed.

(** Whatever one fetch answers, the items the caller sees lie within the
    bounds, and the fetch is logged. *)
Lemma get_user_requests_outcome self user_id start_date end_date status page log :
  snd (get_user_requests self user_id start_date end_date status page 20 log)
  = log ++ [(user_id, page_params status page)]
  /\ match fst (get_user_requests self user_id start_date end_date status
                  page 20 log) with
     | Ok r => Forall (fun x => in_range start_date end_date x = true) (items r)
     | Raise e => transport self user_id (page_params status page) = Raise e
     end.
Proof.
  unfold get_user_requests, bind, get, ret. fold (page_params status page).
  destruct (transport self user_id (page_params status page)) as [r | e];
    [ | split; reflexivity ].
  destruct start_date as [sd |], end_date as [ed |]; cbn [is_set orb fst snd];
    (split; [reflexivity | ]); unfold items; cbn [Response.results default];
    try (apply Forall_forall; intros x Hx;
         apply list_elem_of_In, filter_In in Hx as [_ Hx]; exact Hx).
  apply Forall_forall. intros x _. reflexivity.
Qed.

Lemma fetches_one user_id status page :
  fetches user_id status page 1 = [(user_id, page_params status page)].
Proof. unfold fetches. simpl. rewrite Z.add_0_r. reflexivity. Qed.

(** One fetch, by what the broker answers: a failure is passed on; of a
    page the caller sees the items within the bounds, under the page size
    the broker declared. *)
Lemma get_user_requests_answer self user_id start_date end_date status page log :
  match transport self user_id (page_params status page) with
  | Raise e =>
      get_user_requests self user_id start_date end_date status page 20 log
      = (Raise e, log ++ [(user_id, page_params status page)])
  | Ok r =>
      exists r',
        get_user_requests self user_id start_date end_date status page 20 log
        = (Ok r', log ++ [(user_id, page_params status page)])
        /\ items r' = List.filter (in_range start_date end_date) (items r)
        /\ Response.pageSize r' = Response.pageSize r
  end.
Proof.
  unfold get_user_requests, bind, get, ret. fold (page_params status page).
  destruct (transport self user_id (page_params status page)) as [r | e];
    [ | reflexivity ].
  destruct (is_set start_date || is_set end_date) eqn:Eset.
  - eexists. split; [reflexivity | ]. split; reflexivity.
  - exists r. split; [reflexivity | ]. split; [ | reflexivity ].
    destruct start_date, end_date; try discriminate.
    symmetry. apply filter_all_true.
    apply Forall_forall. intros x _. reflexivity.
Qed.

Lemma serves_nil self user_id status first : serves self user_id status first [].
Proof. intros i r Hi. destruct i; discriminate. Qed.

Lemma serves_cons self user_id status first r answers :
  transport self user_id (page_params status first) = Ok r ->
  serves self user_id status (first + 1) answers ->
  serves self user_id status first (r :: answers).
Proof.
  intros Hr Hs i r' Hi. destruct i as [| i].
  - simpl in Hi. inversion Hi; subst.
    replace (first + Z.of_nat 0) with first by lia. exact Hr.
  - simpl in Hi. apply Hs in Hi.
    replace (first + Z.of_nat (S i)) with (first + 1 + Z.of_nat i) by lia.
    exact Hi.
Qed.

(** The run of the loop, by what the broker answers: the pages fetched
    are consecutive; all but possibly the last were answered, and what is
    returned is what the caller saw of them, in order; a page that fails
    ends the run with its failure. *)
Lemma get_all_loop_trace self user_id start_date end_date status :
  forall (fuel : nat) (page : Z) (all_requests : list RequestData.t) (log : Log),
    exists (k : nat) (answers : list Response.t),
      (k <= fuel)%nat
      /\ snd (get_all_loop fuel self user_id start_date end_date status page
                all_requests log)
         = log ++ fetches user_id status page k
      /\ serves self user_id status page answers
      /\ match fst (get_all_loop fuel self user_id start_date end_date status
                      page all_requests log) with
         | Ok (Some requests) =>
             (1 <= k)%nat
             /\ length answers = k
             /\ requests
                = all_requests
                  ++ concat (map (fun r => List.filter
                                             (in_range start_date end_date)
                                             (items r)) answers)
         | Ok None => k = fuel /\ length answers = k
         | Raise e =>
             (1 <= k)%nat
             /\ length answers = (k - 1)%nat
             /\ transport self user_id
                  (page_params status (page + Z.of_nat k - 1)) = Raise e
         end.
Proof.
  induction fuel as [| fuel IH]; intros page all_requests log.
  - exists 0%nat, []. cbn. rewrite app_nil_r.
    split; [lia | ]. split; [reflexivity | ].
    split; [apply serves_nil | auto].
  - cbn [get_all_loop]. unfold bind.
    pose proof (get_user_requests_answer self user_id start_date end_date
                  status page log) as Hans.
    destruct (transport self user_id (page_params status page))
      as [r | e] eqn:Et.
    + destruct Hans as (r' & -> & Hitems & Hsize).
      fold (items r'). rewrite Hsize.
      destruct (items r') as [| x l] eqn:Ei.
      * exists 1%nat, [r]. cbn [fst snd ret].
        split; [lia | ]. split; [rewrite fetches_one; reflexivity | ].
        split; [apply serves_cons; [exact Et | apply serves_nil] | ].
        split; [lia | ]. split; [reflexivity | ].
        simpl. rewrite <- Hitems. rewrite !app_nil_r. reflexivity.
      * destruct (Z.of_nat (length (x :: l))
                  <? default 20 (Response.pageSize r)).
        -- exists 1%nat, [r]. cbn [fst snd ret].
           split; [lia | ]. split; [rewrite fetches_one; reflexivity | ].
           split; [apply serves_cons; [exact Et | apply serves_nil] | ].
           split; [lia | ]. split; [reflexivity | ].
           simpl. rewrite <- Hitems, app_nil_r. reflexivity.
        -- destruct (IH (page + 1) (all_requests ++ x :: l)
                       (log ++ [(user_id, page_params status page)]))
             as (k & answers & Hk & Hlog' & Hserves & Hres').
           exists (S k), (r :: answers). split; [lia | ]. split.
           { rewrite Hlog', fetches_cons, <- app_assoc. reflexivity. }
           split; [apply serves_cons; [exact Et | exact Hserves] | ].
           destruct (fst (get_all_loop fuel self user_id start_date end_date
                            status (page + 1) (all_requests ++ x :: l)
                            (log ++ [(user_id, page_params status page)])))
             as [[rs |] | e].
           ++ destruct Hres' as (Hk1 & Hlen & Hrs).
              split; [lia | ]. split; [simpl; lia | ].
              rewrite Hrs. simpl. rewrite <- Hitems, <- app_assoc.
              reflexivity.
           ++ destruct Hres' as [-> Hlen]. split; [reflexivity | simpl; lia].
           ++ destruct Hres' as (Hk1 & Hlen & Ht). split; [lia | ].
              split; [simpl; lia | ].
              replace (page + Z.of_nat (S k) - 1)
                with (page + 1 + Z.of_nat k - 1) by lia.
              exact Ht.
    + rewrite Hans. exists 1%nat, []. cbn [fst snd].
      split; [lia | ]. split; [rewrite fetches_one; reflexivity | ].
      split; [apply serves_nil | ].
      split; [lia | ]. split; [reflexivity | ].
      replace (page + Z.of_nat 1 - 1) with page by lia. exact Et.
Qed.

(** X18: Whatever the broker answers, [get_all_user_requests] fetches
    consecutive pages starting with page 1, at most as many as it has
    fuel for.  A fetched page that fails makes the call raise that
    failure: it is the last page fetched, all pages before it were
    answered, and the requests fetched from them are not returned.  When
    the call returns, every fetched page was answered, and the result is
    what the date bounds leave of these pages, in page order. *)
Theorem get_all_user_requests_outcome :
  forall (fuel : nat) (self : OverseerrClient) (user_id : UserId)
         (start_date end_date status : option Z) (log : Log),
    exists (k : nat) (answers : list Response.t),
      (k <= fuel)%nat
      /\ snd (get_all_user_requests fuel self user_id start_date end_date
                status log)
         = log ++ fetches user_id status 1 k
      /\ serves self user_id status 1 answers
      /\ (forall (i : nat) (e : Exception),
            (1 <= i <= k)%nat ->
            transport self user_id (page_params status (Z.of_nat i)) = Raise e ->
            i = k
            /\ fst (get_all_user_requests fuel self user_id start_date
                      end_date status log) = Raise e)
      /\ match fst (get_all_user_requests fuel self user_id start_date
                      end_date status log) with
         | Ok (Some requests) =>
             (1 <= k)%nat
             /\ length answers = k
             /\ requests
                = concat (map (fun r => List.filter
                                          (in_range start_date end_date)
                                          (items r)) answers)
             /\ Forall (fun x => in_range start_date end_date x = true) requests
         | Ok None => k = fuel /\ length answers = k
         | Raise e =>
             (1 <= k)%nat
             /\ length answers = (k - 1)%nat
             /\ transport self user_id (page_params status (Z.of_nat k))
                = Raise e
         end.
Proof.
  intros fuel self user_id start_date end_date status log.
  destruct (get_all_loop_trace self user_id start_date end_date status fuel 1
              [] log) as (k & answers & Hk & Hlog & Hserves & Hres).
  exists k, answers. split; [exact Hk | ]. split; [exact Hlog | ].
  split; [exact Hserves | ].
  unfold get_all_user_requests.
  assert (forall (i : nat) r,
             (1 <= i <= length answers)%nat ->
             transport self user_id (page_params status (Z.of_nat i)) = Raise r ->
             False) as Hanswered.
  { intros i r Hi Ht.
    destruct (lookup_lt_is_Some_2 answers (i - 1)) as [a Ha]; [lia | ].
    apply Hserves in Ha.
    replace (1 + Z.of_nat (i - 1)) with (Z.of_nat i) in Ha by lia.
    congruence. }
  destruct (fst (get_all_loop fuel self user_id start_date end_date status 1
                   [] log)) as [[rs |] | e].
  - destruct Hres as (Hk1 & Hlen & Hrs). split.
    { intros i e Hi Ht. exfalso. apply (Hanswered i e); [lia | exact Ht]. }
    split; [exact Hk1 | ]. split; [exact Hlen | ].
    split; [exact Hrs | ].
    rewrite Hrs. apply Forall_forall. intros x Hx.
    apply list_elem_of_In, in_concat in Hx as (l & Hl & Hx).
    apply in_map_iff in Hl as (r & <- & _).
    apply filter_In in Hx as [_ Hx]. exact Hx.
  - destruct Hres as [Hkf Hlen]. split.
    { intros i e Hi Ht. exfalso. apply (Hanswered i e); [lia | exact Ht]. }
    split; assumption.
  - destruct Hres as (Hk1 & Hlen & Ht).
    replace (1 + Z.of_nat k - 1) with (Z.of_nat k) in Ht by lia.
    split.
    { intros i e' Hi Ht'.
      destruct (decide (i = k)) as [-> | Hne].
      - split; [reflexivity | congruence].
      - exfalso. apply (Hanswered i e'); [lia | exact Ht']. }
    split; [exact Hk1 | ]. split; [exact Hlen | exact Ht].
Qed.

(** X19: A failure of the broker is not tolerated by the aggregation, unlike a
    failed size lookup: when the page loop raises, so does
    [calculate_user_requests_size], with the same exception, whatever its
    class, and no total is returned. *)
Theorem calculate_user_requests_size_broker_failure :
  forall (fuel : nat) (self : SizeCalculator.t) (user_id : UserId)
         (start_date end_date : option Z) (log : Log) (e : Exception),
    transport (SizeCalculator.overseerr self) user_id (page_params None 1)
    = Raise e ->
    (1 <= fuel)%nat ->
    SizeCalculator.calculate_user_requests_size fuel self user_id start_date
      end_date log
    = (Raise e, log ++ [(user_id, page_params None 1)]).
Proof.
  intros fuel self user_id start_date end_date log e Ht Hfuel.
  destruct fuel as [| fuel]; [lia | ].
  unfold SizeCalculator.calculate_user_requests_size, get_all_user_requests, bind.
  cbn [get_all_loop]. unfold bind, get_user_requests, bind, get.
  change {| Params.take := 20; Params.skip := (1 - 1) * 20; Params.status := None |}
    with (page_params None 1).
  rewrite Ht. reflexivity.
Qed.

Lemma calculate_user_requests_size_broker_failure_witness :
  SizeCalculator.calculate_user_requests_size 5 (Scenario.library failing_broker)
    "alice" None None []
  = (Raise (APIError "Request failed: Cannot connect to host"),
     [("alice"%string, page_params None 1)]).
Proof.
  apply (calculate_user_requests_size_broker_failure 5
           (Scenario.library failing_broker) "alice"%string None None []);
    [reflexivity | lia].
Defined.

End BrokerMore.

(** ** Paging through the users *)

Section UsersPaging.
Import Cases OverseerrUsers.
Context {User : Type}.

Lemma user_fetches_cons skip n :
  user_fetches skip (S n) = (20, skip) :: user_fetches (skip + 20) n.
Proof.
  unfold user_fetches. simpl. f_equal; [f_equal; lia | ].
  rewrite <- seq_shift, map_map. apply map_ext.
  intros i. f_equal. lia.
Qed.

Lemma users_served_tail (self : UsersClient User) skip r answers :
  users_served self skip (r :: answers) ->
  users_transport User self 20 skip = Ok r
  /\ users_served self (skip + 20) answers.
Proof.
  intros Hs. split.
  - specialize (Hs 0%nat r eq_refl).
    replace (skip + 20 * Z.of_nat 0) with skip in Hs by lia.
    exact Hs.
  - intros i r' Hi. specialize (Hs (S i) r' Hi).
    replace (skip + 20 + 20 * Z.of_nat i) with (skip + 20 * Z.of_nat (S i)) by lia.
    exact Hs.
Qed.

Lemma get_all_users_loop_pages (self : UsersClient User) :
  forall (full : list (UsersResponse User)) (final : UsersResponse User)
         (fuel : nat) (skip : Z) (all_users : list User) (log : UsersLog),
    users_served self skip (full ++ [final]) ->
    Forall (fun r => 20 <= Z.of_nat (length (user_items r))) full ->
    Z.of_nat (length (user_items final)) < 20 ->
    (length full < fuel)%nat ->
    get_all_users_loop User fuel self skip all_users log
    = (Ok (Some (all_users ++ concat (map user_items (full ++ [final])))),
       log ++ user_fetches skip (S (length full))).
Proof.
  induction full as [| r full IH];
    intros final fuel skip all_users log Hs Hfull Hshort Hfuel.
  - simpl in *. destruct fuel as [| fuel]; [lia | ].
    apply users_served_tail in Hs as [Ht _].
    cbn [get_all_users_loop]. unfold bind, get_users. rewrite Ht.
    fold (user_items final). rewrite app_nil_r.
    rewrite user_fetches_cons. unfold user_fetches at 1. simpl.
    destruct (user_items final) as [| x l] eqn:Ei.
    + rewrite app_nil_r. reflexivity.
    + apply Z.ltb_lt in Hshort. rewrite Hshort. reflexivity.
  - destruct fuel as [| fuel]; [simpl in Hfuel; lia | ].
    change ((r :: full) ++ [final]) with (r :: (full ++ [final])) in *.
    apply users_served_tail in Hs as [Ht Hs].
    apply Forall_cons in Hfull as [Hlen Hfull].
    cbn [get_all_users_loop]. unfold bind, get_users. rewrite Ht.
    fold (user_items r).
    destruct (user_items r) as [| x l] eqn:Ei; [simpl in Hlen; lia | ].
    apply Z.ltb_ge in Hlen. rewrite Hlen.
    rewrite (IH final fuel (skip + 20) _ _ Hs Hfull Hshort)
      by (simpl in Hfuel; lia).
    simpl. rewrite Ei. rewrite <- app_assoc.
    rewrite (user_fetches_cons skip). rewrite <- app_assoc. reflexivity.
Qed.

(** X20: [get_all_users] reads the users twenty at a time: when the broker
    answers the fetches at skip 0, 20, ..., 20(N-1) with twenty users or
    more each and the fetch at skip 20N with fewer than twenty (or none),
    the call, given fuel for N+1 iterations, returns all of them in order
    and issues exactly these N+1 fetches, each with take 20.  The page
    size is the constant 20, not one the broker declares. *)
Theorem get_all_users_pages :
  forall (self : UsersClient User)
         (full : list (UsersResponse User)) (final : UsersResponse User)
         (fuel : nat) (log : UsersLog),
    users_served self 0 (full ++ [final]) ->
    Forall (fun r => 20 <= Z.of_nat (length (user_items r))) full ->
    Z.of_nat (length (user_items final)) < 20 ->
    (length full < fuel)%nat ->
    get_all_users User fuel self log
    = (Ok (Some (concat (map user_items (full ++ [final])))),
       log ++ user_fetches 0 (length full + 1)).
Proof.
  intros self full final fuel log Hs Hfull Hshort Hfuel.
  unfold get_all_users.
  rewrite (get_all_users_loop_pages self full final fuel 0 [] log
             Hs Hfull Hshort Hfuel).
  rewrite Nat.add_1_r. reflexivity.
Qed.

End UsersPaging.

Section UsersPagingWitness.
Import Cases OverseerrUsers.

Lemma get_all_users_pages_witness :
  get_all_users nat 2 users_broker []
  = (Ok (Some (seq 1 22)), [(20, 0); (20, 20)]).
Proof.
  apply (get_all_users_pages users_broker
           [ {| user_results := Some (seq 1 20) |} ]
           {| user_results := Some [21%nat; 22%nat] |} 2%nat []).
  - intros i r Hi. destruct i as [| [| i]]; simpl in Hi; inversion Hi; reflexivity.
  - repeat constructor. vm_compute. discriminate.
  - vm_compute. reflexivity.
  - simpl. lia.
Defined.

End UsersPagingWitness.

(** ** Size lookups *)

Section LookupsMore.
Import Spec Cases SizeCalculator.

Lemma lookup_dispatch (self : SizeCalculator.t) (user_id : UserId)
    (request_data : RequestData.t) :
  lookup self user_id request_data
  = if bool_decide (RequestData.mediaType request_data = "movie"%string)
    then calculate_movie_request_size self (RequestData.tmdbId request_data)
    else if bool_decide (RequestData.mediaType request_data = "tv"%string)
    then calculate_series_request_size self (RequestData.tmdbId request_data)
    else Raise (APIError ("Unknown media type: "
                          ++ RequestData.mediaType request_data)).
Proof.
  unfold lookup, calculate_request_size, to_user_request.
  cbn [UserRequest.media_id UserRequest.media_type].
  rewrite int_of_str_str_Z. reflexivity.
Qed.

Lemma collaborators_settle_lookups (self : SizeCalculator.t) (user_id : UserId) :
  collaborators_api_only self ->
  forall request_data, lookup_settled self user_id request_data.
Proof.
  intros (Hradarr & Hsonarr & Hcorr) rd.
  unfold lookup_settled. rewrite lookup_dispatch.
  destruct (bool_decide (RequestData.mediaType rd = "movie"%string)).
  - unfold calculate_movie_request_size.
    destruct (radarr_get_movie_by_tmdb_id self (RequestData.tmdbId rd))
      as [[m |] | e] eqn:E; [exact I | reflexivity | ].
    exact (Hradarr _ _ E).
  - destruct (bool_decide (RequestData.mediaType rd = "tv"%string));
      [ | reflexivity ].
    unfold calculate_series_request_size.
    destruct (correlation_get_tv_identifiers self (RequestData.tmdbId rd))
      as [[ids |] | e] eqn:E; [ | reflexivity | exact (Hcorr _ _ E) ].
    destruct (tvdb_id ids) as [tvdb |]; [ | reflexivity ].
    destruct (tvdb =? 0); [reflexivity | ].
    destruct (sonarr_get_series_by_tvdb_id self tvdb) as [[sr |] | e] eqn:Es;
      [exact I | reflexivity | exact (Hsonarr _ _ Es)].
Qed.

Lemma process_requests_dates (self : SizeCalculator.t) (user_id : UserId) :
  forall (requests : list RequestData.t) (total_size : Z)
         (processed : list UserRequest.t) (total : Z)
         (out : list UserRequest.t),
    process_requests self user_id requests total_size processed
    = Ok (total, out) ->
    map UserRequest.request_date out
    = map UserRequest.request_date processed
      ++ map RequestData.createdAt requests.
Proof.
  induction requests as [| rd rest IH]; intros total_size processed total out.
  - simpl. intros [= <- <-]. rewrite app_nil_r. reflexivity.
  - simpl.
    destruct (calculate_request_size self (to_user_request user_id rd))
      as [size | e].
    + intros E. rewrite (IH _ _ _ _ E), map_app, <- app_assoc. reflexivity.
    + destruct (is_APIError e); [ | discriminate ].
      intros E. rewrite (IH _ _ _ _ E), map_app, <- app_assoc. reflexivity.
Qed.

(** X21: [calculate_request_size] and the loop of
    [calculate_user_requests_size]: when the movie library, the series
    library and the correlation service fail only with API errors, every
    size lookup of a fetched request (a movie, a series, or an unknown
    media type) either succeeds or fails with an API error, so the loop
    over any fetched list returns, with one entry per request, bearing the
    request's date, in the order fetched. *)
Theorem lookups_settled_by_contract :
  forall (self : SizeCalculator.t) (user_id : UserId),
    collaborators_api_only self ->
    (forall request_data, lookup_settled self user_id request_data)
    /\ forall requests,
         exists total processed,
           process_requests self user_id requests 0 [] = Ok (total, processed)
           /\ total = sum_Z (resolved_sizes self user_id requests)
           /\ map UserRequest.request_date processed
              = map RequestData.createdAt requests.
Proof.
  intros self user_id Hc.
  split; [exact (collaborators_settle_lookups self user_id Hc) | ].
  intros requests.
  destruct (process_requests_settled self user_id requests 0 [])
    as (added & E & Hann).
  { apply Forall_forall. intros rd _.
    apply collaborators_settle_lookups. exact Hc. }
  eexists _, _. split; [exact E | ].
  split; [reflexivity | ].
  exact (process_requests_dates _ _ _ _ _ _ _ E).
Qed.

Lemma lookups_settled_by_contract_witness :
  exists total processed,
    process_requests (Scenario.unreachable_library Scenario.small_broker)
      "alice" Scenario.three_requests 0 [] = Ok (total, processed)
    /\ total = 0
    /\ length processed = 3%nat.
Proof.
  destruct (lookups_settled_by_contract
              (Scenario.unreachable_library Scenario.small_broker)
              "alice"%string) as [_ H].
  { repeat split; intros a e; simpl; intros [= <-]; reflexivity. }
  destruct (H Scenario.three_requests) as (total & processed & E & Ht & Hd).
  exists total, processed. split; [exact E | ].
  split; [rewrite Ht; reflexivity | ].
  rewrite <- (length_map UserRequest.request_date), Hd. reflexivity.
Defined.

End LookupsMore.

(** ** Sizes of several items *)

Section SizeLoops.
Import Cases.







End SizeLoops.

(** ** The tracking service *)

Section TrackingFacts.
Import Spec Cases.







End TrackingFacts.

(** ** Reading the active punishment *)

Section ActiveReads.

Lemma filter_bool_eq {A} (f : A -> bool) (l : list A) :
  filter (fun x => f x = true) l = List.filter f l.
Proof.
  induction l as [| x l IH]; [reflexivity | ].
  rewrite filter_cons. simpl.
  destruct (decide (f x = true)) as [E | E].
  - rewrite E, IH. reflexivity.
  - destruct (f x); [congruence | exact IH].
Qed.

Lemma latest_from_max rows :
  forall b p,
    fold_left
      (fun best p =>
         match best with
         | None => Some p
         | Some b =>
             if UserPunishment.start_date b <? UserPunishment.start_date p
             then Some p else Some b
         end) rows (Some b) = Some p ->
    UserPunishment.start_date b <= UserPunishment.start_date p
    /\ Forall (fun q => UserPunishment.start_date q
                        <= UserPunishment.start_date p) rows.
Proof.
  induction rows as [| x rows IH]; intros b p; simpl.
  - intros [= <-]. split; [lia | constructor].
  - destruct (Z.ltb_spec (UserPunishment.start_date b)
                (UserPunishment.start_date x)) as [Hlt | Hge]; intros E.
    + destruct (IH _ _ E) as [Hx Hrows].
      split; [lia | constructor; [exact Hx | exact Hrows]].
    + destruct (IH _ _ E) as [Hb Hrows].
      split; [exact Hb | constructor; [lia | exact Hrows]].
Qed.

Lemma latest_max rows p :
  Sqlite.latest rows = Some p ->
  In p rows
  /\ Forall (fun q => UserPunishment.start_date q
                      <= UserPunishment.start_date p) rows.
Proof.
  destruct rows as [| x rows]; [discriminate | ].
  intros E. split.
  - destruct (latest_nonempty x rows) as (p' & E' & Hin). congruence.
  - unfold Sqlite.latest in E. simpl in E.
    destruct (latest_from_max _ _ _ E) as [Hx Hrows].
    constructor; [exact Hx | exact Hrows].
Qed.

(** X25: [DatabaseManager.get_active_punishment] changes nothing and never
    raises.  It answers [None] exactly when the user has no active row;
    otherwise it answers an active row of the user, and no active row of
    the user starts later: of several active rows it is the one that
    starts last, not the one inserted last. *)
Theorem get_active_punishment_newest :
  forall (user_id : UserId) (s : Sqlite.Store),
    exists answer,
      Sqlite.get_active_punishment user_id s = (Ok answer, s)
      /\ match answer with
         | None =>
             Forall (fun q => Sqlite.active_for user_id q = false)
               (Sqlite.punishments s)
         | Some p =>
             In p (Sqlite.punishments s)
             /\ UserPunishment.user_id p = user_id
             /\ UserPunishment.is_active p = true
             /\ forall q,
                  In q (Sqlite.punishments s) ->
                  UserPunishment.user_id q = user_id ->
                  UserPunishment.is_active q = true ->
                  UserPunishment.start_date q <= UserPunishment.start_date p
         end.
Proof.
  intros user_id s. unfold Sqlite.get_active_punishment.
  eexists. split; [reflexivity | ].
  rewrite filter_bool_eq.
  destruct (Sqlite.latest
              (List.filter (Sqlite.active_for user_id) (Sqlite.punishments s)))
    as [p |] eqn:E.
  - destruct (latest_max _ _ E) as [Hin Hmax].
    apply filter_In in Hin as [Hin Hact].
    unfold Sqlite.active_for in Hact.
    apply andb_true_iff in Hact as [Hu Ha].
    apply bool_decide_eq_true in Hu.
    split; [exact Hin | ]. split; [exact Hu | ]. split; [exact Ha | ].
    intros q Hq Hqu Hqa.
    rewrite List.Forall_forall in Hmax. apply Hmax.
    apply filter_In. split; [exact Hq | ].
    unfold Sqlite.active_for. rewrite Hqa.
    rewrite bool_decide_eq_true_2 by exact Hqu. reflexivity.
  - destruct (List.filter (Sqlite.active_for user_id) (Sqlite.punishments s))
      as [| x rows] eqn:Ef.
    + apply Forall_forall. intros q Hq.
      apply list_elem_of_In in Hq.
      destruct (Sqlite.active_for user_id q) eqn:Eq; [ | reflexivity ].
      assert (In q []) as Hnil
        by (rewrite <- Ef; apply filter_In; split; assumption).
      destruct Hnil.
    + destruct (latest_nonempty x rows) as (p' & E' & _). congruence.
Qed.

(** X26: [add_punishment], then the reads.  With a reason the insert succeeds;
    afterwards [get_active_punishment] answers the inserted punishment
    under its new id when it was inserted active, and nothing when it was
    inserted inactive, whatever the user had before; and
    [get_user_stats] shows the punishment's level and cooldown days on
    the user's statistics if the user has any, every other figure (the
    request limit among them) unchanged, and still nothing if the user
    has none. *)
Theorem add_punishment_then_reads :
  forall (punishment : UserPunishment.t) (s : Sqlite.Store) (reason : string),
    UserPunishment.reason punishment = Some reason ->
    exists new_id s',
      Sqlite.add_punishment punishment s = (Ok new_id, s')
      /\ Sqlite.get_active_punishment (UserPunishment.user_id punishment) s'
         = (Ok (if UserPunishment.is_active punishment
                then Some (Sqlite.set_id new_id punishment)
                else None), s')
      /\ match fst (Sqlite.get_user_stats
                      (UserPunishment.user_id punishment) s),
               fst (Sqlite.get_user_stats
                      (UserPunishment.user_id punishment) s') with
         | Ok None, Ok None => True
         | Ok (Some before), Ok (Some after) =>
             UserStats.punishment_level after = UserPunishment.level punishment
             /\ UserStats.cooldown_days after
                = UserPunishment.cooldown_days punishment
             /\ UserStats.request_limit after = UserStats.request_limit before
             /\ UserStats.total_requests after
                = UserStats.total_requests before
             /\ UserStats.total_data_usage after
                = UserStats.total_data_usage before
             /\ UserStats.username after = UserStats.username before
         | _, _ => False
         end.
Proof.
  intros punishment s reason Hr.
  unfold Sqlite.add_punishment, bind, get_state, put_state, ret,
    Sqlite.insert_punishment. simpl. rewrite Hr. simpl.
  eexists _, _. split; [reflexivity | ]. split.
  - unfold Sqlite.get_active_punishment. simpl.
    rewrite filter_bool_eq, List.filter_app.
    rewrite (filter_inactive_nil _ _ (deactivate_rows_inactive _ _ _)).
    simpl. unfold Sqlite.active_for at 1. simpl.
    rewrite bool_decide_eq_true_2 by reflexivity. simpl.
    destruct (UserPunishment.is_active punishment); reflexivity.
  - unfold Sqlite.get_user_stats.
    cbn [fst Sqlite.user_stats Sqlite.set_user_stats].
    rewrite lookup_alter_eq.
    generalize (Sqlite.user_stats s !! UserPunishment.user_id punishment).
    intros [row |]; simpl; [ | exact I ].
    repeat split; reflexivity.
Qed.

Lemma add_punishment_then_reads_witness :
  exists new_id s',
    Sqlite.add_punishment Scenario.warning_row Scenario.store_punished
    = (Ok new_id, s')
    /\ Sqlite.get_active_punishment "alice" s'
       = (Ok (Some (Sqlite.set_id new_id Scenario.warning_row)), s').
Proof.
  destruct (add_punishment_then_reads Scenario.warning_row
              Scenario.store_punished "first" ltac:(reflexivity))
    as (new_id & s' & E & Hget & _).
  exists new_id, s'. split; [exact E | exact Hget].
Defined.

End ActiveReads.
